(** * Shaheen: joystick control loop (newcode.py, UIjoy.py)

    A shallow embedding of the two joystick control scripts and the
    properties of their channel mapping, altitude hold, button dispatch,
    battery classification and exit paths.

    Numbers.  Python [int] is [Z].  Python [float] is modelled by the exact
    rationals [Q]: every float expression of the scripts is read as the
    rational expression it rounds, and [int(x)] on a float is truncation
    toward zero.  Comparisons, [min] and [max] are the Python ones.  What is
    stated of float values is what does not rest on rounding: the formula a
    value is computed by, order, ranges and truncation.  Identities that
    hold of rationals only (a weighted mean of two equal values being that
    value, a product being exact) are not stated.

    Effects.  The module-level variables and the locals of [joy_controller]
    that live across iterations are the fields of one [State] record.  Calls
    to the flight-controller link and to the GPIO library are logged in
    [trace]; what those calls return (or that they raise) is supplied per
    loop iteration by a [TickInput].  Inside the loop the curses screen is a
    display only: its calls are taken to return and are not logged, except
    for the battery message.  Outside the loop the screen calls that decide
    what the exit path does are modelled with their failure: the write that
    opens the [finally] clause of newcode.py, and the calls of
    [run_curses]. *)

From Stdlib Require Import ZArith QArith Qround Qabs Qminmax List Bool String Lia Lqa.
Import ListNotations.
Open Scope string_scope.
Open Scope Z_scope.

(** ** Python arithmetic *)

Module Py.

(** [a < b] on floats. *)
Definition ltb (a b : Q) : bool := negb (Qle_bool b a).

(** [int(x)] for a float [x]: truncation toward zero. *)
Definition int (x : Q) : Z := Z.quot (Qnum x) (Z.pos (Qden x)).

(** [min(a, b)]: the first argument unless the second is strictly smaller. *)
Definition min (a b : Q) : Q := if ltb b a then b else a.

(** [max(a, b)]: the first argument unless the second is strictly larger. *)
Definition max (a b : Q) : Q := if ltb a b then b else a.

(** [len(l) > n and l[n]] for a list of button states. *)
Definition pressed (button : list bool) (n : nat) : bool :=
  Nat.ltb n (List.length button) && nth n button false.

End Py.

(** ** Data shared by both scripts *)

(** The [CMDS] dictionary: its six keys are fixed at creation. *)
Record Cmds : Type := mkCmds {
  roll : Z;
  pitch : Z;
  throttle : Z;
  yaw : Z;
  aux1 : Z;
  aux2 : Z
}.

Definition set_roll (v : Z) (c : Cmds) : Cmds :=
  mkCmds v (pitch c) (throttle c) (yaw c) (aux1 c) (aux2 c).
Definition set_pitch (v : Z) (c : Cmds) : Cmds :=
  mkCmds (roll c) v (throttle c) (yaw c) (aux1 c) (aux2 c).
Definition set_throttle (v : Z) (c : Cmds) : Cmds :=
  mkCmds (roll c) (pitch c) v (yaw c) (aux1 c) (aux2 c).
Definition set_yaw (v : Z) (c : Cmds) : Cmds :=
  mkCmds (roll c) (pitch c) (throttle c) v (aux1 c) (aux2 c).
Definition set_aux1 (v : Z) (c : Cmds) : Cmds :=
  mkCmds (roll c) (pitch c) (throttle c) (yaw c) v (aux2 c).
Definition set_aux2 (v : Z) (c : Cmds) : Cmds :=
  mkCmds (roll c) (pitch c) (throttle c) (yaw c) (aux1 c) v.

(** [CMDS = {'roll': 1500, 'pitch': 1500, 'throttle': 900, 'yaw': 1500,
    'aux1': 1000, 'aux2': 1000}] *)
Definition CMDS_init : Cmds := mkCmds 1500 1500 900 1500 1000 1000.

(** [[CMDS[k] for k in CMDS_ORDER]] *)
Definition CMDS_ORDER (c : Cmds) : list Z :=
  [roll c; pitch c; throttle c; yaw c; aux1 c; aux2 c].

(** Calls that leave the process. *)
Inductive Event : Type :=
| send_RAW_RC (frame : list Z)
| fast_read_altitude
| reboot
| send_RAW_msg (code : string)
| show_voltage_msg (msg : string)
| GPIO_output (pin : Z) (high : bool)
| GPIO_cleanup
| MSPy_exit.

(** Exceptions that are not caught inside the loop; [CursesError] is the
    [curses.error] of a screen call. *)
Inductive exn : Type :=
| IndexError
| UnboundLocalError
| RuntimeError
| LinkError
| CursesError.

Inductive result (A : Type) : Type :=
| Ok (a : A)
| Raise (e : exn).
Arguments Ok {A} a.
Arguments Raise {A} e.

(** How an iteration of [while True] ends. *)
Inductive control : Type :=
| Continue
| Break.

(** [def scale_axis(val): return int(1500 + max(-200, min(200, int(val * 200))))] *)
Definition scale_axis (val : Q) : Z :=
  1500 + Z.max (-200) (Z.min 200 (Py.int (val * 200))).

(** What one pass of [update()] delivers: [None] when it raises
    (no joystick, or a driver error), else the new [axis] and [button]. *)
Definition Snapshot : Type := (list Q * list bool)%type.

(** What the environment answers during one loop iteration. *)
Record TickInput : Type := mkTick {
  update : option Snapshot;
  (* SENSOR_DATA['altitude'] after fast_read_altitude() in the hold branch;
     None when the call raises *)
  altitude_hold : option Q;
  (* the same for the call in the toggle branch *)
  altitude_toggle : option Q;
  (* board.reboot() returns *)
  reboot_ok : bool;
  (* value of board.send_RAW_RC(...); None when it raises *)
  rc_accepted : option bool;
  (* receive_msg / process_recv_data after the frame return *)
  rc_received : bool;
  (* the same two for the slow telemetry query *)
  msg_accepted : option bool;
  msg_received : bool;
  (* board.ANALOG.get('voltage', 0.0) *)
  voltage : Q;
  (* time.time() in the toggle branch, and at the two rate checks *)
  now_toggle : Q;
  now_fast : Q;
  now_fast_set : Q;
  now_slow : Q;
  now_slow_set : Q
}.

(** How [joy_controller] stands after a finite prefix of iterations: still
    in the loop, or left by [return 1], by [break] or by an exception. *)
Inductive loop_exit : Type :=
| Running
| Returned_1
| Left_by_break
| Left_by_raise (e : exn).

(** *** A state-and-exception monad for the loop body *)

Section Monad.

Context {S : Type}.

Definition M (A : Type) : Type := S -> S * result A.

Definition ret {A} (a : A) : M A := fun s => (s, Ok a).

Definition bind {A B} (m : M A) (k : A -> M B) : M B :=
  fun s => match m s with
           | (s', Ok a) => k a s'
           | (s', Raise e) => (s', Raise e)
           end.

Definition raise {A} (e : exn) : M A := fun s => (s, Raise e).

Definition gets {A} (f : S -> A) : M A := fun s => (s, Ok (f s)).

Definition modify (f : S -> S) : M unit := fun s => (f s, Ok tt).

(** [l[n]] on the axis list: [IndexError] out of range. *)
Definition index (l : list Q) (n : nat) : M Q :=
  match nth_error l n with
  | Some a => ret a
  | None => raise IndexError
  end.

(** The loop on a finite prefix of iterations. *)
Fixpoint while_true (body : TickInput -> M control) (inputs : list TickInput)
  (s : S) : S * loop_exit :=
  match inputs with
  | [] => (s, Running)
  | i :: rest =>
      match body i s with
      | (s', Ok Continue) => while_true body rest s'
      | (s', Ok Break) => (s', Left_by_break)
      | (s', Raise e) => (s', Left_by_raise e)
      end
  end.

(** [m] keeps [P] true of the state, whether it returns or raises. *)
Definition preserves (P : S -> Prop) {A} (m : M A) : Prop :=
  forall s, P s -> P (fst (m s)).

(** [try: body finally: clause].  The clause runs however the body ends;
    an exception of the clause replaces the outcome of the body. *)
Definition try_finally {A} (body : M A) (clause : M unit) : M A :=
  fun s => match body s with
           | (s1, r) =>
               match clause s1 with
               | (s2, Ok _) => (s2, r)
               | (s2, Raise e) => (s2, Raise e)
               end
           end.

End Monad.

Arguments M S A : clear implicits.

Notation "x <- m ;; k" := (bind m (fun x => k))
  (at level 61, m at next level, right associativity).
Notation "m ;; k" := (bind m (fun _ => k))
  (at level 61, right associativity).


(** ** newcode.py *)

Module NewCode.

Definition CTRL_LOOP_TIME : Q := 1 / 100.
Definition SLOW_MSGS_LOOP_TIME : Q := 1 / 5.
Definition Kp : Q := 50.
Definition Ki : Q := 10.
Definition DEBOUNCE_TIME : Q := 0.5.
Definition ALT_FILTER_ALPHA : Q := 0.01.
Definition PIN : Z := 23.

(** The module-level variables, the locals of [joy_controller] that survive
    an iteration, the level of the output pin and the log of outside calls.
    [ei] is assigned inside [joy_controller] and is not in its [global]
    statement, so it is a local there: unbound ([None]) until the toggle
    branch assigns it. *)
Record State : Type := mkState {
  CMDS : Cmds;
  alt_hold : bool;
  alt_setpoint : Q;
  alt : Q;
  eh : Q;
  ei : option Q;
  last_alt_toggle_time : Q;
  filtered_alt : Q;
  yaw_trim : Z;
  state23 : bool;
  cursor_msg : string;
  last_loop_time : Q;
  last_slow_msg_time : Q;
  slow_msgs : nat;
  pin23 : bool;
  trace : list Event
}.

Definition set_CMDS v (s : State) : State :=
  mkState v (alt_hold s) (alt_setpoint s) (alt s) (eh s) (ei s) (last_alt_toggle_time s) (filtered_alt s) (yaw_trim s) (state23 s) (cursor_msg s) (last_loop_time s) (last_slow_msg_time s) (slow_msgs s) (pin23 s) (trace s).
Definition set_alt_hold v (s : State) : State :=
  mkState (CMDS s) v (alt_setpoint s) (alt s) (eh s) (ei s) (last_alt_toggle_time s) (filtered_alt s) (yaw_trim s) (state23 s) (cursor_msg s) (last_loop_time s) (last_slow_msg_time s) (slow_msgs s) (pin23 s) (trace s).
Definition set_alt_setpoint v (s : State) : State :=
  mkState (CMDS s) (alt_hold s) v (alt s) (eh s) (ei s) (last_alt_toggle_time s) (filtered_alt s) (yaw_trim s) (state23 s) (cursor_msg s) (last_loop_time s) (last_slow_msg_time s) (slow_msgs s) (pin23 s) (trace s).
Definition set_alt v (s : State) : State :=
  mkState (CMDS s) (alt_hold s) (alt_setpoint s) v (eh s) (ei s) (last_alt_toggle_time s) (filtered_alt s) (yaw_trim s) (state23 s) (cursor_msg s) (last_loop_time s) (last_slow_msg_time s) (slow_msgs s) (pin23 s) (trace s).
Definition set_eh v (s : State) : State :=
  mkState (CMDS s) (alt_hold s) (alt_setpoint s) (alt s) v (ei s) (last_alt_toggle_time s) (filtered_alt s) (yaw_trim s) (state23 s) (cursor_msg s) (last_loop_time s) (last_slow_msg_time s) (slow_msgs s) (pin23 s) (trace s).
Definition set_ei v (s : State) : State :=
  mkState (CMDS s) (alt_hold s) (alt_setpoint s) (alt s) (eh s) v (last_alt_toggle_time s) (filtered_alt s) (yaw_trim s) (state23 s) (cursor_msg s) (last_loop_time s) (last_slow_msg_time s) (slow_msgs s) (pin23 s) (trace s).
Definition set_last_alt_toggle_time v (s : State) : State :=
  mkState (CMDS s) (alt_hold s) (alt_setpoint s) (alt s) (eh s) (ei s) v (filtered_alt s) (yaw_trim s) (state23 s) (cursor_msg s) (last_loop_time s) (last_slow_msg_time s) (slow_msgs s) (pin23 s) (trace s).
Definition set_filtered_alt v (s : State) : State :=
  mkState (CMDS s) (alt_hold s) (alt_setpoint s) (alt s) (eh s) (ei s) (last_alt_toggle_time s) v (yaw_trim s) (state23 s) (cursor_msg s) (last_loop_time s) (last_slow_msg_time s) (slow_msgs s) (pin23 s) (trace s).
Definition set_yaw_trim v (s : State) : State :=
  mkState (CMDS s) (alt_hold s) (alt_setpoint s) (alt s) (eh s) (ei s) (last_alt_toggle_time s) (filtered_alt s) v (state23 s) (cursor_msg s) (last_loop_time s) (last_slow_msg_time s) (slow_msgs s) (pin23 s) (trace s).
Definition set_state23 v (s : State) : State :=
  mkState (CMDS s) (alt_hold s) (alt_setpoint s) (alt s) (eh s) (ei s) (last_alt_toggle_time s) (filtered_alt s) (yaw_trim s) v (cursor_msg s) (last_loop_time s) (last_slow_msg_time s) (slow_msgs s) (pin23 s) (trace s).
Definition set_cursor_msg v (s : State) : State :=
  mkState (CMDS s) (alt_hold s) (alt_setpoint s) (alt s) (eh s) (ei s) (last_alt_toggle_time s) (filtered_alt s) (yaw_trim s) (state23 s) v (last_loop_time s) (last_slow_msg_time s) (slow_msgs s) (pin23 s) (trace s).
Definition set_last_loop_time v (s : State) : State :=
  mkState (CMDS s) (alt_hold s) (alt_setpoint s) (alt s) (eh s) (ei s) (last_alt_toggle_time s) (filtered_alt s) (yaw_trim s) (state23 s) (cursor_msg s) v (last_slow_msg_time s) (slow_msgs s) (pin23 s) (trace s).
Definition set_last_slow_msg_time v (s : State) : State :=
  mkState (CMDS s) (alt_hold s) (alt_setpoint s) (alt s) (eh s) (ei s) (last_alt_toggle_time s) (filtered_alt s) (yaw_trim s) (state23 s) (cursor_msg s) (last_loop_time s) v (slow_msgs s) (pin23 s) (trace s).
Definition set_slow_msgs v (s : State) : State :=
  mkState (CMDS s) (alt_hold s) (alt_setpoint s) (alt s) (eh s) (ei s) (last_alt_toggle_time s) (filtered_alt s) (yaw_trim s) (state23 s) (cursor_msg s) (last_loop_time s) (last_slow_msg_time s) v (pin23 s) (trace s).
Definition set_pin23 v (s : State) : State :=
  mkState (CMDS s) (alt_hold s) (alt_setpoint s) (alt s) (eh s) (ei s) (last_alt_toggle_time s) (filtered_alt s) (yaw_trim s) (state23 s) (cursor_msg s) (last_loop_time s) (last_slow_msg_time s) (slow_msgs s) v (trace s).
Definition set_trace v (s : State) : State :=
  mkState (CMDS s) (alt_hold s) (alt_setpoint s) (alt s) (eh s) (ei s) (last_alt_toggle_time s) (filtered_alt s) (yaw_trim s) (state23 s) (cursor_msg s) (last_loop_time s) (last_slow_msg_time s) (slow_msgs s) (pin23 s) v.

(** Values on entry to [while True], the clock reading [t0] being the one
    taken for the three timers. *)
Definition init (t0 : Q) : State :=
  mkState CMDS_init false 0 0 0 None 0 0 0 false "" t0 t0 0 false [].

Definition emit (e : Event) : M State unit :=
  modify (fun s => set_trace (trace s ++ [e])%list s).

(** [CMDS[key] = v] *)
Definition assign_CMDS (f : Z -> Cmds -> Cmds) (v : Z) : M State unit :=
  modify (fun s => set_CMDS (f v (CMDS s)) s).

(** A call on [board] that returns nothing of interest and may raise. *)
Definition board_call (e : Event) (ok : bool) : M State unit :=
  emit e ;; if ok then ret tt else raise LinkError.

(** [board.fast_read_altitude()] followed by reading
    [board.SENSOR_DATA['altitude']]. *)
Definition read_altitude (answer : option Q) : M State Q :=
  emit fast_read_altitude ;;
  match answer with
  | Some a => ret a
  | None => raise LinkError
  end.

(** *** Channel mapping (lines 157-180) *)

Definition scale_yaw (button : list bool) : M State Z :=
  t <- gets yaw_trim ;;
  (if Py.pressed button 5 then modify (set_yaw_trim (Z.min 100 (t + 10)))
   else if Py.pressed button 4 then modify (set_yaw_trim (Z.max (-100) (t - 10)))
   else modify (set_yaw_trim 0)) ;;
  t' <- gets yaw_trim ;;
  ret (1500 + t').

Definition scale_throttle (val : Q) : Z :=
  let val := Py.max (-1) (Py.min 1 val) in
  if Qle_bool 0 val
  then Py.int (1600 + val * (1800 - 1600))
  else Py.int (1600 + val * (1600 - 950)).

(** The four raw channel values, in the order the script computes them. *)
Definition channel_map (snap : Snapshot) : M State (Z * Z * Z * Z) :=
  let (axis, button) := snap in
  a1 <- index axis 1 ;;
  let raw_throttle := scale_throttle (- a1) in
  a3 <- index axis 3 ;;
  let raw_roll := scale_axis a3 in
  a4 <- index axis 4 ;;
  let raw_pitch := scale_axis (- a4) in
  raw_yaw <- scale_yaw button ;;
  ret (raw_throttle, raw_roll, raw_pitch, raw_yaw).

(** *** Throttle: direct, or from the altitude-hold controller (lines 182-191) *)

Definition throttle_stage (i : TickInput) (raw_throttle : Z) : M State unit :=
  hold <- gets alt_hold ;;
  if negb hold then assign_CMDS set_throttle raw_throttle
  else
    a <- read_altitude (altitude_hold i) ;;
    modify (set_alt a) ;;
    f <- gets filtered_alt ;;
    modify (set_filtered_alt (ALT_FILTER_ALPHA * a + (1 - ALT_FILTER_ALPHA) * f)) ;;
    sp <- gets alt_setpoint ;;
    f' <- gets filtered_alt ;;
    modify (set_eh (sp - f')) ;;
    e <- gets eh ;;
    acc <- gets ei ;;
    match acc with
    | None => raise UnboundLocalError
    | Some x =>
        let acc' := (x + e * CTRL_LOOP_TIME)%Q in
        modify (set_ei (Some acc')) ;;
        let throttle_cmd := (1570 + Kp * e + Ki * acc')%Q in
        assign_CMDS set_throttle (Z.max 900 (Z.min 1600 (Py.int throttle_cmd)))
    end.

(** *** Button mappings (lines 199-228) *)

Definition button_dispatch (i : TickInput) (button : list bool) : M State control :=
  if Py.pressed button 9 then
    board_call reboot (reboot_ok i) ;;
    ret Break
  else if Py.pressed button 0 then
    modify (set_cursor_msg "Sending Arm command...") ;;
    assign_CMDS set_aux1 1800 ;;
    ret Continue
  else if Py.pressed button 1 then
    modify (set_cursor_msg "Sending Disarm command...") ;;
    assign_CMDS set_aux1 1000 ;;
    ret Continue
  else if Py.pressed button 3 then
    modify (fun s => set_state23 (negb (state23 s)) s) ;;
    level <- gets state23 ;;
    modify (set_pin23 level) ;;
    emit (GPIO_output PIN level) ;;
    ret Continue
  else if Py.pressed button 2 then
    assign_CMDS set_aux2 1800 ;;
    modify (set_cursor_msg "FAILSAFE") ;;
    ret Continue
  else if Py.pressed button 7 then
    let now := now_toggle i in
    last <- gets last_alt_toggle_time ;;
    if Py.ltb DEBOUNCE_TIME (now - last) then
      modify (set_last_alt_toggle_time now) ;;
      a <- read_altitude (altitude_toggle i) ;;
      modify (set_alt_setpoint a) ;;
      modify (set_filtered_alt a) ;;
      modify (set_ei (Some 0%Q)) ;;
      modify (fun s => set_alt_hold (negb (alt_hold s)) s) ;;
      hold <- gets alt_hold ;;
      modify (set_cursor_msg
                ("Altitude Hold " ++ (if hold then "ON" else "OFF") ++ "       ")) ;;
      ret Continue
    else ret Continue
  else ret Continue.

(** *** Fast-rate frame (lines 230-234) *)

Definition fast_send (i : TickInput) : M State unit :=
  last <- gets last_loop_time ;;
  if Qle_bool CTRL_LOOP_TIME (now_fast i - last) then
    modify (set_last_loop_time (now_fast_set i)) ;;
    c <- gets CMDS ;;
    emit (send_RAW_RC (CMDS_ORDER c)) ;;
    match rc_accepted i with
    | None => raise LinkError
    | Some true => if rc_received i then ret tt else raise LinkError
    | Some false => ret tt
    end
  else ret tt.

(** *** Slow-rate telemetry (lines 236-281) *)

(** [slow_msgs = cycle([...])]: the state is the number of items drawn. *)
Definition slow_msgs_list : list string :=
  ["MSP_ANALOG"; "MSP_STATUS_EX"; "MSP_MOTOR"; "MSP_RC"].

Definition next_slow_msg (n : nat) : string :=
  nth (n mod 4) slow_msgs_list "".

(** Lines 245-251; the empty message is the normal band. *)
Definition voltage_msg (min_voltage warn_voltage max_voltage voltage : Q) : string :=
  if Py.ltb min_voltage voltage && Qle_bool voltage warn_voltage
  then "LOW BATT WARNING"
  else if Qle_bool voltage min_voltage
  then "ULTRA LOW BATT!!!"
  else if Qle_bool max_voltage voltage
  then "VOLTAGE TOO HIGH"
  else "".

(** Thresholds computed once before the loop (lines 132-135). *)
Record Battery : Type := mkBattery {
  cellCount : Q;
  vbatmincellvoltage : Q;
  vbatwarningcellvoltage : Q;
  vbatmaxcellvoltage : Q
}.

Definition min_voltage (b : Battery) : Q := vbatmincellvoltage b * cellCount b.
Definition warn_voltage (b : Battery) : Q := vbatwarningcellvoltage b * cellCount b.
Definition max_voltage (b : Battery) : Q := vbatmaxcellvoltage b * cellCount b.

Definition slow_step (b : Battery) (i : TickInput) : M State unit :=
  last <- gets last_slow_msg_time ;;
  if Qle_bool SLOW_MSGS_LOOP_TIME (now_slow i - last) then
    modify (set_last_slow_msg_time (now_slow_set i)) ;;
    n <- gets slow_msgs ;;
    let next_msg := next_slow_msg n in
    modify (set_slow_msgs (S n)) ;;
    emit (send_RAW_msg next_msg) ;;
    match msg_accepted i with
    | None => raise LinkError
    | Some true => if msg_received i then ret tt else raise LinkError
    | Some false => ret tt
    end ;;
    if String.eqb next_msg "MSP_ANALOG" then
      emit (show_voltage_msg
              (voltage_msg (min_voltage b) (warn_voltage b) (max_voltage b) (voltage i)))
    else ret tt
  else ret tt.

(** *** One iteration of [while True] (lines 146-288) *)

(** Lines 157-197: the raw values, then the four flight channels. *)
Definition channels_stage (i : TickInput) (snap : Snapshot) : M State unit :=
  raw <- channel_map snap ;;
  let '(raw_throttle, raw_roll, raw_pitch, raw_yaw) := raw in
  throttle_stage i raw_throttle ;;
  assign_CMDS set_yaw raw_yaw ;;
  assign_CMDS set_roll raw_roll ;;
  assign_CMDS set_pitch raw_pitch.

(** Lines 230-281: the two rate-limited exchanges with the board. *)
Definition rates_stage (b : Battery) (i : TickInput) : M State unit :=
  fast_send i ;;
  slow_step b i.

Definition loop_body (b : Battery) (i : TickInput) : M State control :=
  match update i with
  | None =>
      (* except Exception: CMDS['aux2'] = 1800; continue *)
      assign_CMDS set_aux2 1800 ;;
      ret Continue
  | Some snap =>
      channels_stage i snap ;;
      c <- button_dispatch i (snd snap) ;;
      match c with
      | Break => ret Break
      | Continue =>
          rates_stage b i ;;
          ret Continue
      end
  end.

(** *** Around the loop (lines 105-143 and 290-294) *)

(** What [joy_controller] meets outside the loop. *)
Record Startup : Type := mkStartup {
  (* what line 106 or MSPy(...) raises, so that the with block is not
     entered *)
  before_with_raises : option exn;
  (* MSPy(...).__enter__() did not return 1 *)
  board_ok : bool;
  (* getattr(board, 'INAV', False) *)
  INAV : bool;
  (* what lines 111-143 raise, if anything, and after how many of the setup
     queries *)
  setup_raises : option (nat * exn);
  battery : Battery;
  (* the time.time() of line 139 *)
  t0 : Q;
  (* screen.addstr of line 291 returns *)
  exit_addstr_ok : bool;
  (* screen.clrtoeol of line 294 returns *)
  exit_clrtoeol_ok : bool
}.

(** Pin set up and driven low by the [__main__] block before the call. *)
Definition main_entry (t : Q) : State :=
  set_trace [GPIO_output PIN false] (init t).

(** Lines 118-125. *)
Definition command_list (inav : bool) : list string :=
  (["MSP_API_VERSION"; "MSP_FC_VARIANT"; "MSP_FC_VERSION"; "MSP_BUILD_INFO";
    "MSP_BOARD_INFO"; "MSP_UID"; "MSP_ACC_TRIM"; "MSP_NAME";
    "MSP_STATUS"; "MSP_STATUS_EX"; "MSP_BATTERY_CONFIG";
    "MSP_BATTERY_STATE"; "MSP_BOXNAMES"]
   ++ (if inav then ["MSPV2_INAV_ANALOG"; "MSP_VOLTAGE_METER_CONFIG"] else []))%list.

(** [for msg in command_list: board.send_RAW_msg(MSPy.MSPCodes[msg], data=[])] *)
Fixpoint send_all (msgs : list string) : M State unit :=
  match msgs with
  | [] => ret tt
  | msg :: rest => emit (send_RAW_msg msg) ;; send_all rest
  end.

(** Lines 111-143: the setup queries, all of them unless something raises
    on the way. *)
Definition setup (st : Startup) : M State unit :=
  match setup_raises st with
  | None => send_all (command_list (INAV st))
  | Some (n, e) => send_all (firstn n (command_list (INAV st))) ;; raise e
  end.

(** The body of the [with] block, run on a finite prefix of loop
    iterations. *)
Definition with_body (st : Startup) (inputs : list TickInput)
  : State * loop_exit :=
  let s := main_entry (t0 st) in
  if negb (board_ok st) then (s, Returned_1)
  else
    match setup st s with
    | (s', Raise e) => (s', Left_by_raise e)
    | (s', Ok _) => while_true (loop_body (battery st)) inputs s'
    end.

(** Leaving the [with MSPy(...) as board] block. *)
Definition with_exit (s : State) : State :=
  set_trace (trace s ++ [MSPy_exit])%list s.

(** The body of the [try]: line 106, then the [with] block, which releases
    the link however its body is left. *)
Definition try_body (st : Startup) (inputs : list TickInput)
  : State * loop_exit :=
  match before_with_raises st with
  | Some e => (main_entry (t0 st), Left_by_raise e)
  | None =>
      match with_body st inputs with
      | (s, Running) => (s, Running)
      | (s, e) => (with_exit s, e)
      end
  end.

(** The [finally] clause (lines 291-294).  The screen write comes first:
    when it raises, the two GPIO calls are not reached. *)
Definition finally (st : Startup) : M State unit :=
  (if exit_addstr_ok st then ret tt else raise CursesError) ;;
  emit (GPIO_output PIN false) ;;
  modify (set_pin23 false) ;;
  emit GPIO_cleanup ;;
  if exit_clrtoeol_ok st then ret tt else raise CursesError.

(** [joy_controller], run on a finite prefix of loop iterations.  While the
    loop is still running the function has not been left; once it is, the
    [finally] clause runs, and an exception of the clause replaces the way
    the body was left. *)
Definition joy_controller (st : Startup) (inputs : list TickInput)
  : State * loop_exit :=
  match try_body st inputs with
  | (s, Running) => (s, Running)
  | (s, e) =>
      match finally st s with
      | (s', Ok _) => (s', e)
      | (s', Raise x) => (s', Left_by_raise x)
      end
  end.

End NewCode.

(** ** UIjoy.py *)

Module UIjoy.

(** [throttle_trim] is the one module-level variable the loop writes. *)
Record State : Type := mkState {
  CMDS : Cmds;
  throttle_trim : Z;
  trace : list Event
}.

Definition set_CMDS v (s : State) : State :=
  mkState v (throttle_trim s) (trace s).
Definition set_throttle_trim v (s : State) : State :=
  mkState (CMDS s) v (trace s).
Definition set_trace v (s : State) : State :=
  mkState (CMDS s) (throttle_trim s) v.

Definition init : State := mkState CMDS_init 0 [].

Definition emit (e : Event) : M State unit :=
  modify (fun s => set_trace (trace s ++ [e])%list s).

Definition assign_CMDS (f : Z -> Cmds -> Cmds) (v : Z) : M State unit :=
  modify (fun s => set_CMDS (f v (CMDS s)) s).

(** Lines 113-125: throttle from the trim buttons, the three axes. *)
Definition channel_map (snap : Snapshot) : M State unit :=
  let (axis, button) := snap in
  t <- gets throttle_trim ;;
  (if Py.pressed button 7 then modify (set_throttle_trim (Z.min 1200 (t + 5)))
   else if Py.pressed button 6 then modify (set_throttle_trim (Z.max 0 (t - 5)))
   else ret tt) ;;
  t' <- gets throttle_trim ;;
  assign_CMDS set_throttle (900 + t') ;;
  a3 <- index axis 3 ;;
  assign_CMDS set_roll (scale_axis a3) ;;
  a4 <- index axis 4 ;;
  assign_CMDS set_pitch (scale_axis (- a4)) ;;
  a0 <- index axis 0 ;;
  assign_CMDS set_yaw (scale_axis a0).

(** Lines 127-139: arm, disarm, mode, failsafe, reboot. *)
Definition button_dispatch (i : TickInput) (button : list bool) : M State control :=
  if Py.pressed button 0 then
    assign_CMDS set_aux1 1800 ;;
    ret Continue
  else if Py.pressed button 1 then
    assign_CMDS set_aux1 1000 ;;
    ret Continue
  else if Py.pressed button 3 then
    c <- gets CMDS ;;
    assign_CMDS set_aux2 ((aux2 c + 500) mod 2000) ;;
    ret Continue
  else if Py.pressed button 2 then
    assign_CMDS set_aux2 1800 ;;
    ret Continue
  else if Py.pressed button 9 then
    emit reboot ;;
    (if reboot_ok i then ret tt else raise LinkError) ;;
    ret Break
  else ret Continue.

(** Lines 141-144: the frame goes out on every iteration that gets here. *)
Definition send_RC (i : TickInput) : M State unit :=
  c <- gets CMDS ;;
  emit (send_RAW_RC (CMDS_ORDER c)) ;;
  match rc_accepted i with
  | None => raise LinkError
  | Some true => if rc_received i then ret tt else raise LinkError
  | Some false => ret tt
  end.

Definition loop_body (i : TickInput) : M State control :=
  match update i with
  | None =>
      assign_CMDS set_aux2 1800 ;;
      ret Continue
  | Some snap =>
      channel_map snap ;;
      c <- button_dispatch i (snd snap) ;;
      match c with
      | Break => ret Break
      | Continue =>
          send_RC i ;;
          ret Continue
      end
  end.

Definition with_exit (s : State) : State :=
  set_trace (trace s ++ [MSPy_exit])%list s.

(** The [finally] clause only writes to the screen. *)
Definition finally (s : State) : State := s.

(** [joy_controller] on a finite prefix of loop iterations, from the entry
    of the [with] block; [board_ok] as in newcode.py, [setup_raises] what
    lines 91-99 raise (there are no setup queries here).  The [finally]
    clause holds two screen calls and nothing else. *)
Definition joy_controller (board_ok : bool) (setup_raises : option exn)
  (inputs : list TickInput) : State * loop_exit :=
  let s := init in
  if negb board_ok then (finally (with_exit s), Returned_1)
  else
    match setup_raises with
    | Some e => (finally (with_exit s), Left_by_raise e)
    | None =>
        match while_true loop_body inputs s with
        | (s', Running) => (s', Running)
        | (s', e) => (finally (with_exit s'), e)
        end
    end.

End UIjoy.

(** ** Vocabulary of the properties *)

(** The float that [scale_throttle] hands to [int]: the two linear branches
    of lines 173 and 175 on the clamped input. *)
Definition throttle_curve (val : Q) : Q :=
  let val := Py.max (-1) (Py.min 1 val) in
  if Qle_bool 0 val
  then 1600 + val * (1800 - 1600)
  else 1600 + val * (1600 - 950).


(** The four battery bands and the message newcode.py shows for each. *)
Inductive Band : Type :=
| critical
| low_warning
| normal
| over_voltage.

Definition band_msg (b : Band) : string :=
  match b with
  | critical => "ULTRA LOW BATT!!!"
  | low_warning => "LOW BATT WARNING"
  | normal => ""
  | over_voltage => "VOLTAGE TOO HIGH"
  end.

(** The channel frames among some logged calls. *)
Definition frames_in (l : list Event) : list (list Z) :=
  flat_map (fun e => match e with send_RAW_RC f => [f] | _ => [] end) l.

(** The frames one iteration of newcode.py sends from state [s]. *)
Definition sent_during (b : NewCode.Battery) (i : TickInput) (s : NewCode.State)
  : list (list Z) :=
  frames_in (skipn (List.length (NewCode.trace s))
               (NewCode.trace (fst (NewCode.loop_body b i s)))).


(** Sample inputs: a 3-cell pack, an iteration on which [update()] raises,
    and one at clock reading [t] with the given axes and buttons on which
    every call on the board succeeds and the altitude read is [a]. *)
Definition battery_3s : NewCode.Battery := NewCode.mkBattery 3 3.5 3.6 4.2.

Definition tick_lost (t : Q) : TickInput :=
  mkTick None None None true (Some true) true (Some true) true 11.5 t t t t t.

Definition tick_at (t : Q) (axis : list Q) (button : list bool) (a : Q)
  : TickInput :=
  mkTick (Some (axis, button)) (Some a) (Some a) true (Some true) true
    (Some true) true 11.5 t t t t t.

Definition sticks_centred : list Q := [0; 0; 0; 0; 0; 0]%Q.

(** The state in which newcode.py stands when its exit path begins: at
    the entry of the function when the [with] block is not entered, else
    where the body of the [with] block is left. *)
Definition newcode_left_at (st : NewCode.Startup) (inputs : list TickInput)
  : NewCode.State :=
  match NewCode.before_with_raises st with
  | Some _ => NewCode.main_entry (NewCode.t0 st)
  | None => fst (NewCode.with_body st inputs)
  end.

(** The calls the exit path of newcode.py makes: the release of the link
    when the [with] block was entered, then the two GPIO calls when the
    screen write of line 291 returns. *)
Definition newcode_exit_calls (st : NewCode.Startup) : list Event :=
  (match NewCode.before_with_raises st with
   | Some _ => []
   | None => [MSPy_exit]
   end
   ++ (if NewCode.exit_addstr_ok st
       then [GPIO_output NewCode.PIN false; GPIO_cleanup]
       else []))%list.

(** What the exit path of newcode.py adds to the log. *)
Definition newcode_cleanup_log (st : NewCode.Startup) (inputs : list TickInput)
  : list Event :=
  skipn (List.length (NewCode.trace (newcode_left_at st inputs)))
    (NewCode.trace (fst (NewCode.joy_controller st inputs))).

Definition uijoy_left_at (board_ok : bool) (setup_raises : option exn)
  (inputs : list TickInput) : UIjoy.State :=
  if negb board_ok then UIjoy.init
  else match setup_raises with
       | Some _ => UIjoy.init
       | None => fst (while_true UIjoy.loop_body inputs UIjoy.init)
       end.

Definition uijoy_cleanup_log (board_ok : bool) (setup_raises : option exn)
  (inputs : list TickInput) : list Event :=
  skipn (List.length (UIjoy.trace (uijoy_left_at board_ok setup_raises inputs)))
    (UIjoy.trace (fst (UIjoy.joy_controller board_ok setup_raises inputs))).

(** Cleanup as the specification words it: once [joy_controller] is left,
    the exit path has sent a channel frame, released the link and driven
    the pin low. *)
Definition cleanup_as_specified (st : NewCode.Startup) (inputs : list TickInput)
  : Prop :=
  snd (NewCode.joy_controller st inputs) <> Running ->
  (exists frame, In (send_RAW_RC frame) (newcode_cleanup_log st inputs)) /\
  In MSPy_exit (newcode_cleanup_log st inputs) /\
  In (GPIO_output NewCode.PIN false) (newcode_cleanup_log st inputs) /\
  NewCode.pin23 (fst (NewCode.joy_controller st inputs)) = false.

(** A start with the board present, no INAV, and nothing raising around
    the loop; and the same start with the screen gone by the time the
    [finally] clause writes to it. *)
Definition startup_ok : NewCode.Startup :=
  NewCode.mkStartup None true false None battery_3s 1000 true true.

Definition startup_screen_lost : NewCode.Startup :=
  NewCode.mkStartup None true false None battery_3s 1000 false true.

(** Buttons 0 to 9 with exactly the listed ones held. *)
Definition held (which : list nat) : list bool :=
  map (fun n => existsb (Nat.eqb n) which) (seq 0 10).

(** Failsafe priority as the specification words it, for the dispatch of
    newcode.py: with the failsafe button (button 2) held the dispatch sets
    [aux2] to 1800 and does what it would do with that button alone. *)
Definition failsafe_first_as_specified (i : TickInput) (button : list bool)
  (s : NewCode.State) : Prop :=
  Py.pressed button 2 = true ->
  aux2 (NewCode.CMDS (fst (NewCode.button_dispatch i button s))) = 1800 /\
  NewCode.button_dispatch i button s = NewCode.button_dispatch i (held [2%nat]) s.

(** Purity as the specification words it, for the mapping of newcode.py:
    the trim is left as it was, and a second evaluation on the same
    snapshot returns the same channel values. *)
Definition mapping_pure_as_specified (snap : Snapshot) (s : NewCode.State)
  : Prop :=
  NewCode.yaw_trim (fst (NewCode.channel_map snap s)) = NewCode.yaw_trim s /\
  snd (NewCode.channel_map snap (fst (NewCode.channel_map snap s)))
  = snd (NewCode.channel_map snap s).

(** The trim rules of the two scripts. *)
Definition next_yaw_trim (button : list bool) (t : Z) : Z :=
  if Py.pressed button 5 then Z.min 100 (t + 10)
  else if Py.pressed button 4 then Z.max (-100) (t - 10)
  else 0.

Definition next_throttle_trim (button : list bool) (t : Z) : Z :=
  if Py.pressed button 7 then Z.min 1200 (t + 5)
  else if Py.pressed button 6 then Z.max 0 (t - 5)
  else t.

(** The altitude-hold variables that the toggle writes. *)
Definition hold_state (s : NewCode.State) : bool * Q * Q * option Q * Q :=
  (NewCode.alt_hold s, NewCode.alt_setpoint s, NewCode.filtered_alt s,
   NewCode.ei s, NewCode.last_alt_toggle_time s).

(** The float handed to [int] for the throttle under altitude hold, read
    off the state after the update: [1570 + Kp * eh + Ki * ei]. *)
Definition hold_command (s : NewCode.State) : Q :=
  1570 + 50 * NewCode.eh s
  + 10 * match NewCode.ei s with Some x => x | None => 0 end.



(** A state with hold on, reached from the start by one press of the
    toggle at altitude 1.2. *)
Definition holding_at_1_2 : NewCode.State :=
  fst (NewCode.loop_body battery_3s
         (tick_at 1001 sticks_centred (held [7%nat]) 1.2) (NewCode.init 1000)).

(** An iteration changes the hold flag. *)
Definition toggles (b : NewCode.Battery) (i : TickInput) (s : NewCode.State)
  : Prop :=
  NewCode.alt_hold (fst (NewCode.loop_body b i s)) <> NewCode.alt_hold s.

(** ** The rest of the two scripts *)

(** *** [detect_serial_port] (the same in both scripts) *)

(** [sub in s] on strings. *)
Fixpoint contains (sub s : string) : bool :=
  String.prefix sub s ||
  match s with
  | EmptyString => false
  | String _ rest => contains sub rest
  end.

(** [if "ACM" in port.device or "USB" in port.device] *)
Definition serial_like (device : string) : bool :=
  contains "ACM" device || contains "USB" device.

(** The argument is [port.device] for each port of [comports()], in order. *)
Fixpoint detect_serial_port (ports : list string) : string :=
  match ports with
  | [] => "/dev/ttyACM0"
  | device :: rest =>
      if serial_like device then device else detect_serial_port rest
  end.

(** *** Battery thresholds (newcode.py, lines 132-135) *)

(** [d.get(key, default)], the looked-up value being [None] when the key is
    missing. *)
Definition dict_get (found : option Q) (default : Q) : Q :=
  match found with
  | Some v => v
  | None => default
  end.

Definition read_battery (cellCount vmin vwarn vmax : option Q)
  : NewCode.Battery :=
  NewCode.mkBattery (dict_get cellCount 3) (dict_get vmin 3.5)
    (dict_get vwarn 3.6) (dict_get vmax 4.4).

(** *** [run_curses] (the same in both scripts but for the help line) *)

Module Curses.

(** The calls [run_curses] makes on the terminal and the console. *)
Inductive Terminal : Type :=
| initscr
| noecho
| cbreak
| timeout_0
| keypad (on : bool)
| addstr_help
| nocbreak
| echo
| endwin
| print_error.

(** What [external_function(screen)] does: returns a value (1 is
    [Some 1], [None] is Python's [None]) or raises. *)
Inductive returned : Type :=
| Returns (v : option Z)
| Raises (e : exn).

(** The locals of [run_curses], and the log of its calls. *)
Record Locals : Type := mkLocals {
  result : option Z;
  (* [screen] has been assigned *)
  screen : bool;
  term : list Terminal
}.

Definition set_result (v : option Z) (c : Locals) : Locals :=
  mkLocals v (screen c) (term c).
Definition set_screen (v : bool) (c : Locals) : Locals :=
  mkLocals (result c) v (term c).
Definition set_term (v : list Terminal) (c : Locals) : Locals :=
  mkLocals (result c) (screen c) v.

(** Before the first statement no local is bound. *)
Definition entry : Locals := mkLocals None false [].

Definition log (t : Terminal) : M Locals unit :=
  modify (fun c => set_term (term c ++ [t])%list c).

(** A curses call; [fails t] tells whether it raises [curses.error]. *)
Definition call (fails : Terminal -> bool) (t : Terminal) : M Locals unit :=
  log t ;; if fails t then raise CursesError else ret tt.

Definition external_function (body : returned) : M Locals (option Z) :=
  match body with
  | Returns v => ret v
  | Raises e => raise e
  end.

(** [result == 1] *)
Definition is_1 (v : option Z) : bool :=
  match v with
  | Some z => z =? 1
  | None => false
  end.

(** Lines 74-80. *)
Definition curses_try (fails : Terminal -> bool) (body : returned)
  : M Locals unit :=
  call fails initscr ;;
  modify (set_screen true) ;;
  call fails noecho ;;
  call fails cbreak ;;
  call fails timeout_0 ;;
  call fails (keypad true) ;;
  call fails addstr_help ;;
  r <- external_function body ;;
  modify (set_result r).

(** Lines 82-87.  [screen.keypad(0)] reads the local [screen], which is
    unbound when [initscr] raised. *)
Definition curses_finally (fails : Terminal -> bool) : M Locals unit :=
  call fails nocbreak ;;
  bound <- gets screen ;;
  (if bound then call fails (keypad false) else raise UnboundLocalError) ;;
  call fails echo ;;
  call fails endwin ;;
  r <- gets result ;;
  if is_1 r then log print_error else ret tt.

Definition run_curses (fails : Terminal -> bool) (body : returned)
  : M Locals unit :=
  modify (set_result (Some 1)) ;;
  try_finally (curses_try fails body) (curses_finally fails).

(** No curses call raises. *)
Definition terminal_sound : Terminal -> bool := fun _ => false.

(** Only [initscr] raises. *)
Definition no_terminal (t : Terminal) : bool :=
  match t with
  | initscr => true
  | _ => false
  end.

End Curses.

(** What [joy_controller] hands back to [run_curses] once it is left.  It
    returns 1 only from the [board == 1] test; after [break] it falls off
    its end. *)
Definition as_returned (e : loop_exit) : option Curses.returned :=
  match e with
  | Running => None
  | Returned_1 => Some (Curses.Returns (Some 1))
  | Left_by_break => Some (Curses.Returns None)
  | Left_by_raise x => Some (Curses.Raises x)
  end.

(** *** Vocabulary for the loop invariants *)

(** The ranges the channels of newcode.py stay in. *)
Definition newcode_cmds_ok (c : Cmds) : Prop :=
  1300 <= roll c <= 1700 /\ 1300 <= pitch c <= 1700 /\
  900 <= throttle c <= 1800 /\ 1400 <= yaw c <= 1600 /\
  (aux1 c = 1000 \/ aux1 c = 1800) /\ (aux2 c = 1000 \/ aux2 c = 1800).

(** The ranges the channels of UIjoy.py stay in. *)
Definition uijoy_cmds_ok (c : Cmds) : Prop :=
  1300 <= roll c <= 1700 /\ 1300 <= pitch c <= 1700 /\
  900 <= throttle c <= 2100 /\ 1300 <= yaw c <= 1700 /\
  (aux1 c = 1000 \/ aux1 c = 1800) /\ 0 <= aux2 c < 2000.

(** The telemetry queries among some logged calls. *)
Definition queries_in (l : list Event) : list string :=
  flat_map (fun e => match e with send_RAW_msg m => [m] | _ => [] end) l.

(** The levels written to the pin among some logged calls. *)
Definition pin_writes_in (l : list Event) : list bool :=
  flat_map (fun e => match e with GPIO_output _ h => [h] | _ => [] end) l.

(** What one iteration of newcode.py adds to the log. *)
Definition added_by (b : NewCode.Battery) (i : TickInput) (s : NewCode.State)
  : list Event :=
  skipn (List.length (NewCode.trace s))
    (NewCode.trace (fst (NewCode.loop_body b i s))).

(** What one iteration of UIjoy.py adds to the log. *)
Definition uijoy_added_by (i : TickInput) (s : UIjoy.State) : list Event :=
  skipn (List.length (UIjoy.trace s)) (UIjoy.trace (fst (UIjoy.loop_body i s))).

(** [e] is an exchange with the board at one of the two rates. *)
Definition is_frame (e : Event) : bool :=
  match e with send_RAW_RC _ => true | _ => false end.

Definition is_telemetry (e : Event) : bool :=
  match e with send_RAW_msg _ | show_voltage_msg _ => true | _ => false end.

(** [m] keeps [I] true of the state, and raises only exceptions in [E]. *)
Definition keeps {S A : Type} (I : S -> Prop) (E : exn -> Prop) (m : M S A)
  : Prop :=
  forall s, I s ->
    I (fst (m s)) /\ forall e, snd (m s) = Raise e -> E e.

(** Every frame among the logged calls is [CMDS_ORDER] of channel values
    that satisfy [ok]. *)
Definition frames_ok (ok : Cmds -> Prop) (l : list Event) : Prop :=
  forall f, In f (frames_in l) -> exists c, f = CMDS_ORDER c /\ ok c.

Definition newcode_range_inv (s : NewCode.State) : Prop :=
  newcode_cmds_ok (NewCode.CMDS s) /\
  -100 <= NewCode.yaw_trim s <= 100 /\
  frames_ok newcode_cmds_ok (NewCode.trace s).

Definition uijoy_range_inv (u : UIjoy.State) : Prop :=
  uijoy_cmds_ok (UIjoy.CMDS u) /\
  0 <= UIjoy.throttle_trim u <= 1200 /\
  frames_ok uijoy_cmds_ok (UIjoy.trace u).

(** Whenever hold is on, the local [ei] has been assigned. *)
Definition hold_bound (s : NewCode.State) : Prop :=
  NewCode.alt_hold s = true -> NewCode.ei s <> None.

(** The queries logged so far are [sent], then the first [slow_msgs] items
    of the telemetry cycle. *)
Definition queries_since (sent : list string) (s : NewCode.State) : Prop :=
  queries_in (NewCode.trace s)
  = (sent ++ map NewCode.next_slow_msg (seq 0 (NewCode.slow_msgs s)))%list.

(** The same where the setup may have stopped early: [sent] is then a part
    of the setup list, and complete once the cycle has started. *)
Definition queries_of_run (cmds : list string) (s : NewCode.State) : Prop :=
  exists sent,
    (exists rest, cmds = (sent ++ rest)%list) /\
    queries_since sent s /\
    ((0 < NewCode.slow_msgs s)%nat -> sent = cmds).

(** [e] is neither a channel frame nor part of a telemetry exchange. *)
Definition quiet (e : Event) : bool := negb (is_frame e) && negb (is_telemetry e).

(** The log has grown from [tr0] by quiet calls only, and the two rate
    timers and the telemetry cursor are [t1], [t2] and [n]. *)
Definition quiet_since (tr0 : list Event) (t1 t2 : Q) (n : nat)
  (s : NewCode.State) : Prop :=
  (exists l, NewCode.trace s = (tr0 ++ l)%list /\
             Forall (fun e => quiet e = true) l) /\
  NewCode.last_loop_time s = t1 /\
  NewCode.last_slow_msg_time s = t2 /\
  NewCode.slow_msgs s = n.

(** The four flight channels of a frame. *)
Definition flight (c : Cmds) : Z * Z * Z * Z :=
  (roll c, pitch c, throttle c, yaw c).

(** *** The rolling window of cycle times (both scripts) *)

Definition NO_OF_CYCLES_AVERAGE_GUI_TIME : nat := 10.

(** [average_cycle = deque([0] * NO_OF_CYCLES_AVERAGE_GUI_TIME)] *)
Definition average_cycle_init : list Q :=
  repeat 0%Q NO_OF_CYCLES_AVERAGE_GUI_TIME.

(** [average_cycle.append(last_cycleTime); average_cycle.popleft()] *)
Definition record_cycle (average_cycle : list Q) (last_cycleTime : Q) : list Q :=
  tl (average_cycle ++ [last_cycleTime]).

(** [sum(average_cycle)] *)
Definition sum_cycles (average_cycle : list Q) : Q :=
  fold_left Qplus average_cycle 0%Q.

(** Lines 275-276 of newcode.py: [sum(...) / len(...)] raises
    [ZeroDivisionError] on an empty window ([None] here); the rate shown is
    0 unless the average is positive. *)
Definition avg_hz (average_cycle : list Q) : option Q :=
  match average_cycle with
  | [] => None
  | _ =>
      let avg_cycle_time :=
        (sum_cycles average_cycle
         / inject_Z (Z.of_nat (List.length average_cycle)))%Q in
      Some (if Py.ltb 0 avg_cycle_time then (1 / avg_cycle_time)%Q else 0%Q)
  end.

(** * Properties *)

(** ** Python arithmetic *)

Lemma ltb_lt (a b : Q) : Py.ltb a b = true <-> (a < b)%Q.
Proof.
  unfold Py.ltb. rewrite negb_true_iff. split; intro H.
  - apply Qnot_le_lt. intro L. apply Qle_bool_iff in L. congruence.
  - destruct (Qle_bool b a) eqn:E; auto. apply Qle_bool_iff in E. lra.
Qed.

Lemma ltb_ge (a b : Q) : Py.ltb a b = false <-> (b <= a)%Q.
Proof.
  unfold Py.ltb. rewrite negb_false_iff. apply Qle_bool_iff.
Qed.

Lemma leb_gt (a b : Q) : Qle_bool a b = false <-> (b < a)%Q.
Proof.
  split; intro H.
  - apply Qnot_le_lt. intro L. apply Qle_bool_iff in L. congruence.
  - destruct (Qle_bool a b) eqn:E; auto. apply Qle_bool_iff in E. lra.
Qed.

Lemma int_nonneg (x : Q) : (0 <= x)%Q -> Py.int x = Qfloor x.
Proof.
  destruct x as [n d]. unfold Qle, Py.int, Qfloor. simpl. intro H.
  apply Z.quot_div_nonneg; lia.
Qed.

Lemma int_nonpos (x : Q) : (x <= 0)%Q -> Py.int x = Qceiling x.
Proof.
  destruct x as [n d]. unfold Qle, Py.int, Qceiling, Qfloor. simpl. intro H.
  rewrite <- (Z.opp_involutive n) at 1. rewrite Z.quot_opp_l by lia.
  f_equal. apply Z.quot_div_nonneg; lia.
Qed.

Lemma Qfloor_nonneg (x : Q) : (0 <= x)%Q -> 0 <= Qfloor x.
Proof.
  intro H. replace 0 with (Qfloor 0) by reflexivity. now apply Qfloor_resp_le.
Qed.

Lemma Qceiling_nonpos (x : Q) : (x <= 0)%Q -> Qceiling x <= 0.
Proof.
  intro H. replace 0 with (Qceiling 0) by reflexivity. now apply Qceiling_resp_le.
Qed.

(** Truncation toward zero is monotone. *)
Lemma int_le_mono (x y : Q) : (x <= y)%Q -> Py.int x <= Py.int y.
Proof.
  intro H.
  destruct (Qlt_le_dec x 0) as [Hx | Hx]; destruct (Qlt_le_dec y 0) as [Hy | Hy].
  - rewrite (int_nonpos x), (int_nonpos y) by (apply Qlt_le_weak; assumption).
    now apply Qceiling_resp_le.
  - assert (Hx' : (x <= 0)%Q) by (apply Qlt_le_weak; assumption).
    rewrite (int_nonpos x Hx'), (int_nonneg y Hy).
    pose proof (Qceiling_nonpos x Hx'). pose proof (Qfloor_nonneg y Hy). lia.
  - exfalso. apply (Qlt_irrefl y). eapply Qlt_le_trans; [exact Hy|].
    eapply Qle_trans; [exact Hx | exact H].
  - rewrite (int_nonneg x Hx), (int_nonneg y Hy). now apply Qfloor_resp_le.
Qed.

Lemma int_inject_Z (z : Z) : Py.int (inject_Z z) = z.
Proof. unfold Py.int. simpl. apply Z.quot_1_r. Qed.

Lemma int_comp (x y : Q) : (x == y)%Q -> Py.int x = Py.int y.
Proof.
  intro H. apply Z.le_antisymm; apply int_le_mono; lra.
Qed.


Lemma pressed_nth (button : list bool) (n : nat) :
  Py.pressed button n = nth n button false.
Proof.
  unfold Py.pressed. destruct (Nat.ltb n (List.length button)) eqn:E; simpl; auto.
  apply Nat.ltb_ge in E. symmetry. now apply nth_overflow.
Qed.



(** The clamp of [scale_throttle] keeps the input in [[-1, 1]] and is the
    identity there. *)
Lemma clamp_unit_range (val : Q) :
  (-1 <= Py.max (-1) (Py.min 1 val) <= 1)%Q.
Proof.
  unfold Py.max, Py.min.
  destruct (Py.ltb val 1) eqn:E1.
  - apply ltb_lt in E1. destruct (Py.ltb (-1) val) eqn:E2.
    + apply ltb_lt in E2. lra.
    + lra.
  - destruct (Py.ltb (-1) 1) eqn:E2; lra.
Qed.



(** ** Axis scaling *)

Example scale_axis_ends :
  scale_axis (-1) = 1300 /\ scale_axis 0 = 1500 /\ scale_axis 1 = 1700.
Proof. repeat split; reflexivity. Qed.

(** C7.  The roll mapping [scale_axis] is monotonic non-decreasing and its
    value lies in [[1300, 1700]]; this holds for every rational input, so in
    particular on the axis range [[-1, 1]]. *)
Theorem scale_axis_monotone_bounded (a b : Q) :
  (a <= b)%Q ->
  scale_axis a <= scale_axis b /\
  1300 <= scale_axis a <= 1700 /\ 1300 <= scale_axis b <= 1700.
Proof.
  intro H. unfold scale_axis.
  assert (Hm : Py.int (a * 200) <= Py.int (b * 200)).
  { apply int_le_mono. lra. }
  lia.
Qed.

Lemma scale_axis_monotone_bounded_witness :
  scale_axis (-1 # 2) <= scale_axis (1 # 3) /\
  1300 <= scale_axis (-1 # 2) <= 1700 /\ 1300 <= scale_axis (1 # 3) <= 1700.
Proof.
  apply (scale_axis_monotone_bounded (-1 # 2) (1 # 3)).
  unfold Qle; simpl; lia.
Defined.

(** ** Directional throttle *)

Lemma scale_throttle_curve (v : Q) :
  NewCode.scale_throttle v = Py.int (throttle_curve v).
Proof.
  unfold NewCode.scale_throttle, throttle_curve.
  destruct (Qle_bool 0 (Py.max (-1) (Py.min 1 v))); reflexivity.
Qed.

Lemma throttle_curve_range (v : Q) : (950 <= throttle_curve v <= 1800)%Q.
Proof.
  unfold throttle_curve. pose proof (clamp_unit_range v) as [Hl Hu].
  destruct (Qle_bool 0 (Py.max (-1) (Py.min 1 v))) eqn:E.
  - apply Qle_bool_iff in E. lra.
  - apply leb_gt in E. lra.
Qed.


Lemma clamp_unit_cases (v : Q) :
  let c := Py.max (-1) (Py.min 1 v) in
  ((c == v)%Q /\ (-1 <= v <= 1)%Q) \/
  ((c == 1)%Q /\ (1 <= v)%Q) \/
  ((c == -1)%Q /\ (v <= -1)%Q).
Proof.
  unfold Py.max, Py.min.
  destruct (Py.ltb v 1) eqn:E1.
  - apply ltb_lt in E1. destruct (Py.ltb (-1) v) eqn:E2.
    + apply ltb_lt in E2. left. split; [reflexivity | lra].
    + apply ltb_ge in E2. right; right. split; [reflexivity | lra].
  - apply ltb_ge in E1. destruct (Py.ltb (-1) 1) eqn:E2.
    + right; left. split; [reflexivity | lra].
    + apply ltb_ge in E2. lra.
Qed.











(** The smallest step of a 16-bit joystick axis below neutral already reads
    one count under 1600. *)
Example scale_throttle_below_neutral :
  NewCode.scale_throttle (-1 # 32768) = 1599 /\
  NewCode.scale_throttle 0 = 1600 /\
  NewCode.scale_throttle (1 # 32768) = 1600.
Proof. repeat split; reflexivity. Qed.

(** ** Battery bands *)

(** C9.  With thresholds [min < warn < max], the message chosen by lines
    245-251 is: critical at or below [min], low-warning above [min] up to
    [warn], normal strictly between [warn] and [max], over-voltage at or
    above [max]; and with 10.5, 10.8 and 12.6 the voltages 10.4, 10.6, 11.5
    and 12.7 fall in the four bands in that order. *)
Theorem voltage_msg_bands :
  (forall mn w mx v : Q, (mn < w)%Q -> (w < mx)%Q ->
     ((v <= mn)%Q ->
        NewCode.voltage_msg mn w mx v = band_msg critical) /\
     ((mn < v <= w)%Q ->
        NewCode.voltage_msg mn w mx v = band_msg low_warning) /\
     ((w < v < mx)%Q ->
        NewCode.voltage_msg mn w mx v = band_msg normal) /\
     ((mx <= v)%Q ->
        NewCode.voltage_msg mn w mx v = band_msg over_voltage)) /\
  NewCode.voltage_msg 10.5 10.8 12.6 10.4 = band_msg critical /\
  NewCode.voltage_msg 10.5 10.8 12.6 10.6 = band_msg low_warning /\
  NewCode.voltage_msg 10.5 10.8 12.6 11.5 = band_msg normal /\
  NewCode.voltage_msg 10.5 10.8 12.6 12.7 = band_msg over_voltage.
Proof.
  split; [| repeat split; reflexivity].
  intros mn w mx v Hmw Hwx. unfold NewCode.voltage_msg.
  destruct (Py.ltb mn v) eqn:E1; [apply ltb_lt in E1 | apply ltb_ge in E1];
    (destruct (Qle_bool v w) eqn:E2;
       [apply Qle_bool_iff in E2 | apply leb_gt in E2]);
    (destruct (Qle_bool v mn) eqn:E3;
       [apply Qle_bool_iff in E3 | apply leb_gt in E3]);
    (destruct (Qle_bool mx v) eqn:E4;
       [apply Qle_bool_iff in E4 | apply leb_gt in E4]);
    simpl; repeat split; intros; try reflexivity; exfalso; lra.
Qed.

Lemma voltage_msg_bands_witness :
  NewCode.voltage_msg 3 4 5 2 = band_msg critical /\
  NewCode.voltage_msg 3 4 5 4 = band_msg low_warning /\
  NewCode.voltage_msg 3 4 5 (9 # 2) = band_msg normal /\
  NewCode.voltage_msg 3 4 5 5 = band_msg over_voltage.
Proof.
  destruct voltage_msg_bands as [H _].
  destruct (H 3 4 5 2)%Q as (Hc & _); [reflexivity | reflexivity |].
  destruct (H 3 4 5 4)%Q as (_ & Hl & _); [reflexivity | reflexivity |].
  destruct (H 3 4 5 (9 # 2))%Q as (_ & _ & Hn & _); [reflexivity | reflexivity |].
  destruct (H 3 4 5 5)%Q as (_ & _ & _ & Ho); [reflexivity | reflexivity |].
  split; [apply Hc; unfold Qle; simpl; lia|].
  split; [apply Hl; unfold Qle, Qlt; simpl; lia|].
  split; [apply Hn; unfold Qlt; simpl; lia|].
  apply Ho; unfold Qle; simpl; lia.
Defined.

(** ** Reasoning about the loop monad *)

Section MonadFacts.

Context {S : Type}.

Lemma bind_cases {A B} (m : M S A) (k : A -> M S B) (s : S) :
  (exists e, m s = (fst (m s), Raise e) /\ bind m k s = (fst (m s), Raise e)) \/
  (exists a, m s = (fst (m s), Ok a) /\ bind m k s = k a (fst (m s))).
Proof.
  unfold bind. destruct (m s) as [s' [a | e]]; simpl.
  - right. exists a. split; reflexivity.
  - left. exists e. split; reflexivity.
Qed.

Lemma bind_fst {A B} (m : M S A) (k : A -> M S B) (s : S) :
  fst (bind m k s)
  = match snd (m s) with
    | Ok a => fst (k a (fst (m s)))
    | Raise _ => fst (m s)
    end.
Proof. unfold bind. destruct (m s) as [s' [a | e]]; reflexivity. Qed.

Lemma bind_snd {A B} (m : M S A) (k : A -> M S B) (s : S) :
  snd (bind m k s)
  = match snd (m s) with
    | Ok a => snd (k a (fst (m s)))
    | Raise e => Raise e
    end.
Proof. unfold bind. destruct (m s) as [s' [a | e]]; reflexivity. Qed.

Lemma preserves_ret (P : S -> Prop) {A} (a : A) : preserves P (ret a).
Proof. intros s H. exact H. Qed.

Lemma preserves_raise (P : S -> Prop) {A} (e : exn) :
  preserves P (@raise S A e).
Proof. intros s H. exact H. Qed.

Lemma preserves_gets (P : S -> Prop) {A} (f : S -> A) : preserves P (gets f).
Proof. intros s H. exact H. Qed.

Lemma preserves_modify (P : S -> Prop) (f : S -> S) :
  (forall s, P s -> P (f s)) -> preserves P (modify f).
Proof. intros Hf s H. apply Hf, H. Qed.

Lemma preserves_bind (P : S -> Prop) {A B} (m : M S A) (k : A -> M S B) :
  preserves P m -> (forall a, preserves P (k a)) -> preserves P (bind m k).
Proof.
  intros Hm Hk s H. specialize (Hm s H). unfold bind.
  destruct (m s) as [s' [a | e]]; simpl in *.
  - apply Hk, Hm.
  - exact Hm.
Qed.

Lemma preserves_index (P : S -> Prop) (l : list Q) (n : nat) :
  preserves P (index l n).
Proof.
  unfold index. destruct (nth_error l n).
  - apply preserves_ret.
  - apply preserves_raise.
Qed.

(** An invariant of every iteration is an invariant of the loop. *)
Lemma preserves_while (P : S -> Prop) (body : TickInput -> M S control)
  (inputs : list TickInput) :
  (forall i, In i inputs -> preserves P (body i)) ->
  forall s, P s -> P (fst (while_true body inputs s)).
Proof.
  induction inputs as [| i rest IH]; intros Hb s H; simpl.
  - exact H.
  - assert (Hi : P (fst (body i s))) by (apply Hb; [left; reflexivity | exact H]).
    destruct (body i s) as [s' [[|] | e]]; simpl in *; try exact Hi.
    apply IH; [| exact Hi]. intros j Hj. apply Hb. right. exact Hj.
Qed.

End MonadFacts.

(** Walks through a computation, leaving the state updates to check. *)
Ltac preserves_step :=
  match goal with
  | |- preserves _ (bind _ _) => apply preserves_bind; [| intro]
  | |- preserves _ (ret _) => apply preserves_ret
  | |- preserves _ (raise _) => apply preserves_raise
  | |- preserves _ (gets _) => apply preserves_gets
  | |- preserves _ (index _ _) => apply preserves_index
  | |- preserves _ (modify _) => apply preserves_modify; intros ? ?
  | |- preserves _ (if ?c then _ else _) => destruct c
  | |- preserves _ (match ?o with _ => _ end) => destruct o
  end.

Ltac preserves_walk := repeat (cbv zeta; preserves_step).

(** ** newcode.py: what each stage can change *)

Section NewCodeFrames.

Import NewCode.


End NewCodeFrames.

(** ** Loss of the input device *)










Example device_loss_sends_nothing :
  sent_during battery_3s (tick_lost 1000.01) (NewCode.init 1000) = [] /\
  aux2 (NewCode.CMDS (NewCode.init 1000)) = 1000 /\
  sent_during battery_3s (tick_at 1001 sticks_centred [] 0)
    (fst (NewCode.loop_body battery_3s (tick_lost 1000.01) (NewCode.init 1000)))
  = [[1500; 1500; 1600; 1500; 1000; 1800]].
Proof. repeat split; reflexivity. Qed.

(** ** Leaving the control loop *)

Lemma skipn_length_app {A} (l x : list A) : skipn (List.length l) (l ++ x)%list = x.
Proof. induction l as [| a l IH]; simpl; [reflexivity | exact IH]. Qed.

Lemma frames_in_app (l1 l2 : list Event) :
  frames_in (l1 ++ l2) = (frames_in l1 ++ frames_in l2)%list.
Proof. apply flat_map_app. Qed.

(** The [finally] clause of newcode.py: what it does when its screen write
    returns, and when it raises. *)
Lemma newcode_finally_reached (st : NewCode.Startup) (s : NewCode.State) :
  NewCode.exit_addstr_ok st = true ->
  fst (NewCode.finally st s)
  = NewCode.set_trace
      (NewCode.trace s ++ [GPIO_output NewCode.PIN false; GPIO_cleanup])
      (NewCode.set_pin23 false s) /\
  snd (NewCode.finally st s)
  = (if NewCode.exit_clrtoeol_ok st then Ok tt else Raise CursesError).
Proof.
  intro H. unfold NewCode.finally, NewCode.emit. rewrite H.
  cbv beta iota zeta delta [bind gets modify ret raise fst snd].
  assert (Hs : NewCode.set_trace
                 (NewCode.trace
                    (NewCode.set_pin23 false
                       (NewCode.set_trace
                          (NewCode.trace s ++ [GPIO_output NewCode.PIN false]) s))
                  ++ [GPIO_cleanup])
                 (NewCode.set_pin23 false
                    (NewCode.set_trace
                       (NewCode.trace s ++ [GPIO_output NewCode.PIN false]) s))
               = NewCode.set_trace
                   (NewCode.trace s
                    ++ [GPIO_output NewCode.PIN false; GPIO_cleanup])
                   (NewCode.set_pin23 false s)).
  { unfold NewCode.set_trace, NewCode.set_pin23. cbn.
    rewrite <- app_assoc. reflexivity. }
  destruct (NewCode.exit_clrtoeol_ok st); split; first [exact Hs | reflexivity].
Qed.

Lemma newcode_finally_lost (st : NewCode.Startup) (s : NewCode.State) :
  NewCode.exit_addstr_ok st = false ->
  NewCode.finally st s = (s, Raise CursesError).
Proof.
  intro H. unfold NewCode.finally. rewrite H. reflexivity.
Qed.

(** Leaving [joy_controller] of newcode.py from the state [s], the [try]
    body having been left as [e] says. *)
Lemma newcode_leave (st : NewCode.Startup) (s : NewCode.State) (e : loop_exit) :
  let out := match NewCode.finally st s with
             | (s', Ok _) => (s', e)
             | (s', Raise x) => (s', Left_by_raise x)
             end in
  (NewCode.exit_addstr_ok st = true ->
   NewCode.trace (fst out)
   = (NewCode.trace s ++ [GPIO_output NewCode.PIN false; GPIO_cleanup])%list /\
   NewCode.pin23 (fst out) = false) /\
  (NewCode.exit_addstr_ok st = false -> out = (s, Left_by_raise CursesError)).
Proof.
  cbv zeta. split; intro H.
  - destruct (newcode_finally_reached st s H) as [Hf _].
    destruct (NewCode.finally st s) as [s' [[] | x]]; cbn [fst] in *;
      subst s'; split; reflexivity.
  - rewrite (newcode_finally_lost st s H). reflexivity.
Qed.

(** C2 (as the code has it).  Whenever [joy_controller] is left (board
    missing, setup raising, [break] after the reboot request, or an
    exception out of the loop) the exit path of newcode.py releases the
    link, if the [with] block was entered, and then, if the screen write
    that opens its [finally] clause returns, drives the pin low and calls
    the GPIO cleanup, leaving the pin low.  If that screen write raises, the
    two GPIO calls are skipped: the pin keeps the level it had and the
    function is left by the screen error.  UIjoy.py, which has no output
    pin, only releases the link.  Neither exit path sends a channel
    frame. *)
Theorem exit_path_cleanup
  (st : NewCode.Startup) (board_ok : bool) (setup_raises : option exn)
  (inputs : list TickInput) :
  (snd (NewCode.joy_controller st inputs) <> Running ->
   newcode_cleanup_log st inputs = newcode_exit_calls st /\
   (NewCode.exit_addstr_ok st = true ->
    NewCode.pin23 (fst (NewCode.joy_controller st inputs)) = false) /\
   (NewCode.exit_addstr_ok st = false ->
    NewCode.pin23 (fst (NewCode.joy_controller st inputs))
    = NewCode.pin23 (newcode_left_at st inputs) /\
    snd (NewCode.joy_controller st inputs) = Left_by_raise CursesError) /\
   frames_in (newcode_cleanup_log st inputs) = []) /\
  (snd (UIjoy.joy_controller board_ok setup_raises inputs) <> Running ->
   uijoy_cleanup_log board_ok setup_raises inputs = [MSPy_exit] /\
   frames_in (uijoy_cleanup_log board_ok setup_raises inputs) = []).
Proof.
  split.
  - assert (Hleave : forall (s0 s : NewCode.State) (e : loop_exit)
                       (entered : list Event),
              NewCode.trace s = (NewCode.trace s0 ++ entered)%list ->
              NewCode.pin23 s = NewCode.pin23 s0 ->
              frames_in entered = [] ->
              let out := match NewCode.finally st s with
                         | (s', Ok _) => (s', e)
                         | (s', Raise x) => (s', Left_by_raise x)
                         end in
              skipn (List.length (NewCode.trace s0)) (NewCode.trace (fst out))
              = (entered
                 ++ (if NewCode.exit_addstr_ok st
                     then [GPIO_output NewCode.PIN false; GPIO_cleanup]
                     else []))%list /\
              (NewCode.exit_addstr_ok st = true ->
               NewCode.pin23 (fst out) = false) /\
              (NewCode.exit_addstr_ok st = false ->
               NewCode.pin23 (fst out) = NewCode.pin23 s0 /\
               snd out = Left_by_raise CursesError) /\
              frames_in
                (skipn (List.length (NewCode.trace s0)) (NewCode.trace (fst out)))
              = []).
    { intros s0 s e entered Ht Hp Hfr.
      destruct (newcode_leave st s e) as [Hok Hlost]. cbv zeta in *.
      revert Hok Hlost.
      generalize (match NewCode.finally st s with
                  | (s', Ok _) => (s', e)
                  | (s', Raise x) => (s', Left_by_raise x)
                  end).
      intros out Hok Hlost.
      destruct (NewCode.exit_addstr_ok st).
      - destruct (Hok eq_refl) as [Htr Hpin].
        rewrite Htr, Ht, <- app_assoc, skipn_length_app.
        split; [reflexivity |]. split; [intros _; exact Hpin |].
        split; [discriminate |].
        rewrite frames_in_app, Hfr. reflexivity.
      - rewrite (Hlost eq_refl). cbn [fst snd].
        rewrite Ht, skipn_length_app, app_nil_r.
        split; [reflexivity |]. split; [discriminate |].
        split; [intros _; split; [exact Hp | reflexivity] | exact Hfr]. }
    unfold newcode_cleanup_log, newcode_left_at, newcode_exit_calls,
      NewCode.joy_controller, NewCode.try_body.
    destruct (NewCode.before_with_raises st) as [e0 |].
    + intros _.
      apply (Hleave (NewCode.main_entry (NewCode.t0 st))
               (NewCode.main_entry (NewCode.t0 st)) (Left_by_raise e0) []);
        [symmetry; apply app_nil_r | reflexivity | reflexivity].
    + destruct (NewCode.with_body st inputs) as [s0 [| | | x]]; cbn [fst snd];
        intro H; try (exfalso; apply H; reflexivity);
        apply (Hleave s0 (NewCode.with_exit s0) _ [MSPy_exit]); reflexivity.
  - unfold uijoy_cleanup_log, uijoy_left_at, UIjoy.joy_controller.
    destruct (negb board_ok).
    { intros _. cbn [fst]. unfold UIjoy.finally, UIjoy.with_exit. cbn.
      repeat split; reflexivity. }
    destruct setup_raises.
    { intros _. cbn [fst]. unfold UIjoy.finally, UIjoy.with_exit. cbn.
      repeat split; reflexivity. }
    destruct (while_true _ inputs _) as [s' [| | |]]; cbn [fst snd]; intro H;
      try (exfalso; apply H; reflexivity);
      unfold UIjoy.finally, UIjoy.with_exit; cbn;
      rewrite skipn_length_app; repeat split; reflexivity.
Qed.

Lemma exit_path_cleanup_witness :
  (newcode_cleanup_log startup_ok [tick_at 1001 sticks_centred (held [9%nat]) 0]
   = [MSPy_exit; GPIO_output NewCode.PIN false; GPIO_cleanup] /\
   NewCode.pin23
     (fst (NewCode.joy_controller startup_ok
             [tick_at 1001 sticks_centred (held [9%nat]) 0])) = false) /\
  (newcode_cleanup_log startup_screen_lost
     [tick_at 1001 sticks_centred (held [9%nat]) 0] = [MSPy_exit] /\
   snd (NewCode.joy_controller startup_screen_lost
          [tick_at 1001 sticks_centred (held [9%nat]) 0])
   = Left_by_raise CursesError) /\
  uijoy_cleanup_log true None [tick_at 1001 sticks_centred (held [9%nat]) 0]
  = [MSPy_exit].
Proof.
  destruct (exit_path_cleanup startup_ok true None
              [tick_at 1001 sticks_centred (held [9%nat]) 0]) as [Hn Hu].
  destruct (exit_path_cleanup startup_screen_lost true None
              [tick_at 1001 sticks_centred (held [9%nat]) 0]) as [Hl _].
  split; [| split].
  - destruct Hn as (H1 & H2 & _); [vm_compute; discriminate |].
    split; [exact H1 | apply H2; reflexivity].
  - destruct Hl as (H1 & _ & H3 & _); [vm_compute; discriminate |].
    split; [exact H1 | apply H3; reflexivity].
  - apply Hu. vm_compute. discriminate.
Defined.

(** The specified cleanup fails on newcode.py: after the reboot button the
    exit path sends no channel frame. *)
Lemma cleanup_counterexample :
  ~ cleanup_as_specified startup_ok
      [tick_at 1001 sticks_centred (held [9%nat]) 0].
Proof.
  unfold cleanup_as_specified. intro H.
  destruct H as [[frame Hin] _]; [vm_compute; discriminate |].
  vm_compute in Hin.
  repeat (destruct Hin as [Hin | Hin]; [discriminate Hin |]).
  exact Hin.
Qed.

Example reboot_run_log :
  NewCode.trace
    (fst (NewCode.joy_controller startup_ok
            [tick_at 1001 sticks_centred (held [9%nat]) 0]))
  = (GPIO_output 23 false :: map send_RAW_msg (NewCode.command_list false)
     ++ [reboot; MSPy_exit; GPIO_output 23 false; GPIO_cleanup])%list /\
  snd (NewCode.joy_controller startup_ok
         [tick_at 1001 sticks_centred (held [9%nat]) 0]) = Left_by_break.
Proof. split; reflexivity. Qed.

(** With the pin switched on (button 3) and the screen gone, the reboot
    request leaves [joy_controller] with the pin still high: the [finally]
    clause stops at its screen write. *)
Example pin_left_high_when_screen_lost :
  let run := NewCode.joy_controller startup_screen_lost
               [tick_at 1001 sticks_centred (held [3%nat]) 0;
                tick_at 1002 sticks_centred (held [9%nat]) 0] in
  NewCode.pin23 (fst run) = true /\
  snd run = Left_by_raise CursesError /\
  pin_writes_in (NewCode.trace (fst run)) = [false; true].
Proof. repeat split; reflexivity. Qed.

(** ** Button dispatch *)

(** C3 (as the code has it).  The failsafe button is not first in either
    chain.  In newcode.py the order is reboot, arm, disarm, pin toggle,
    failsafe, altitude-hold toggle: with the failsafe button held and none
    of the first four, the dispatch sets [aux2] to 1800 and ignores the
    altitude-hold toggle; with one of the first four held, [aux2] is left
    as it was.  In UIjoy.py the order is arm, disarm, mode, failsafe,
    reboot: failsafe wins over reboot only, arm and disarm leave [aux2]
    alone, and the mode button steps it by 500 modulo 2000. *)
Theorem failsafe_button_priority
  (i : TickInput) (button : list bool) (s : NewCode.State) (u : UIjoy.State) :
  Py.pressed button 2 = true ->
  ((Py.pressed button 9 = false -> Py.pressed button 0 = false ->
    Py.pressed button 1 = false -> Py.pressed button 3 = false ->
    NewCode.button_dispatch i button s
    = (NewCode.set_cursor_msg "FAILSAFE"
         (NewCode.set_CMDS (set_aux2 1800 (NewCode.CMDS s)) s), Ok Continue)) /\
   (Py.pressed button 9 = true \/ Py.pressed button 0 = true \/
    Py.pressed button 1 = true \/ Py.pressed button 3 = true ->
    aux2 (NewCode.CMDS (fst (NewCode.button_dispatch i button s)))
    = aux2 (NewCode.CMDS s))) /\
  ((Py.pressed button 0 = false -> Py.pressed button 1 = false ->
    Py.pressed button 3 = false ->
    UIjoy.button_dispatch i button u
    = (UIjoy.set_CMDS (set_aux2 1800 (UIjoy.CMDS u)) u, Ok Continue)) /\
   (Py.pressed button 0 = true \/ Py.pressed button 1 = true ->
    aux2 (UIjoy.CMDS (fst (UIjoy.button_dispatch i button u)))
    = aux2 (UIjoy.CMDS u)) /\
   (Py.pressed button 0 = false -> Py.pressed button 1 = false ->
    Py.pressed button 3 = true ->
    aux2 (UIjoy.CMDS (fst (UIjoy.button_dispatch i button u)))
    = (aux2 (UIjoy.CMDS u) + 500) mod 2000)).
Proof.
  intro B2. split; [split | split; [| split]].
  - intros B9 B0 B1 B3. unfold NewCode.button_dispatch.
    rewrite B9, B0, B1, B3, B2. reflexivity.
  - intro H. unfold NewCode.button_dispatch.
    destruct (Py.pressed button 9) eqn:B9.
    { cbn. destruct (reboot_ok i); reflexivity. }
    destruct (Py.pressed button 0) eqn:B0; [reflexivity |].
    destruct (Py.pressed button 1) eqn:B1; [reflexivity |].
    destruct (Py.pressed button 3) eqn:B3; [reflexivity |].
    destruct H as [H | [H | [H | H]]]; discriminate H.
  - intros B0 B1 B3. unfold UIjoy.button_dispatch.
    rewrite B0, B1, B3, B2. reflexivity.
  - intro H. unfold UIjoy.button_dispatch.
    destruct (Py.pressed button 0) eqn:B0; [reflexivity |].
    destruct (Py.pressed button 1) eqn:B1; [reflexivity |].
    destruct H as [H | H]; discriminate H.
  - intros B0 B1 B3. unfold UIjoy.button_dispatch.
    rewrite B0, B1, B3. reflexivity.
Qed.

Lemma failsafe_button_priority_witness :
  NewCode.button_dispatch (tick_at 1001 sticks_centred (held [2; 7]%nat) 0)
    (held [2; 7]%nat) (NewCode.init 1000)
  = (NewCode.set_cursor_msg "FAILSAFE"
       (NewCode.set_CMDS (set_aux2 1800 (NewCode.CMDS (NewCode.init 1000)))
          (NewCode.init 1000)), Ok Continue) /\
  aux2 (NewCode.CMDS (fst (NewCode.button_dispatch
          (tick_at 1001 sticks_centred (held [0; 2]%nat) 0)
          (held [0; 2]%nat) (NewCode.init 1000))))
  = aux2 (NewCode.CMDS (NewCode.init 1000)) /\
  UIjoy.button_dispatch (tick_at 1001 sticks_centred (held [2; 9]%nat) 0)
    (held [2; 9]%nat) UIjoy.init
  = (UIjoy.set_CMDS (set_aux2 1800 (UIjoy.CMDS UIjoy.init)) UIjoy.init,
     Ok Continue).
Proof.
  split; [| split].
  - destruct (failsafe_button_priority
                (tick_at 1001 sticks_centred (held [2; 7]%nat) 0)
                (held [2; 7]%nat) (NewCode.init 1000) UIjoy.init eq_refl)
      as [[H _] _].
    apply H; reflexivity.
  - destruct (failsafe_button_priority
                (tick_at 1001 sticks_centred (held [0; 2]%nat) 0)
                (held [0; 2]%nat) (NewCode.init 1000) UIjoy.init eq_refl)
      as [[_ H] _].
    apply H. right; left; reflexivity.
  - destruct (failsafe_button_priority
                (tick_at 1001 sticks_centred (held [2; 9]%nat) 0)
                (held [2; 9]%nat) (NewCode.init 1000) UIjoy.init eq_refl)
      as [_ [H _]].
    apply H; reflexivity.
Defined.

(** The specified priority fails on newcode.py: with arm and failsafe held
    together the arm branch runs and [aux2] stays 1000. *)
Lemma failsafe_priority_counterexample :
  ~ failsafe_first_as_specified (tick_at 1001 sticks_centred (held [0; 2]%nat) 0)
      (held [0; 2]%nat) (NewCode.init 1000).
Proof.
  unfold failsafe_first_as_specified. intro H.
  destruct H as [H _]; [reflexivity |].
  vm_compute in H. discriminate H.
Qed.

Example arm_beats_failsafe :
  let s := fst (NewCode.button_dispatch
                  (tick_at 1001 sticks_centred (held [0; 2]%nat) 0)
                  (held [0; 2]%nat) (NewCode.init 1000)) in
  aux1 (NewCode.CMDS s) = 1800 /\ aux2 (NewCode.CMDS s) = 1000.
Proof. split; reflexivity. Qed.

(** ** Channel mapping and the trims *)

Lemma newcode_channel_map_run (axis : list Q) (button : list bool)
  (s : NewCode.State) :
  NewCode.channel_map (axis, button) s
  = match nth_error axis 1, nth_error axis 3, nth_error axis 4 with
    | Some a1, Some a3, Some a4 =>
        let t := next_yaw_trim button (NewCode.yaw_trim s) in
        (NewCode.set_yaw_trim t s,
         Ok (NewCode.scale_throttle (- a1), scale_axis a3, scale_axis (- a4),
             1500 + t))
    | _, _, _ => (s, Raise IndexError)
    end.
Proof.
  unfold NewCode.channel_map, NewCode.scale_yaw, next_yaw_trim, index.
  destruct (nth_error axis 1); [| reflexivity].
  destruct (nth_error axis 3); [| reflexivity].
  destruct (nth_error axis 4); [| reflexivity].
  cbn. destruct (Py.pressed button 5); [reflexivity |].
  destruct (Py.pressed button 4); reflexivity.
Qed.

Lemma uijoy_channel_map_trim (axis : list Q) (button : list bool)
  (u : UIjoy.State) :
  UIjoy.throttle_trim (fst (UIjoy.channel_map (axis, button) u))
  = next_throttle_trim button (UIjoy.throttle_trim u) /\
  throttle (UIjoy.CMDS (fst (UIjoy.channel_map (axis, button) u)))
  = 900 + next_throttle_trim button (UIjoy.throttle_trim u).
Proof.
  unfold next_throttle_trim.
  destruct (Py.pressed button 7) eqn:B7; [| destruct (Py.pressed button 6) eqn:B6];
    cbv beta iota zeta delta
      [UIjoy.channel_map UIjoy.assign_CMDS index bind gets modify ret raise];
    rewrite B7; try rewrite B6;
    (destruct (nth_error axis 3); [| split; reflexivity]);
    (destruct (nth_error axis 4); [| split; reflexivity]);
    (destruct (nth_error axis 0); split; reflexivity).
Qed.

(** C6 (as the code has it).  The mapping is a function of the snapshot and
    of the trim it finds: from two states with the same trim it returns the
    same channel values and leaves the same trim.  It is not free of side
    effects: newcode.py writes [yaw_trim] (and nothing else) and derives
    the yaw channel from the new value; UIjoy.py writes [throttle_trim] and
    derives the throttle channel from the new value. *)
Theorem channel_map_depends_on_trim (axis : list Q) (button : list bool)
  (s1 s2 : NewCode.State) (u : UIjoy.State) :
  NewCode.yaw_trim s1 = NewCode.yaw_trim s2 ->
  (snd (NewCode.channel_map (axis, button) s1)
   = snd (NewCode.channel_map (axis, button) s2) /\
   NewCode.yaw_trim (fst (NewCode.channel_map (axis, button) s1))
   = NewCode.yaw_trim (fst (NewCode.channel_map (axis, button) s2))) /\
  fst (NewCode.channel_map (axis, button) s1)
  = NewCode.set_yaw_trim
      (NewCode.yaw_trim (fst (NewCode.channel_map (axis, button) s1))) s1 /\
  (forall raw_throttle raw_roll raw_pitch raw_yaw,
     snd (NewCode.channel_map (axis, button) s1)
     = Ok (raw_throttle, raw_roll, raw_pitch, raw_yaw) ->
     NewCode.yaw_trim (fst (NewCode.channel_map (axis, button) s1))
     = next_yaw_trim button (NewCode.yaw_trim s1) /\
     raw_yaw = 1500 + next_yaw_trim button (NewCode.yaw_trim s1)) /\
  UIjoy.throttle_trim (fst (UIjoy.channel_map (axis, button) u))
  = next_throttle_trim button (UIjoy.throttle_trim u) /\
  throttle (UIjoy.CMDS (fst (UIjoy.channel_map (axis, button) u)))
  = 900 + next_throttle_trim button (UIjoy.throttle_trim u).
Proof.
  intro Ht. rewrite !newcode_channel_map_run.
  split; [| split; [| split]].
  - destruct (nth_error axis 1); [| split; [reflexivity | exact Ht]].
    destruct (nth_error axis 3); [| split; [reflexivity | exact Ht]].
    destruct (nth_error axis 4); [| split; [reflexivity | exact Ht]].
    cbn. rewrite Ht. split; reflexivity.
  - destruct (nth_error axis 1); [| destruct s1; reflexivity].
    destruct (nth_error axis 3); [| destruct s1; reflexivity].
    destruct (nth_error axis 4); [| destruct s1; reflexivity].
    reflexivity.
  - intros rt rr rp ry.
    destruct (nth_error axis 1); [| discriminate].
    destruct (nth_error axis 3); [| discriminate].
    destruct (nth_error axis 4); [| discriminate].
    cbn. intro H. inversion H. split; reflexivity.
  - apply uijoy_channel_map_trim.
Qed.

Lemma channel_map_depends_on_trim_witness :
  snd (NewCode.channel_map (sticks_centred, held [5%nat]) (NewCode.init 1000))
  = snd (NewCode.channel_map (sticks_centred, held [5%nat]) (NewCode.init 2000)).
Proof.
  destruct (channel_map_depends_on_trim sticks_centred (held [5%nat])
              (NewCode.init 1000) (NewCode.init 2000) UIjoy.init eq_refl)
    as [[H _] _].
  exact H.
Defined.

(** The specified purity fails on newcode.py: with button 5 held the trim
    goes from 0 to 10, and a second evaluation returns yaw 1520 where the
    first returned 1510. *)
Lemma mapping_purity_counterexample :
  ~ mapping_pure_as_specified (sticks_centred, held [5%nat]) (NewCode.init 1000).
Proof.
  unfold mapping_pure_as_specified. intros [H _].
  vm_compute in H. discriminate H.
Qed.

Example yaw_trim_walks :
  let snap := (sticks_centred, held [5%nat]) in
  let r1 := NewCode.channel_map snap (NewCode.init 1000) in
  let r2 := NewCode.channel_map snap (fst r1) in
  snd r1 = Ok (1600, 1500, 1500, 1510) /\
  snd r2 = Ok (1600, 1500, 1500, 1520) /\
  NewCode.yaw_trim (fst r1) = 10 /\ NewCode.yaw_trim (fst r2) = 20.
Proof. repeat split; reflexivity. Qed.

(** ** Altitude hold *)

Section AltitudeHold.

Import NewCode.

Lemma channels_stage_keeps_toggle (i : TickInput) (snap : Snapshot)
  (h : bool) (sp t : Q) :
  preserves (fun s => alt_hold s = h /\ alt_setpoint s = sp /\
                      last_alt_toggle_time s = t)
    (channels_stage i snap).
Proof.
  unfold channels_stage, channel_map, scale_yaw, throttle_stage,
    read_altitude, emit, assign_CMDS.
  destruct snap as [axis button]. preserves_walk; cbn in *; assumption.
Qed.

Lemma channels_stage_keeps_hold_off (i : TickInput) (snap : Snapshot)
  (v : bool * Q * Q * option Q * Q) :
  preserves (fun s => alt_hold s = false /\ hold_state s = v)
    (channels_stage i snap).
Proof.
  unfold channels_stage, channel_map, scale_yaw, emit, assign_CMDS.
  destruct snap as [axis button].
  assert (Ht : forall raw, preserves
            (fun s => alt_hold s = false /\ hold_state s = v)
            (throttle_stage i raw)).
  { intros raw s [H0 Hv]. unfold throttle_stage, assign_CMDS.
    cbv beta iota zeta delta [bind gets modify ret fst snd]. rewrite H0.
    cbn. split; assumption. }
  preserves_walk; first [apply Ht | cbn in *; assumption].
Qed.

Lemma rates_stage_keeps_hold (b : Battery) (i : TickInput)
  (v : bool * Q * Q * option Q * Q) :
  preserves (fun s => hold_state s = v) (rates_stage b i).
Proof.
  unfold rates_stage, fast_send, slow_step, emit.
  preserves_walk; cbn in *; assumption.
Qed.

(** The dispatch changes the hold flag only in the toggle branch, and then
    after the debounce test and the altitude read. *)
Lemma dispatch_toggle (i : TickInput) (button : list bool) (s : State) :
  alt_hold (fst (button_dispatch i button s)) <> alt_hold s ->
  Py.ltb DEBOUNCE_TIME (now_toggle i - last_alt_toggle_time s) = true /\
  exists a, altitude_toggle i = Some a /\
    hold_state (fst (button_dispatch i button s))
    = (negb (alt_hold s), a, a, Some 0%Q, now_toggle i).
Proof.
  unfold button_dispatch.
  destruct (Py.pressed button 9).
  { cbn. destruct (reboot_ok i); cbn; intro H; exfalso; apply H; reflexivity. }
  destruct (Py.pressed button 0); [intro H; exfalso; apply H; reflexivity |].
  destruct (Py.pressed button 1); [intro H; exfalso; apply H; reflexivity |].
  destruct (Py.pressed button 3); [intro H; exfalso; apply H; reflexivity |].
  destruct (Py.pressed button 2); [intro H; exfalso; apply H; reflexivity |].
  destruct (Py.pressed button 7); [| intro H; exfalso; apply H; reflexivity].
  cbv beta iota zeta delta [bind gets fst snd].
  destruct (Py.ltb DEBOUNCE_TIME (now_toggle i - last_alt_toggle_time s)) eqn:D;
    [| intro H; exfalso; apply H; reflexivity].
  unfold read_altitude, emit.
  destruct (altitude_toggle i) as [a |];
    [| intro H; exfalso; apply H; reflexivity].
  intros _. split; [reflexivity |]. exists a. split; reflexivity.
Qed.

(** The same for a whole iteration. *)
Lemma loop_body_toggle (b : Battery) (i : TickInput) (s : State) :
  toggles b i s ->
  Py.ltb DEBOUNCE_TIME (now_toggle i - last_alt_toggle_time s) = true /\
  exists a, altitude_toggle i = Some a /\
    alt_hold (fst (loop_body b i s)) = negb (alt_hold s) /\
    alt_setpoint (fst (loop_body b i s)) = a /\
    filtered_alt (fst (loop_body b i s)) = a /\
    ei (fst (loop_body b i s)) = Some 0%Q /\
    last_alt_toggle_time (fst (loop_body b i s)) = now_toggle i.
Proof.
  unfold toggles, loop_body.
  destruct (update i) as [snap |]; [| intro H; exfalso; apply H; reflexivity].
  rewrite bind_fst.
  pose proof (channels_stage_keeps_toggle i snap (alt_hold s) (alt_setpoint s)
                (last_alt_toggle_time s) s
                (conj eq_refl (conj eq_refl eq_refl))) as (K1 & _ & K3).
  destruct (snd (channels_stage i snap s)) as [[] |];
    [| intro H; exfalso; apply H; exact K1].
  set (s1 := fst (channels_stage i snap s)) in *.
  rewrite bind_fst. set (s2 := fst (button_dispatch i (snd snap) s1)).
  assert (Hd : alt_hold s2 <> alt_hold s ->
               Py.ltb DEBOUNCE_TIME (now_toggle i - last_alt_toggle_time s) = true /\
               exists a, altitude_toggle i = Some a /\
                 hold_state s2 = (negb (alt_hold s), a, a, Some 0%Q, now_toggle i)).
  { intro H. rewrite <- K1, <- K3. apply dispatch_toggle. rewrite K1. exact H. }
  assert (Hfin : forall s3, hold_state s3 = hold_state s2 ->
            alt_hold s3 <> alt_hold s ->
            Py.ltb DEBOUNCE_TIME (now_toggle i - last_alt_toggle_time s) = true /\
            exists a, altitude_toggle i = Some a /\
              alt_hold s3 = negb (alt_hold s) /\ alt_setpoint s3 = a /\
              filtered_alt s3 = a /\ ei s3 = Some 0%Q /\
              last_alt_toggle_time s3 = now_toggle i).
  { intros s3 E H.
    assert (Hh : alt_hold s3 = alt_hold s2).
    { unfold hold_state in E. inversion E. reflexivity. }
    rewrite Hh in H. destruct (Hd H) as [D [a [Ha Hs]]].
    split; [exact D |]. exists a. split; [exact Ha |].
    rewrite <- E in Hs. unfold hold_state in Hs. inversion Hs.
    repeat split; reflexivity. }
  destruct (snd (button_dispatch i (snd snap) s1)) as [[|] |];
    try (apply Hfin; reflexivity).
  rewrite bind_fst.
  pose proof (rates_stage_keeps_hold b i (hold_state s2) s2 eq_refl) as K.
  cbn beta in K.
  destruct (snd (rates_stage b i s2)); cbn [fst ret]; apply Hfin; exact K.
Qed.

End AltitudeHold.

Section HoldToggle.

Import NewCode.

(** With only the toggle button winning the chain, the dispatch is the
    toggle branch. *)
Lemma dispatch_toggle_branch (i : TickInput) (button : list bool) (s : State) :
  Py.pressed button 9 = false -> Py.pressed button 0 = false ->
  Py.pressed button 1 = false -> Py.pressed button 3 = false ->
  Py.pressed button 2 = false -> Py.pressed button 7 = true ->
  (Py.ltb DEBOUNCE_TIME (now_toggle i - last_alt_toggle_time s) = false ->
   button_dispatch i button s = (s, Ok Continue)) /\
  (forall a,
     Py.ltb DEBOUNCE_TIME (now_toggle i - last_alt_toggle_time s) = true ->
     altitude_toggle i = Some a ->
     snd (button_dispatch i button s) = Ok Continue /\
     hold_state (fst (button_dispatch i button s))
     = (negb (alt_hold s), a, a, Some 0%Q, now_toggle i)).
Proof.
  intros B9 B0 B1 B3 B2 B7. unfold button_dispatch.
  rewrite B9, B0, B1, B3, B2, B7.
  cbv beta iota zeta delta [bind gets fst snd]. split.
  - intro D. rewrite D. reflexivity.
  - intros a D Ha. rewrite D. unfold read_altitude, emit. rewrite Ha.
    split; reflexivity.
Qed.

(** C4.  Whatever the state before, if an iteration finds hold off and
    leaves it on, then the altitude [a] read in the toggle branch of that
    iteration is the setpoint, the filtered estimate is that same [a] and
    the integral is 0 in the state the iteration leaves; and the toggle
    branch, taken with hold off, debounce elapsed and the read answered,
    does switch hold on with those values. *)
Theorem hold_activation_resets (b : Battery) (i : TickInput) (s : State) :
  alt_hold s = false ->
  (alt_hold (fst (loop_body b i s)) = true ->
   exists a, altitude_toggle i = Some a /\
     alt_setpoint (fst (loop_body b i s)) = a /\
     filtered_alt (fst (loop_body b i s)) = a /\
     ei (fst (loop_body b i s)) = Some 0%Q) /\
  (forall button a,
     Py.pressed button 9 = false -> Py.pressed button 0 = false ->
     Py.pressed button 1 = false -> Py.pressed button 3 = false ->
     Py.pressed button 2 = false -> Py.pressed button 7 = true ->
     Py.ltb DEBOUNCE_TIME (now_toggle i - last_alt_toggle_time s) = true ->
     altitude_toggle i = Some a ->
     hold_state (fst (button_dispatch i button s))
     = (true, a, a, Some 0%Q, now_toggle i)).
Proof.
  intro Hoff. split.
  - intro Hon.
    assert (Ht : toggles b i s).
    { unfold toggles. rewrite Hoff, Hon. discriminate. }
    destruct (loop_body_toggle b i s Ht) as [_ [a (Ha & _ & Hsp & Hf & He & _)]].
    exists a. repeat split; assumption.
  - intros button a B9 B0 B1 B3 B2 B7 D Ha.
    destruct (dispatch_toggle_branch i button s B9 B0 B1 B3 B2 B7) as [_ H].
    destruct (H a D Ha) as [_ Hs]. rewrite Hoff in Hs. exact Hs.
Qed.

End HoldToggle.

Lemma hold_activation_resets_witness :
  exists a, altitude_toggle (tick_at 1001 sticks_centred (held [7%nat]) 1.2) = Some a /\
    NewCode.alt_setpoint holding_at_1_2 = a /\
    NewCode.filtered_alt holding_at_1_2 = a /\
    NewCode.ei holding_at_1_2 = Some 0%Q.
Proof.
  destruct (hold_activation_resets battery_3s
              (tick_at 1001 sticks_centred (held [7%nat]) 1.2)
              (NewCode.init 1000) eq_refl) as [H _].
  apply H. reflexivity.
Defined.

(** Reads the fields of a state written as setters over another. *)
Ltac newcode_fields :=
  cbn beta iota zeta delta
    [fst snd hold_command
     NewCode.CMDS NewCode.alt_hold NewCode.alt_setpoint NewCode.alt NewCode.eh
     NewCode.ei NewCode.last_alt_toggle_time NewCode.filtered_alt
     NewCode.yaw_trim NewCode.state23 NewCode.cursor_msg
     NewCode.last_loop_time NewCode.last_slow_msg_time NewCode.slow_msgs
     NewCode.pin23 NewCode.trace
     NewCode.set_CMDS NewCode.set_alt_hold NewCode.set_alt_setpoint
     NewCode.set_alt NewCode.set_eh NewCode.set_ei
     NewCode.set_last_alt_toggle_time NewCode.set_filtered_alt
     NewCode.set_yaw_trim NewCode.set_state23 NewCode.set_cursor_msg
     NewCode.set_last_loop_time NewCode.set_last_slow_msg_time
     NewCode.set_slow_msgs NewCode.set_pin23 NewCode.set_trace
     roll pitch throttle yaw aux1 aux2
     set_roll set_pitch set_throttle set_yaw set_aux1 set_aux2].

Section HoldUpdate.

Import NewCode.



End HoldUpdate.



Example hold_throttle_at_1570_6 :
  let s' := fst (NewCode.throttle_stage (tick_at 1002 sticks_centred [] 0) 1600
                   holding_at_1_2) in
  (hold_command s' == 1570.6012)%Q /\ throttle (NewCode.CMDS s') = 1570.
Proof. split; vm_compute; reflexivity. Qed.

(** ** Debounce of the altitude-hold toggle *)

Section Debounce.

Import NewCode.

(** The last toggle time only moves to the clock reading of a toggle. *)
Lemma loop_body_last_toggle_bound (b : Battery) (i : TickInput) (t : Q) :
  (t <= now_toggle i)%Q ->
  preserves (fun s => (t <= last_alt_toggle_time s)%Q) (loop_body b i).
Proof.
  intro Ht.
  unfold loop_body, channels_stage, rates_stage, channel_map, scale_yaw,
    throttle_stage, button_dispatch, fast_send, slow_step, read_altitude,
    board_call, emit, assign_CMDS.
  destruct (update i) as [[axis button] |]; preserves_walk;
    newcode_fields; assumption.
Qed.

Lemma while_true_running_cons {S : Type} (body : TickInput -> M S control)
  (i : TickInput) (rest : list TickInput) (s s2 : S) :
  while_true body (i :: rest) s = (s2, Running) ->
  body i s = (fst (body i s), Ok Continue) /\
  while_true body rest (fst (body i s)) = (s2, Running).
Proof.
  simpl. destruct (body i s) as [s' [[|] | e]]; simpl; intro H;
    try discriminate H.
  split; [reflexivity | exact H].
Qed.

(** Two iterations of one run that both change the hold flag are more than
    the debounce time apart. *)
Lemma toggles_are_spaced (b : Battery) (i j : TickInput)
  (mid : list TickInput) (s s2 : State) :
  while_true (loop_body b) (i :: mid) s = (s2, Running) ->
  (forall m, In m mid -> (now_toggle i <= now_toggle m)%Q) ->
  toggles b i s -> toggles b j s2 ->
  (DEBOUNCE_TIME < now_toggle j - now_toggle i)%Q.
Proof.
  intros Hrun Hclock Hi Hj.
  apply while_true_running_cons in Hrun. destruct Hrun as [_ Hmid].
  destruct (loop_body_toggle b i s Hi) as [_ [a (_ & _ & _ & _ & _ & Hlast)]].
  assert (Hinv : (now_toggle i <= last_alt_toggle_time s2)%Q).
  { replace s2 with (fst (while_true (loop_body b) mid (fst (loop_body b i s))))
      by (rewrite Hmid; reflexivity).
    apply (preserves_while (fun s => (now_toggle i <= last_alt_toggle_time s)%Q)).
    - intros m Hm. apply loop_body_last_toggle_bound. apply Hclock, Hm.
    - rewrite Hlast. apply Qle_refl. }
  destruct (loop_body_toggle b j s2 Hj) as [D _].
  apply ltb_lt in D. lra.
Qed.

(** C10.  In one run of the loop, two iterations that both change the
    altitude-hold flag are more than 0.5 s apart on the clock read in the
    toggle branch (the clock not running backwards in between): of two
    presses less than 0.5 s apart at most one changes the flag.  With the
    toggle winning the chain and the debounce elapsed at the first press, a
    second press 0.1 s later changes nothing and one 0.6 s later toggles
    again. *)
Theorem debounce_toggle
  (b : Battery) (i j : TickInput) (mid : list TickInput) (s s2 : State) :
  (while_true (loop_body b) (i :: mid) s = (s2, Running) ->
   (forall m, In m mid -> (now_toggle i <= now_toggle m)%Q) ->
   toggles b i s -> toggles b j s2 ->
   (DEBOUNCE_TIME < now_toggle j - now_toggle i)%Q) /\
  (forall a1 a2,
     altitude_toggle i = Some a1 -> altitude_toggle j = Some a2 ->
     (DEBOUNCE_TIME < now_toggle i - last_alt_toggle_time s)%Q ->
     let s1 := fst (button_dispatch i (held [7%nat]) s) in
     let s3 := fst (button_dispatch j (held [7%nat]) s1) in
     alt_hold s1 = negb (alt_hold s) /\
     ((now_toggle j == now_toggle i + 0.1)%Q -> alt_hold s3 = alt_hold s1) /\
     ((now_toggle j == now_toggle i + 0.6)%Q ->
      alt_hold s3 = negb (alt_hold s1))).
Proof.
  split; [apply toggles_are_spaced |].
  intros a1 a2 Ha1 Ha2 D1. cbv zeta.
  destruct (dispatch_toggle_branch i (held [7%nat]) s
              eq_refl eq_refl eq_refl eq_refl eq_refl eq_refl) as [_ F1].
  apply ltb_lt in D1. destruct (F1 a1 D1 Ha1) as [_ E1].
  set (s1 := fst (button_dispatch i (held [7%nat]) s)) in *.
  assert (Hh1 : alt_hold s1 = negb (alt_hold s))
    by (unfold hold_state in E1; inversion E1; reflexivity).
  assert (Hl1 : last_alt_toggle_time s1 = now_toggle i)
    by (unfold hold_state in E1; inversion E1; reflexivity).
  destruct (dispatch_toggle_branch j (held [7%nat]) s1
              eq_refl eq_refl eq_refl eq_refl eq_refl eq_refl) as [N2 F2].
  split; [exact Hh1 |]. split.
  - intro Hj. rewrite N2; [reflexivity |].
    apply ltb_ge. rewrite Hl1, Hj. unfold DEBOUNCE_TIME. lra.
  - intro Hj.
    assert (D2 : Py.ltb DEBOUNCE_TIME (now_toggle j - last_alt_toggle_time s1)
                 = true).
    { apply ltb_lt. rewrite Hl1, Hj. unfold DEBOUNCE_TIME. lra. }
    destruct (F2 a2 D2 Ha2) as [_ E2].
    unfold hold_state in E2. inversion E2. reflexivity.
Qed.

End Debounce.

Lemma debounce_toggle_witness :
  let i := tick_at 1001 sticks_centred (held [7%nat]) 1.2 in
  let j := tick_at 1001.6 sticks_centred (held [7%nat]) 1.3 in
  (NewCode.DEBOUNCE_TIME < now_toggle j - now_toggle i)%Q /\
  NewCode.alt_hold
    (fst (NewCode.button_dispatch i (held [7%nat]) (NewCode.init 1000)))
  = negb (NewCode.alt_hold (NewCode.init 1000)).
Proof.
  cbv zeta.
  destruct (debounce_toggle battery_3s
              (tick_at 1001 sticks_centred (held [7%nat]) 1.2)
              (tick_at 1001.6 sticks_centred (held [7%nat]) 1.3)
              [tick_at 1001.3 sticks_centred (held [7%nat]) 1.25]
              (NewCode.init 1000)
              (fst (while_true (NewCode.loop_body battery_3s)
                      [tick_at 1001 sticks_centred (held [7%nat]) 1.2;
                       tick_at 1001.3 sticks_centred (held [7%nat]) 1.25]
                      (NewCode.init 1000)))) as [Hgen Hex].
  split.
  - apply Hgen.
    + vm_compute. reflexivity.
    + intros m [Hm | []]. subst m. unfold Qle. simpl. lia.
    + unfold toggles. vm_compute. discriminate.
    + unfold toggles. vm_compute. discriminate.
  - destruct (Hex 1.2%Q 1.3%Q eq_refl eq_refl) as [H _]; [| exact H].
    unfold Qlt. simpl. lia.
Defined.

(** Three presses from the start, at 1001, 1001.1 and 1001.7 s: hold goes
    on, stays on, goes off. *)
Example debounce_run :
  let press (t : Q) := tick_at t sticks_centred (held [7%nat]) 1.2 in
  let s1 := fst (NewCode.loop_body battery_3s (press 1001%Q) (NewCode.init 1000)) in
  let s2 := fst (NewCode.loop_body battery_3s (press 1001.1%Q) s1) in
  let s3 := fst (NewCode.loop_body battery_3s (press 1001.7%Q) s2) in
  NewCode.alt_hold s1 = true /\ NewCode.alt_hold s2 = true /\
  NewCode.alt_hold s3 = false.
Proof. repeat split; vm_compute; reflexivity. Qed.

(** * Further properties of the two scripts *)

(** ** Axis scaling: mirror image and centre band *)

Lemma int_opp (x : Q) : Py.int (- x) = - Py.int x.
Proof.
  destruct x as [n d]. unfold Py.int. simpl. apply Z.quot_opp_l. lia.
Qed.

(** X1.  Negating the stick mirrors the channel about 1500:
    [scale_axis (-a) = 3000 - scale_axis a].  The pitch channel, which is
    fed [-axis[4]], is the exact mirror image of what [axis[4]] would give. *)
Theorem scale_axis_mirror (a : Q) : scale_axis (- a) = 3000 - scale_axis a.
Proof.
  unfold scale_axis.
  assert (H : Py.int (- a * 200) = - Py.int (a * 200)).
  { rewrite <- int_opp. apply int_comp. ring. }
  rewrite H. lia.
Qed.

Lemma int_zero_iff (x : Q) : Py.int x = 0 <-> (-1 < x < 1)%Q.
Proof.
  destruct (Qlt_le_dec x 0) as [Hx | Hx].
  - assert (Hx' : (x <= 0)%Q) by (apply Qlt_le_weak; exact Hx).
    rewrite (int_nonpos x Hx').
    pose proof (Qle_ceiling x) as H1. pose proof (Qceiling_lt x) as H2.
    split.
    + intro E. rewrite E in H2. change (inject_Z (0 - 1)) with (-1)%Q in H2.
      split; [exact H2 | lra].
    + intros [Hl _].
      assert (Hc : Qceiling x <= 0) by (apply Qceiling_nonpos; exact Hx').
      assert (Hd : -1 < Qceiling x).
      { rewrite Zlt_Qlt. change (inject_Z (-1)) with (-1)%Q. lra. }
      lia.
  - rewrite (int_nonneg x Hx).
    pose proof (Qfloor_le x) as H1. pose proof (Qlt_floor x) as H2.
    split.
    + intro E. rewrite E in H2. change (inject_Z (0 + 1)) with 1%Q in H2.
      split; [lra | exact H2].
    + intros [_ Hu].
      assert (Hc : 0 <= Qfloor x) by (apply Qfloor_nonneg; exact Hx).
      assert (Hd : Qfloor x < 1).
      { rewrite Zlt_Qlt. change (inject_Z 1) with 1%Q. lra. }
      lia.
Qed.

(** X2.  Because [int] truncates toward zero, the channel sits at 1500 on
    a band of width 1/100 around the centre, twice the width of any other
    step: [scale_axis a = 1500] exactly when [-1/200 < a < 1/200]. *)
Theorem scale_axis_centre_band (a : Q) :
  scale_axis a = 1500 <-> (-1 # 200 < a < 1 # 200)%Q.
Proof.
  unfold scale_axis. split.
  - intro H.
    assert (H0 : Py.int (a * 200) = 0) by lia.
    apply int_zero_iff in H0. lra.
  - intro H.
    assert (H0 : Py.int (a * 200) = 0) by (apply int_zero_iff; lra).
    rewrite H0. reflexivity.
Qed.

(** ** Directional throttle: saturation *)

(** X3.  Inputs beyond the stick range saturate: [scale_throttle] is 1800
    for every [v >= 1] and 950 for every [v <= -1]. *)
Theorem scale_throttle_saturates (v : Q) :
  ((1 <= v)%Q -> NewCode.scale_throttle v = 1800) /\
  ((v <= -1)%Q -> NewCode.scale_throttle v = 950).
Proof.
  unfold NewCode.scale_throttle.
  pose proof (clamp_unit_cases v) as Hc. cbv zeta in Hc.
  revert Hc. generalize (Py.max (-1) (Py.min 1 v)) as c. intros c Hc.
  split; intro Hv.
  - assert (E : (c == 1)%Q) by (destruct Hc as [[E R] | [[E R] | [E R]]]; lra).
    destruct (Qle_bool 0 c) eqn:B.
    + change 1800 with (Py.int 1800). apply int_comp. rewrite E. reflexivity.
    + apply leb_gt in B. lra.
  - assert (E : (c == -1)%Q) by (destruct Hc as [[E R] | [[E R] | [E R]]]; lra).
    destruct (Qle_bool 0 c) eqn:B.
    + apply Qle_bool_iff in B. lra.
    + change 950 with (Py.int 950). apply int_comp. rewrite E. reflexivity.
Qed.

Lemma scale_throttle_saturates_witness :
  NewCode.scale_throttle 3 = 1800 /\ NewCode.scale_throttle (-7 # 2) = 950.
Proof.
  split.
  - apply (scale_throttle_saturates 3). unfold Qle; simpl; lia.
  - apply (scale_throttle_saturates (-7 # 2)). unfold Qle; simpl; lia.
Defined.

Lemma scale_axis_centre_band_witness :
  scale_axis (1 # 400) = 1500 /\ (-1 # 200 < 0 < 1 # 200)%Q.
Proof.
  split.
  - apply (proj2 (scale_axis_centre_band (1 # 400))).
    split; unfold Qlt; simpl; lia.
  - apply (proj1 (scale_axis_centre_band 0)). reflexivity.
Defined.

(** ** The trims over several iterations *)

Lemma nth_error_in_range {A} (l : list A) (n : nat) :
  (n < List.length l)%nat -> exists a, nth_error l n = Some a.
Proof.
  intro H. destruct (nth_error l n) as [a |] eqn:E.
  - exists a. reflexivity.
  - apply nth_error_None in E. lia.
Qed.

Lemma newcode_channel_map_state (axis : list Q) (button : list bool)
  (s : NewCode.State) :
  (5 <= List.length axis)%nat ->
  fst (NewCode.channel_map (axis, button) s)
  = NewCode.set_yaw_trim (next_yaw_trim button (NewCode.yaw_trim s)) s.
Proof.
  intro H. rewrite newcode_channel_map_run.
  destruct (nth_error_in_range axis 1) as [a1 E1]; [lia |].
  destruct (nth_error_in_range axis 3) as [a3 E3]; [lia |].
  destruct (nth_error_in_range axis 4) as [a4 E4]; [lia |].
  rewrite E1, E3, E4. reflexivity.
Qed.

(** X4.  In newcode.py, with a joystick of at least five axes, [n] runs of
    the mapping with button 5 held take the yaw trim from [t <= 100] to
    [min(100, t + 10 n)]; with button 4 held (and not 5) from [t >= -100]
    to [max(-100, t - 10 n)]; and a single run with neither held puts it
    back to 0 whatever it was. *)
Theorem yaw_trim_ramps (axis : list Q) (button : list bool)
  (s : NewCode.State) (n : nat) :
  (5 <= List.length axis)%nat ->
  let step := fun s => fst (NewCode.channel_map (axis, button) s) in
  (Py.pressed button 5 = true -> NewCode.yaw_trim s <= 100 ->
   NewCode.yaw_trim (Nat.iter n step s)
   = Z.min 100 (NewCode.yaw_trim s + 10 * Z.of_nat n)) /\
  (Py.pressed button 5 = false -> Py.pressed button 4 = true ->
   -100 <= NewCode.yaw_trim s ->
   NewCode.yaw_trim (Nat.iter n step s)
   = Z.max (-100) (NewCode.yaw_trim s - 10 * Z.of_nat n)) /\
  (Py.pressed button 5 = false -> Py.pressed button 4 = false ->
   NewCode.yaw_trim (step s) = 0).
Proof.
  intros Hlen step.
  assert (Hstep : forall s0, NewCode.yaw_trim (step s0)
                             = next_yaw_trim button (NewCode.yaw_trim s0)).
  { intro s0. unfold step. rewrite newcode_channel_map_state by exact Hlen.
    reflexivity. }
  split; [| split].
  - intros B5 Ht. induction n as [| n IH].
    + simpl. lia.
    + rewrite Nat.iter_succ, Hstep, IH. unfold next_yaw_trim. rewrite B5. lia.
  - intros B5 B4 Ht. induction n as [| n IH].
    + simpl. lia.
    + rewrite Nat.iter_succ, Hstep, IH. unfold next_yaw_trim. rewrite B5, B4. lia.
  - intros B5 B4. rewrite Hstep. unfold next_yaw_trim. rewrite B5, B4.
    reflexivity.
Qed.

Lemma yaw_trim_ramps_witness :
  NewCode.yaw_trim
    (Nat.iter 12 (fun s => fst (NewCode.channel_map
                                  (sticks_centred, held [5%nat]) s))
       (NewCode.init 1000))
  = Z.min 100 (NewCode.yaw_trim (NewCode.init 1000) + 10 * Z.of_nat 12).
Proof.
  destruct (yaw_trim_ramps sticks_centred (held [5%nat]) (NewCode.init 1000) 12)
    as [H _].
  - simpl. lia.
  - apply H; [reflexivity | simpl; lia].
Defined.

(** X5.  In UIjoy.py, [n] runs of the mapping with button 7 held take the
    throttle trim from [t <= 1200] to [min(1200, t + 5 n)]; with button 6
    held (and not 7) from [t >= 0] to [max(0, t - 5 n)]; with neither held
    the trim stays where it is.  This holds whatever the axes are, since
    the trim is written before any axis is read. *)
Theorem throttle_trim_ramps (axis : list Q) (button : list bool)
  (u : UIjoy.State) (n : nat) :
  let step := fun u => fst (UIjoy.channel_map (axis, button) u) in
  (Py.pressed button 7 = true -> UIjoy.throttle_trim u <= 1200 ->
   UIjoy.throttle_trim (Nat.iter n step u)
   = Z.min 1200 (UIjoy.throttle_trim u + 5 * Z.of_nat n)) /\
  (Py.pressed button 7 = false -> Py.pressed button 6 = true ->
   0 <= UIjoy.throttle_trim u ->
   UIjoy.throttle_trim (Nat.iter n step u)
   = Z.max 0 (UIjoy.throttle_trim u - 5 * Z.of_nat n)) /\
  (Py.pressed button 7 = false -> Py.pressed button 6 = false ->
   UIjoy.throttle_trim (Nat.iter n step u) = UIjoy.throttle_trim u).
Proof.
  intro step.
  assert (Hstep : forall u0, UIjoy.throttle_trim (step u0)
                             = next_throttle_trim button (UIjoy.throttle_trim u0)).
  { intro u0. unfold step. apply uijoy_channel_map_trim. }
  split; [| split].
  - intros B7 Ht. induction n as [| n IH].
    + simpl. lia.
    + rewrite Nat.iter_succ, Hstep, IH. unfold next_throttle_trim.
      rewrite B7. lia.
  - intros B7 B6 Ht. induction n as [| n IH].
    + simpl. lia.
    + rewrite Nat.iter_succ, Hstep, IH. unfold next_throttle_trim.
      rewrite B7, B6. lia.
  - intros B7 B6. induction n as [| n IH].
    + reflexivity.
    + rewrite Nat.iter_succ, Hstep, IH. unfold next_throttle_trim.
      rewrite B7, B6. reflexivity.
Qed.

Lemma throttle_trim_ramps_witness :
  UIjoy.throttle_trim
    (Nat.iter 300 (fun u => fst (UIjoy.channel_map ([], held [7%nat]) u))
       UIjoy.init)
  = Z.min 1200 (UIjoy.throttle_trim UIjoy.init + 5 * Z.of_nat 300).
Proof.
  destruct (throttle_trim_ramps [] (held [7%nat]) UIjoy.init 300) as [H _].
  apply H; [reflexivity | simpl; lia].
Defined.

(** ** Battery thresholds *)

(** X9.  When the board reports a cell count of 0, all three thresholds
    are 0 and the message is never the normal or the low-warning one: it is
    the critical one for a voltage at or below 0 and the over-voltage one
    for any positive voltage. *)
Theorem voltage_msg_without_cells (b : NewCode.Battery) (v : Q) :
  (NewCode.cellCount b == 0)%Q ->
  ((v <= 0)%Q ->
   NewCode.voltage_msg (NewCode.min_voltage b) (NewCode.warn_voltage b)
     (NewCode.max_voltage b) v = band_msg critical) /\
  ((0 < v)%Q ->
   NewCode.voltage_msg (NewCode.min_voltage b) (NewCode.warn_voltage b)
     (NewCode.max_voltage b) v = band_msg over_voltage).
Proof.
  intro Hc.
  assert (Hmin : (NewCode.min_voltage b == 0)%Q)
    by (unfold NewCode.min_voltage; rewrite Hc; ring).
  assert (Hwarn : (NewCode.warn_voltage b == 0)%Q)
    by (unfold NewCode.warn_voltage; rewrite Hc; ring).
  assert (Hmax : (NewCode.max_voltage b == 0)%Q)
    by (unfold NewCode.max_voltage; rewrite Hc; ring).
  unfold NewCode.voltage_msg.
  destruct (Py.ltb (NewCode.min_voltage b) v) eqn:E1;
    [apply ltb_lt in E1 | apply ltb_ge in E1];
    (destruct (Qle_bool v (NewCode.warn_voltage b)) eqn:E2;
       [apply Qle_bool_iff in E2 | apply leb_gt in E2]);
    (destruct (Qle_bool v (NewCode.min_voltage b)) eqn:E3;
       [apply Qle_bool_iff in E3 | apply leb_gt in E3]);
    (destruct (Qle_bool (NewCode.max_voltage b) v) eqn:E4;
       [apply Qle_bool_iff in E4 | apply leb_gt in E4]);
    simpl; split; intro Hv; try reflexivity; exfalso; lra.
Qed.

Lemma voltage_msg_without_cells_witness :
  NewCode.voltage_msg
    (NewCode.min_voltage (read_battery (Some 0%Q) None None None))
    (NewCode.warn_voltage (read_battery (Some 0%Q) None None None))
    (NewCode.max_voltage (read_battery (Some 0%Q) None None None)) 11.5
  = band_msg over_voltage.
Proof.
  destruct (voltage_msg_without_cells
              (read_battery (Some 0%Q) None None None) 11.5) as [_ H].
  - reflexivity.
  - apply H. reflexivity.
Defined.

(** ** Serial port detection *)

Lemma prefix_append (sub s : string) :
  String.prefix sub s = true <-> exists post, s = (sub ++ post)%string.
Proof.
  revert s. induction sub as [| a sub IH]; intro s.
  - split; [intros _; exists s; reflexivity |].
    intros _. destruct s; reflexivity.
  - destruct s as [| b s]; simpl.
    + split; [discriminate | intros [post H]; discriminate H].
    + destruct (Ascii.ascii_dec a b) as [-> | Hne].
      * rewrite IH. split; intros [post H]; exists post.
        -- rewrite H. reflexivity.
        -- inversion H. reflexivity.
      * split; [discriminate |]. intros [post H]. inversion H.
        exfalso. apply Hne. symmetry. assumption.
Qed.

Lemma contains_cons (sub : string) (c : Ascii.ascii) (s : string) :
  contains sub (String c s) = String.prefix sub (String c s) || contains sub s.
Proof. reflexivity. Qed.

Lemma contains_empty (sub : string) :
  contains sub EmptyString = String.prefix sub EmptyString.
Proof. apply orb_false_r. Qed.

(** [contains] is the substring test of Python's [in]. *)
Lemma contains_spec (sub s : string) :
  contains sub s = true
  <-> exists pre post, s = (pre ++ sub ++ post)%string.
Proof.
  induction s as [| c s IH].
  - rewrite contains_empty, prefix_append. split.
    + intros [post H]. exists EmptyString, post. exact H.
    + intros [pre [post H]]. destruct pre as [| p pre]; [| discriminate H].
      exists post. exact H.
  - rewrite contains_cons, orb_true_iff, prefix_append, IH. split.
    + intros [[post H] | [pre [post H]]].
      * exists EmptyString, post. exact H.
      * exists (String c pre), post. rewrite H. reflexivity.
    + intros [pre [post H]]. destruct pre as [| p pre].
      * left. exists post. exact H.
      * right. inversion H. exists pre, post. reflexivity.
Qed.

(** X10.  [detect_serial_port] always returns a device whose name contains
    "ACM" or "USB": either the first such device of the list, every device
    before it containing neither, or, when no device of the list does (in
    particular when no port exists), the fallback "/dev/ttyACM0". *)
Theorem detect_serial_port_first_match (ports : list string) :
  serial_like (detect_serial_port ports) = true /\
  ((exists before after,
      ports = (before ++ detect_serial_port ports :: after)%list /\
      forall p, In p before -> serial_like p = false) \/
   (detect_serial_port ports = "/dev/ttyACM0" /\
    forall p, In p ports -> serial_like p = false)).
Proof.
  induction ports as [| d rest [IH1 IH2]]; simpl.
  - split; [reflexivity |]. right. split; [reflexivity | intros p []].
  - destruct (serial_like d) eqn:E.
    + split; [exact E |]. left. exists [], rest.
      split; [reflexivity | intros p []].
    + split; [exact IH1 |].
      destruct IH2 as [[before [after [Hp Hb]]] | [Hd Hn]].
      * left. exists (d :: before), after. split.
        -- simpl. rewrite <- Hp. reflexivity.
        -- intros p [-> | Hin]; [exact E | apply Hb, Hin].
      * right. split; [exact Hd |].
        intros p [-> | Hin]; [exact E | apply Hn, Hin].
Qed.

Example detect_serial_port_samples :
  detect_serial_port [] = "/dev/ttyACM0" /\
  detect_serial_port ["/dev/ttyS0"; "/dev/ttyUSB1"; "/dev/ttyACM0"]
  = "/dev/ttyUSB1" /\
  detect_serial_port ["COM3"; "/dev/ttyAMA0"] = "/dev/ttyACM0".
Proof. repeat split; reflexivity. Qed.

(** ** The mode button of UIjoy.py *)

(** X11.  In UIjoy.py the mode button (button 3, with arm and disarm not
    held) steps [aux2] by 500 modulo 2000: four presses bring back any
    value in [[0, 2000)], and from the starting value 1000 the second press
    puts 0 on the channel. *)
Theorem mode_button_cycles (i : TickInput) (button : list bool)
  (u : UIjoy.State) :
  Py.pressed button 0 = false -> Py.pressed button 1 = false ->
  Py.pressed button 3 = true ->
  let press := fun u => fst (UIjoy.button_dispatch i button u) in
  aux2 (UIjoy.CMDS (press u)) = (aux2 (UIjoy.CMDS u) + 500) mod 2000 /\
  (0 <= aux2 (UIjoy.CMDS u) < 2000 ->
   aux2 (UIjoy.CMDS (press (press (press (press u))))) = aux2 (UIjoy.CMDS u)) /\
  (aux2 (UIjoy.CMDS u) = 1000 -> aux2 (UIjoy.CMDS (press (press u))) = 0).
Proof.
  intros B0 B1 B3 press.
  assert (Hp : forall u0, aux2 (UIjoy.CMDS (press u0))
                          = (aux2 (UIjoy.CMDS u0) + 500) mod 2000).
  { intro u0. unfold press, UIjoy.button_dispatch. rewrite B0, B1, B3.
    reflexivity. }
  split; [apply Hp |]. split.
  - intro Hr. rewrite !Hp. revert Hr.
    generalize (aux2 (UIjoy.CMDS u)) as a. intros a Hr.
    Z.div_mod_to_equations. lia.
  - intro H. rewrite !Hp, H. reflexivity.
Qed.

Lemma mode_button_cycles_witness :
  aux2 (UIjoy.CMDS
          (fst (UIjoy.button_dispatch (tick_lost 1000) (held [3%nat])
             (fst (UIjoy.button_dispatch (tick_lost 1000) (held [3%nat])
                UIjoy.init))))) = 0.
Proof.
  destruct (mode_button_cycles (tick_lost 1000) (held [3%nat]) UIjoy.init
              eq_refl eq_refl eq_refl) as (_ & _ & H).
  apply H. reflexivity.
Defined.

(** ** Invariants with the exceptions that can leave *)

Section KeepsFacts.

Context {S : Type}.

Lemma keeps_ret (I : S -> Prop) (E : exn -> Prop) {A} (a : A) :
  keeps I E (ret a).
Proof. intros s H. split; [exact H | intros e He; discriminate He]. Qed.

Lemma keeps_raise (I : S -> Prop) (E : exn -> Prop) {A} (e : exn) :
  E e -> keeps I E (@raise S A e).
Proof.
  intros He s H. split; [exact H |]. intros e' H'. inversion H'. subst. exact He.
Qed.

Lemma keeps_gets (I : S -> Prop) (E : exn -> Prop) {A} (f : S -> A) :
  keeps I E (gets f).
Proof. intros s H. split; [exact H | intros e He; discriminate He]. Qed.

Lemma keeps_modify (I : S -> Prop) (E : exn -> Prop) (f : S -> S) :
  (forall s, I s -> I (f s)) -> keeps I E (modify f).
Proof.
  intros Hf s H. split; [apply Hf, H | intros e He; discriminate He].
Qed.

Lemma keeps_bind (I : S -> Prop) (E : exn -> Prop) {A B}
  (m : M S A) (k : A -> M S B) :
  keeps I E m -> (forall a, keeps I E (k a)) -> keeps I E (bind m k).
Proof.
  intros Hm Hk s H. destruct (Hm s H) as [H1 H2]. unfold bind.
  destruct (m s) as [s' [a | e]]; simpl in *.
  - apply Hk, H1.
  - split; [exact H1 |]. intros e' He'. inversion He'. subst.
    apply H2. reflexivity.
Qed.

Lemma keeps_index (I : S -> Prop) (E : exn -> Prop) (l : list Q) (n : nat) :
  E IndexError -> keeps I E (index l n).
Proof.
  intro He. unfold index. destruct (nth_error l n).
  - apply keeps_ret.
  - apply keeps_raise, He.
Qed.

Lemma keeps_weaken (I : S -> Prop) (E E' : exn -> Prop) {A} (m : M S A) :
  (forall e, E e -> E' e) -> keeps I E m -> keeps I E' m.
Proof.
  intros HE Hm s H. destruct (Hm s H) as [H1 H2].
  split; [exact H1 |]. intros e He. apply HE, H2, He.
Qed.

(** An invariant of every iteration holds wherever the loop stands, and an
    exception that leaves the loop is one an iteration can raise. *)
Lemma keeps_while (I : S -> Prop) (E : exn -> Prop)
  (body : TickInput -> M S control) (inputs : list TickInput) :
  (forall i, keeps I E (body i)) ->
  forall s, I s ->
    I (fst (while_true body inputs s)) /\
    forall e, snd (while_true body inputs s) = Left_by_raise e -> E e.
Proof.
  intro Hb. induction inputs as [| i rest IH]; intros s H; simpl.
  - split; [exact H | intros e He; discriminate He].
  - destruct (Hb i s H) as [H1 H2].
    destruct (body i s) as [s' [[|] | e]]; simpl in *.
    + apply IH, H1.
    + split; [exact H1 | intros e He; discriminate He].
    + split; [exact H1 |]. intros e' He'. inversion He'. subst.
      apply H2. reflexivity.
Qed.

End KeepsFacts.

Ltac keeps_step :=
  match goal with
  | |- keeps _ _ (bind _ _) => apply keeps_bind; [| intro]
  | |- keeps _ _ (ret _) => apply keeps_ret
  | |- keeps _ _ (raise _) => apply keeps_raise
  | |- keeps _ _ (gets _) => apply keeps_gets
  | |- keeps _ _ (index _ _) => apply keeps_index
  | |- keeps _ _ (modify _) => apply keeps_modify; intros ? ?
  | |- keeps _ _ (if ?c then _ else _) => destruct c
  | |- keeps _ _ (match ?o with _ => _ end) => destruct o
  end.

Ltac keeps_walk := repeat (cbv zeta; keeps_step).

Lemma queries_in_app (l1 l2 : list Event) :
  queries_in (l1 ++ l2) = (queries_in l1 ++ queries_in l2)%list.
Proof. apply flat_map_app. Qed.

(** Logging a call that is not a frame leaves [frames_ok]. *)
Lemma frames_ok_other (ok : Cmds -> Prop) (l : list Event) (e : Event) :
  is_frame e = false -> frames_ok ok l -> frames_ok ok (l ++ [e]).
Proof.
  intros He H f Hin. rewrite frames_in_app in Hin.
  apply in_app_or in Hin. destruct Hin as [Hin | Hin]; [apply H, Hin |].
  destruct e; simpl in *; try contradiction; discriminate He.
Qed.

Lemma frames_ok_frame (ok : Cmds -> Prop) (l : list Event) (c : Cmds) :
  ok c -> frames_ok ok l -> frames_ok ok (l ++ [send_RAW_RC (CMDS_ORDER c)]).
Proof.
  intros Hc H f Hin. rewrite frames_in_app in Hin.
  apply in_app_or in Hin. destruct Hin as [Hin | Hin]; [apply H, Hin |].
  simpl in Hin. destruct Hin as [<- | []]. exists c. split; [reflexivity | exact Hc].
Qed.

(** ** newcode.py: the channels stay in range *)

Lemma scale_axis_range (a : Q) : 1300 <= scale_axis a <= 1700.
Proof. unfold scale_axis. lia. Qed.

Lemma scale_throttle_range (v : Q) : 950 <= NewCode.scale_throttle v <= 1800.
Proof.
  rewrite scale_throttle_curve.
  pose proof (throttle_curve_range v) as [Hl Hu].
  apply int_le_mono in Hl. apply int_le_mono in Hu.
  change (Py.int 950) with 950 in Hl. change (Py.int 1800) with 1800 in Hu.
  lia.
Qed.

Ltac range_solve :=
  match goal with
  | H : newcode_range_inv _ |- newcode_range_inv _ =>
      destruct H as (?Hc & ?Ht & ?Hf);
      unfold newcode_range_inv; newcode_fields;
      split; [| split];
      [ unfold newcode_cmds_ok in *; newcode_fields; intuition lia
      | try assumption; lia
      | try assumption; try (apply frames_ok_other; [reflexivity | assumption]) ]
  end.

Section NewCodeRange.

Import NewCode.

Let anything : exn -> Prop := fun _ => True.

Lemma throttle_stage_range (i : TickInput) (raw_throttle : Z) :
  900 <= raw_throttle <= 1800 ->
  keeps newcode_range_inv anything (throttle_stage i raw_throttle).
Proof.
  intro Hr. unfold throttle_stage, read_altitude, emit, assign_CMDS.
  keeps_walk; try exact I; range_solve.
Qed.

Lemma button_dispatch_range (i : TickInput) (button : list bool) :
  keeps newcode_range_inv anything (button_dispatch i button).
Proof.
  unfold button_dispatch, board_call, read_altitude, emit, assign_CMDS.
  keeps_walk; try exact I; range_solve.
Qed.

Lemma slow_step_range (b : Battery) (i : TickInput) :
  keeps newcode_range_inv anything (slow_step b i).
Proof.
  unfold slow_step, emit. keeps_walk; try exact I; range_solve.
Qed.

Lemma fast_send_range (i : TickInput) :
  keeps newcode_range_inv anything (fast_send i).
Proof.
  intros s H. split; [| intros; exact I].
  unfold fast_send, emit.
  cbv beta iota zeta delta [bind gets modify ret raise fst snd].
  destruct (Qle_bool CTRL_LOOP_TIME (now_fast i - last_loop_time s));
    [| exact H].
  assert (Hs : newcode_range_inv
                 (set_trace
                    (trace (set_last_loop_time (now_fast_set i) s)
                     ++ [send_RAW_RC
                           (CMDS_ORDER (CMDS (set_last_loop_time (now_fast_set i) s)))])
                    (set_last_loop_time (now_fast_set i) s))).
  { destruct H as (Hc & Ht & Hf). unfold newcode_range_inv. newcode_fields.
    split; [exact Hc |]. split; [exact Ht |].
    apply frames_ok_frame; assumption. }
  destruct (rc_accepted i) as [[|] |]; try exact Hs.
  destruct (rc_received i); exact Hs.
Qed.

Lemma channels_stage_range (i : TickInput) (snap : Snapshot) :
  keeps newcode_range_inv anything (channels_stage i snap).
Proof.
  intros s H. split; [| intros; exact I].
  destruct snap as [axis button]. unfold channels_stage.
  rewrite bind_fst, newcode_channel_map_run.
  destruct (nth_error axis 1) as [a1 |]; [| exact H].
  destruct (nth_error axis 3) as [a3 |]; [| exact H].
  destruct (nth_error axis 4) as [a4 |]; [| exact H].
  cbn [fst snd].
  assert (Htrim : -100 <= next_yaw_trim button (yaw_trim s) <= 100).
  { destruct H as (_ & Ht & _). unfold next_yaw_trim.
    destruct (Py.pressed button 5); [lia |].
    destruct (Py.pressed button 4); lia. }
  assert (Hs : newcode_range_inv
                 (set_yaw_trim (next_yaw_trim button (yaw_trim s)) s)).
  { destruct H as (Hc & Ht & Hf). unfold newcode_range_inv. newcode_fields.
    split; [exact Hc |]. split; [exact Htrim | exact Hf]. }
  assert (Hthr : 900 <= scale_throttle (- a1) <= 1800).
  { pose proof (scale_throttle_range (- a1)). lia. }
  pose proof (scale_axis_range a3) as Hroll.
  pose proof (scale_axis_range (- a4)) as Hpitch.
  revert Hs. generalize (set_yaw_trim (next_yaw_trim button (yaw_trim s)) s).
  generalize (next_yaw_trim button (yaw_trim s)) Htrim. intros t Ht s0 Hs.
  apply (fun K : keeps newcode_range_inv anything _ => proj1 (K s0 Hs)).
  unfold assign_CMDS.
  keeps_walk; try exact I; try (apply throttle_stage_range; exact Hthr);
    range_solve.
Qed.

End NewCodeRange.

Section NewCodeRangeRun.

Import NewCode.

Lemma loop_body_range (b : Battery) (i : TickInput) :
  keeps newcode_range_inv (fun _ => True) (loop_body b i).
Proof.
  unfold loop_body, rates_stage, assign_CMDS.
  destruct (update i) as [snap |]; keeps_walk; try exact I;
    first [ apply channels_stage_range | apply button_dispatch_range
          | apply fast_send_range | apply slow_step_range | range_solve ].
Qed.

Lemma main_entry_range (t : Q) : newcode_range_inv (main_entry t).
Proof.
  unfold newcode_range_inv, main_entry. newcode_fields.
  split; [| split].
  - unfold newcode_cmds_ok. simpl. lia.
  - simpl. lia.
  - intros f [].
Qed.

Lemma send_all_range (msgs : list string) :
  keeps newcode_range_inv (fun _ => True) (send_all msgs).
Proof.
  induction msgs as [| msg rest IH]; simpl; [apply keeps_ret |].
  unfold emit. apply keeps_bind; [| intros _; exact IH].
  apply keeps_modify. intros s H. range_solve.
Qed.

Lemma setup_range (st : Startup) :
  keeps newcode_range_inv (fun _ => True) (setup st).
Proof.
  unfold setup. destruct (setup_raises st) as [[n e] |];
    keeps_walk; try exact I; apply send_all_range.
Qed.

Lemma with_exit_range (s : State) :
  newcode_range_inv s -> newcode_range_inv (with_exit s).
Proof. intro H. unfold with_exit. range_solve. Qed.

Lemma finally_range (st : Startup) :
  keeps newcode_range_inv (fun _ => True) (finally st).
Proof.
  unfold finally, emit. keeps_walk; try exact I; range_solve.
Qed.

(** What holds where the body of the [with] block is left, and is kept by
    the release of the link and by the [finally] clause, holds of the state
    [joy_controller] ends in. *)
Lemma joy_controller_exit_keeps (I : State -> Prop) (st : Startup)
  (inputs : list TickInput) :
  I (main_entry (t0 st)) ->
  I (fst (with_body st inputs)) ->
  (forall s, I s -> I (with_exit s)) ->
  keeps I (fun _ => True) (finally st) ->
  I (fst (joy_controller st inputs)).
Proof.
  intros H0 Hbody Hwith Hfin.
  assert (Htry : I (fst (try_body st inputs))).
  { unfold try_body. destruct (before_with_raises st); [exact H0 |].
    destruct (with_body st inputs) as [s [| | |]]; cbn [fst] in *;
      try exact Hbody; apply Hwith, Hbody. }
  unfold joy_controller.
  destruct (try_body st inputs) as [s e]. cbn [fst] in Htry.
  destruct (Hfin s Htry) as [Hf _].
  destruct e; [exact Htry | | |];
    destruct (finally st s) as [s' [[] | x]]; exact Hf.
Qed.

(** An invariant of the setup, of every iteration and of the exit path
    holds of the state [joy_controller] ends in. *)
Lemma joy_controller_keeps (I : State -> Prop) (st : Startup)
  (inputs : list TickInput) :
  I (main_entry (t0 st)) ->
  keeps I (fun _ => True) (setup st) ->
  (forall i, keeps I (fun _ => True) (loop_body (battery st) i)) ->
  (forall s, I s -> I (with_exit s)) ->
  keeps I (fun _ => True) (finally st) ->
  I (fst (joy_controller st inputs)).
Proof.
  intros H0 Hsetup Hloop Hwith Hfin.
  apply joy_controller_exit_keeps; try assumption.
  unfold with_body. destruct (negb (board_ok st)); [exact H0 |].
  destruct (Hsetup _ H0) as [Hs _].
  destruct (setup st (main_entry (t0 st))) as [s' [[] | e]]; cbn [fst] in *;
    [| exact Hs].
  apply (keeps_while I (fun _ => True)); assumption.
Qed.

Lemma newcode_cmds_in_protocol_range (c : Cmds) :
  newcode_cmds_ok c -> Forall (fun v => 900 <= v <= 2100) (CMDS_ORDER c).
Proof.
  unfold newcode_cmds_ok, CMDS_ORDER. intros (Hr & Hp & Ht & Hy & Ha1 & Ha2).
  repeat constructor; lia.
Qed.

(** X12.  Every channel frame newcode.py sends, in any run, carries six
    values in the protocol range [[900, 2100]]; more closely, roll and
    pitch in [[1300, 1700]], throttle in [[900, 1800]], yaw in
    [[1400, 1600]], and each auxiliary channel either 1000 or 1800. *)
Theorem newcode_frames_in_range (st : Startup) (inputs : list TickInput)
  (f : list Z) :
  In f (frames_in (trace (fst (joy_controller st inputs)))) ->
  exists c, f = CMDS_ORDER c /\ newcode_cmds_ok c /\
            Forall (fun v => 900 <= v <= 2100) f.
Proof.
  intro Hin.
  assert (Hall : newcode_range_inv (fst (joy_controller st inputs))).
  { apply joy_controller_keeps.
    - apply main_entry_range.
    - apply setup_range.
    - intro i. apply loop_body_range.
    - apply with_exit_range.
    - apply finally_range. }
  destruct Hall as (_ & _ & Hall).
  destruct (Hall f Hin) as [c [Hf Hc]]. exists c.
  split; [exact Hf |]. split; [exact Hc |].
  rewrite Hf. apply newcode_cmds_in_protocol_range, Hc.
Qed.

End NewCodeRangeRun.

Lemma newcode_frames_in_range_witness :
  exists c, [1500; 1500; 1600; 1500; 1000; 1000] = CMDS_ORDER c /\
            newcode_cmds_ok c /\
            Forall (fun v => 900 <= v <= 2100)
              [1500; 1500; 1600; 1500; 1000; 1000].
Proof.
  apply (newcode_frames_in_range startup_ok
           [tick_at 1001 sticks_centred [] 0]).
  vm_compute. left. reflexivity.
Defined.

(** ** UIjoy.py: the channels stay in range, but for the mode channel *)

Ltac uijoy_fields :=
  cbn beta iota zeta delta
    [fst snd UIjoy.CMDS UIjoy.throttle_trim UIjoy.trace
     UIjoy.set_CMDS UIjoy.set_throttle_trim UIjoy.set_trace
     roll pitch throttle yaw aux1 aux2
     set_roll set_pitch set_throttle set_yaw set_aux1 set_aux2].

Ltac uijoy_range_solve :=
  match goal with
  | H : uijoy_range_inv _ |- uijoy_range_inv _ =>
      destruct H as (?Hc & ?Ht & ?Hf);
      unfold uijoy_range_inv; uijoy_fields;
      split; [| split];
      [ unfold uijoy_cmds_ok in *; uijoy_fields;
        first [ intuition lia
              | repeat split; try tauto; try lia;
                Z.div_mod_to_equations; lia ]
      | try assumption; lia
      | try assumption; try (apply frames_ok_other; [reflexivity | assumption]) ]
  end.

Section UIjoyRange.

Import UIjoy.

Lemma uijoy_dispatch_range (i : TickInput) (button : list bool) :
  keeps uijoy_range_inv (fun _ => True) (button_dispatch i button).
Proof.
  unfold button_dispatch, emit, assign_CMDS.
  keeps_walk; try exact I; uijoy_range_solve.
Qed.

Lemma uijoy_send_RC_range (i : TickInput) :
  keeps uijoy_range_inv (fun _ => True) (send_RC i).
Proof.
  intros s H. split; [| intros; exact I].
  unfold send_RC, emit.
  cbv beta iota zeta delta [bind gets modify ret raise fst snd].
  assert (Hs : uijoy_range_inv
                 (set_trace (trace s ++ [send_RAW_RC (CMDS_ORDER (CMDS s))]) s)).
  { destruct H as (Hc & Ht & Hf). unfold uijoy_range_inv. uijoy_fields.
    split; [exact Hc |]. split; [exact Ht |].
    apply frames_ok_frame; assumption. }
  destruct (rc_accepted i) as [[|] |]; try exact Hs.
  destruct (rc_received i); exact Hs.
Qed.

Lemma uijoy_channel_map_range (snap : Snapshot) :
  keeps uijoy_range_inv (fun _ => True) (channel_map snap).
Proof.
  intros s H. split; [| intros; exact I].
  destruct snap as [axis button].
  assert (Htrim : 0 <= next_throttle_trim button (throttle_trim s) <= 1200).
  { destruct H as (_ & Ht & _). unfold next_throttle_trim.
    destruct (Py.pressed button 7); [lia |].
    destruct (Py.pressed button 6); lia. }
  assert (Hs : uijoy_range_inv
                 (set_CMDS (set_throttle
                              (900 + next_throttle_trim button (throttle_trim s))
                              (CMDS s))
                    (set_throttle_trim
                       (next_throttle_trim button (throttle_trim s)) s))).
  { destruct H as (Hc & Ht & Hf). unfold uijoy_range_inv. uijoy_fields.
    split; [| split; [exact Htrim | exact Hf]].
    unfold uijoy_cmds_ok in *. uijoy_fields. intuition lia. }
  assert (Hrest : forall s0, uijoy_range_inv s0 ->
            uijoy_range_inv
              (fst ((a3 <- index axis 3 ;;
                     assign_CMDS set_roll (scale_axis a3) ;;
                     a4 <- index axis 4 ;;
                     assign_CMDS set_pitch (scale_axis (- a4)) ;;
                     a0 <- index axis 0 ;;
                     assign_CMDS set_yaw (scale_axis a0)) s0))).
  { intros s0 H0.
    apply (fun K : keeps uijoy_range_inv (fun _ => True) _ => proj1 (K s0 H0)).
    unfold assign_CMDS. keeps_walk; try exact I;
      match goal with
      | |- uijoy_range_inv (set_CMDS (_ (scale_axis ?a) _) _) =>
          pose proof (scale_axis_range a)
      end; uijoy_range_solve. }
  unfold channel_map, next_throttle_trim in *.
  destruct (Py.pressed button 7); [| destruct (Py.pressed button 6)];
    apply (Hrest _ Hs).
Qed.

Lemma uijoy_loop_body_range (i : TickInput) :
  keeps uijoy_range_inv (fun _ => True) (loop_body i).
Proof.
  unfold loop_body, assign_CMDS.
  destruct (update i) as [snap |]; keeps_walk; try exact I;
    first [ apply uijoy_channel_map_range | apply uijoy_dispatch_range
          | apply uijoy_send_RC_range | uijoy_range_solve ].
Qed.

(** X13.  Every channel frame UIjoy.py sends, in any run, has roll, pitch
    and yaw in [[1300, 1700]], throttle in [[900, 2100]], [aux1] either
    1000 or 1800, and [aux2] in [[0, 2000)]: the mode channel is the one
    value that can leave the protocol range, and it does (two presses of the
    mode button from the start put 0 on it). *)
Theorem uijoy_frames_in_range (board_ok : bool) (setup_raises : option exn)
  (inputs : list TickInput) (f : list Z) :
  (In f (frames_in (trace (fst (joy_controller board_ok setup_raises inputs)))) ->
   exists c, f = CMDS_ORDER c /\ uijoy_cmds_ok c) /\
  In [1500; 1500; 900; 1500; 1000; 0]
    (frames_in
       (trace (fst (joy_controller true None
                      [tick_at 1001 sticks_centred (held [3%nat]) 0;
                       tick_at 1002 sticks_centred (held [3%nat]) 0])))).
Proof.
  split; [| vm_compute; right; left; reflexivity].
  intro Hin.
  assert (Hinit : uijoy_range_inv init).
  { unfold uijoy_range_inv, init. uijoy_fields. split; [| split].
    - unfold uijoy_cmds_ok. simpl. lia.
    - lia.
    - intros g []. }
  assert (Hloop : frames_ok uijoy_cmds_ok
                    (trace (fst (while_true loop_body inputs init)))).
  { apply (keeps_while uijoy_range_inv (fun _ => True)).
    - intro i. apply uijoy_loop_body_range.
    - exact Hinit. }
  assert (Hexit : forall s, frames_in (trace (finally (with_exit s)))
                            = frames_in (trace s)).
  { intro s. unfold finally, with_exit. uijoy_fields.
    rewrite frames_in_app. simpl. apply app_nil_r. }
  revert Hin. unfold joy_controller.
  destruct (negb board_ok).
  { cbn [fst]. rewrite Hexit. intros []. }
  destruct setup_raises.
  { cbn [fst]. rewrite Hexit. intros []. }
  destruct (while_true loop_body inputs init) as [s' [| | |]];
    cbn [fst] in *; try rewrite Hexit; apply Hloop.
Qed.

End UIjoyRange.

Lemma uijoy_frames_in_range_witness :
  exists c, [1500; 1500; 900; 1500; 1000; 1000] = CMDS_ORDER c /\
            uijoy_cmds_ok c.
Proof.
  destruct (uijoy_frames_in_range true None
              [tick_at 1001 sticks_centred [] 0]
              [1500; 1500; 900; 1500; 1000; 1000]) as [H _].
  apply H. vm_compute. left. reflexivity.
Defined.

(** ** newcode.py: the local [ei] is bound whenever it is read *)

Section EiBound.

Import NewCode.

Let not_unbound : exn -> Prop := fun e => e <> UnboundLocalError.

Ltac bound_solve :=
  first
    [ discriminate
    | match goal with
      | H : hold_bound _ |- hold_bound _ =>
          unfold hold_bound in *; newcode_fields;
          first [ exact H | intros _; discriminate ]
      end ].

Lemma channel_map_bound (snap : Snapshot) :
  keeps hold_bound not_unbound (channel_map snap).
Proof.
  unfold channel_map, scale_yaw. destruct snap as [axis button].
  keeps_walk; unfold not_unbound; bound_solve.
Qed.

Lemma throttle_stage_bound (i : TickInput) (raw_throttle : Z) :
  keeps hold_bound not_unbound (throttle_stage i raw_throttle).
Proof.
  intros s H. unfold throttle_stage, read_altitude, emit, assign_CMDS.
  cbv beta iota zeta delta [bind gets modify ret raise fst snd].
  destruct (alt_hold s) eqn:Hh; cbv beta iota zeta delta [negb].
  - destruct (altitude_hold i) as [a |].
    + replace (ei _) with (ei s) by reflexivity.
      destruct (ei s) as [x |] eqn:He.
      * split; [| intros e E; discriminate E].
        unfold hold_bound. newcode_fields. intros _. discriminate.
      * exfalso. apply (H Hh). exact He.
    + split; [| intros e E; inversion E; unfold not_unbound; discriminate].
      unfold hold_bound in *. newcode_fields. exact H.
  - split; [| intros e E; discriminate E].
    unfold hold_bound in *. newcode_fields. exact H.
Qed.

Lemma button_dispatch_bound (i : TickInput) (button : list bool) :
  keeps hold_bound not_unbound (button_dispatch i button).
Proof.
  intros s H. unfold button_dispatch, board_call, read_altitude, emit,
    assign_CMDS.
  cbv beta iota zeta delta [bind gets modify ret raise fst snd].
  assert (Hsame : forall s', alt_hold s' = alt_hold s -> ei s' = ei s ->
                             hold_bound s').
  { intros s' E1 E2. unfold hold_bound. rewrite E1, E2. exact H. }
  destruct (Py.pressed button 9).
  { destruct (reboot_ok i); (split; [apply Hsame; reflexivity |]);
      intros e E; inversion E; unfold not_unbound; discriminate. }
  destruct (Py.pressed button 0);
    [split; [apply Hsame; reflexivity | intros e E; discriminate E] |].
  destruct (Py.pressed button 1);
    [split; [apply Hsame; reflexivity | intros e E; discriminate E] |].
  destruct (Py.pressed button 3);
    [split; [apply Hsame; reflexivity | intros e E; discriminate E] |].
  destruct (Py.pressed button 2);
    [split; [apply Hsame; reflexivity | intros e E; discriminate E] |].
  destruct (Py.pressed button 7);
    [| split; [exact H | intros e E; discriminate E]].
  destruct (Py.ltb DEBOUNCE_TIME (now_toggle i - last_alt_toggle_time s));
    [| split; [exact H | intros e E; discriminate E]].
  destruct (altitude_toggle i) as [a |].
  - split; [| intros e E; discriminate E].
    unfold hold_bound. newcode_fields. intros _. discriminate.
  - split; [apply Hsame; reflexivity |].
    intros e E; inversion E; unfold not_unbound; discriminate.
Qed.

Lemma rates_stage_bound (b : Battery) (i : TickInput) :
  keeps hold_bound not_unbound (rates_stage b i).
Proof.
  unfold rates_stage, fast_send, slow_step, emit.
  keeps_walk; unfold not_unbound; bound_solve.
Qed.

Lemma loop_body_bound (b : Battery) (i : TickInput) :
  keeps hold_bound not_unbound (loop_body b i).
Proof.
  unfold loop_body, channels_stage, assign_CMDS.
  destruct (update i) as [snap |]; keeps_walk;
    first [ apply channel_map_bound | apply throttle_stage_bound
          | apply button_dispatch_bound | apply rates_stage_bound
          | unfold not_unbound; bound_solve ].
Qed.

(** X14.  The accumulator [ei] is a local of [joy_controller] (the
    [global] statement leaves it out) and is first assigned in the toggle
    branch; yet the hold branch never reads it unbound: in every state the
    loop reaches from its start, hold on implies [ei] assigned, and no run
    of the loop is left by [UnboundLocalError]. *)
Theorem ei_bound_when_read (b : Battery) (inputs : list TickInput) (t : Q) :
  hold_bound (fst (while_true (loop_body b) inputs (main_entry t))) /\
  snd (while_true (loop_body b) inputs (main_entry t))
  <> Left_by_raise UnboundLocalError.
Proof.
  destruct (keeps_while hold_bound not_unbound (loop_body b) inputs
              (loop_body_bound b) (main_entry t)) as [H1 H2].
  - intro Hh. discriminate Hh.
  - split; [exact H1 |]. intro E. apply (H2 _ E). reflexivity.
Qed.

End EiBound.

(** The guard is needed: from a state with hold on and [ei] unassigned the
    hold branch raises. *)
Example unbound_ei_raises :
  snd (NewCode.throttle_stage (tick_at 1001 sticks_centred [] 0) 1600
         (NewCode.set_alt_hold true (NewCode.init 1000)))
  = Raise UnboundLocalError.
Proof. reflexivity. Qed.

(** ** Joysticks with fewer than five axes *)

Lemma bind_assoc {S A B C} (m : M S A) (f : A -> M S B) (g : B -> M S C) (s : S) :
  bind (bind m f) g s = bind m (fun a => bind (f a) g) s.
Proof. unfold bind. destruct (m s) as [s' [a | e]]; reflexivity. Qed.

Lemma bind_ok {S A B} (m : M S A) (k : A -> M S B) (s s1 : S) (a : A) :
  m s = (s1, Ok a) -> bind m k s = k a s1.
Proof. intro H. unfold bind. rewrite H. reflexivity. Qed.

Section ShortAxes.

Let not_index : exn -> Prop := fun e => e <> IndexError.
Let always : NewCode.State -> Prop := fun _ => True.
Let always_u : UIjoy.State -> Prop := fun _ => True.

Lemma newcode_after_map_no_index (b : NewCode.Battery) (i : TickInput)
  (button : list bool) (raw : Z * Z * Z * Z) :
  keeps always not_index
    ((let '(raw_throttle, raw_roll, raw_pitch, raw_yaw) := raw in
      NewCode.throttle_stage i raw_throttle ;;
      NewCode.assign_CMDS set_yaw raw_yaw ;;
      NewCode.assign_CMDS set_roll raw_roll ;;
      NewCode.assign_CMDS set_pitch raw_pitch) ;;
     c <- NewCode.button_dispatch i button ;;
     match c with
     | Break => ret Break
     | Continue => NewCode.rates_stage b i ;; ret Continue
     end).
Proof.
  unfold NewCode.throttle_stage, NewCode.button_dispatch, NewCode.rates_stage,
    NewCode.fast_send, NewCode.slow_step, NewCode.read_altitude,
    NewCode.board_call, NewCode.emit, NewCode.assign_CMDS.
  destruct raw as [[[rt rr] rp] ry].
  keeps_walk; unfold not_index, always; try discriminate; exact I.
Qed.

Lemma newcode_index_error (b : NewCode.Battery) (i : TickInput)
  (s : NewCode.State) :
  snd (NewCode.loop_body b i s) = Raise IndexError <->
  exists axis button,
    update i = Some (axis, button) /\ (List.length axis < 5)%nat.
Proof.
  unfold NewCode.loop_body.
  destruct (update i) as [[axis button] |].
  - unfold NewCode.channels_stage. cbn [snd].
    destruct (Nat.lt_ge_cases (List.length axis) 5) as [Hlt | Hge].
    + split; [intros _; exists axis, button; split; [reflexivity | exact Hlt] |].
      intros _. rewrite !bind_snd, newcode_channel_map_run.
      assert (E4 : nth_error axis 4 = None) by (apply nth_error_None; lia).
      rewrite E4.
      destruct (nth_error axis 1); [| reflexivity].
      destruct (nth_error axis 3); reflexivity.
    + split; [| intros [ax [bt [E Hlt]]]; inversion E; subst; lia].
      intro Hraise. exfalso.
      destruct (nth_error_in_range axis 1) as [a1 E1]; [lia |].
      destruct (nth_error_in_range axis 3) as [a3 E3]; [lia |].
      destruct (nth_error_in_range axis 4) as [a4 E4]; [lia |].
      pose proof (newcode_channel_map_run axis button s) as Hrun.
      rewrite E1, E3, E4 in Hrun. cbv zeta in Hrun.
      rewrite bind_assoc, (bind_ok _ _ _ _ _ Hrun) in Hraise.
      destruct (newcode_after_map_no_index b i button
                  (NewCode.scale_throttle (- a1), scale_axis a3,
                   scale_axis (- a4),
                   1500 + next_yaw_trim button (NewCode.yaw_trim s))
                  (NewCode.set_yaw_trim
                     (next_yaw_trim button (NewCode.yaw_trim s)) s) I)
        as [_ Hno].
      apply (Hno IndexError Hraise). reflexivity.
  - split; [discriminate |]. intros [ax [bt [E _]]]. discriminate E.
Qed.

Lemma uijoy_index_error (i : TickInput) (u : UIjoy.State) :
  snd (UIjoy.loop_body i u) = Raise IndexError <->
  exists axis button,
    update i = Some (axis, button) /\ (List.length axis < 5)%nat.
Proof.
  unfold UIjoy.loop_body.
  destruct (update i) as [[axis button] |].
  - cbn [snd].
    destruct (Nat.lt_ge_cases (List.length axis) 5) as [Hlt | Hge].
    + split; [intros _; exists axis, button; split; [reflexivity | exact Hlt] |].
      intros _.
      assert (E4 : nth_error axis 4 = None) by (apply nth_error_None; lia).
      unfold UIjoy.channel_map, UIjoy.assign_CMDS, index.
      cbv beta iota zeta delta [bind gets modify ret raise fst snd].
      rewrite E4.
      destruct (Py.pressed button 7); [| destruct (Py.pressed button 6)];
        destruct (nth_error axis 3); reflexivity.
    + split; [| intros [ax [bt [E Hlt]]]; inversion E; subst; lia].
      intro Hraise. exfalso.
      destruct (nth_error_in_range axis 0) as [a0 E0]; [lia |].
      destruct (nth_error_in_range axis 3) as [a3 E3]; [lia |].
      destruct (nth_error_in_range axis 4) as [a4 E4]; [lia |].
      assert (K : keeps always_u not_index
                    (UIjoy.channel_map (axis, button) ;;
                     c <- UIjoy.button_dispatch i button ;;
                     match c with
                     | Break => ret Break
                     | Continue => UIjoy.send_RC i ;; ret Continue
                     end)).
      { unfold UIjoy.channel_map, UIjoy.button_dispatch, UIjoy.send_RC,
          UIjoy.emit, UIjoy.assign_CMDS, index.
        rewrite E0, E3, E4.
        keeps_walk; unfold not_index, always_u; try discriminate; exact I. }
      destruct (K u I) as [_ Hno]. apply (Hno IndexError Hraise). reflexivity.
  - split; [discriminate |]. intros [ax [bt [E _]]]. discriminate E.
Qed.

(** X15.  The axes are read without a bounds check (the buttons with one):
    in both scripts an iteration raises [IndexError] exactly when
    [update()] succeeded on a joystick with fewer than five axes, whatever
    the state, the buttons and the answers of the board. *)
Theorem index_error_iff_short_axes (b : NewCode.Battery) (i : TickInput)
  (s : NewCode.State) (u : UIjoy.State) :
  (snd (NewCode.loop_body b i s) = Raise IndexError <->
   exists axis button,
     update i = Some (axis, button) /\ (List.length axis < 5)%nat) /\
  (snd (UIjoy.loop_body i u) = Raise IndexError <->
   exists axis button,
     update i = Some (axis, button) /\ (List.length axis < 5)%nat).
Proof.
  split; [apply newcode_index_error | apply uijoy_index_error].
Qed.

End ShortAxes.

Lemma index_error_iff_short_axes_witness :
  snd (NewCode.loop_body battery_3s (tick_at 1001 [0; 0; 0; 0]%Q [] 0)
         (NewCode.init 1000)) = Raise IndexError /\
  exists axis button,
    update (tick_at 1001 [0; 0]%Q [] 0) = Some (axis, button) /\
    (List.length axis < 5)%nat.
Proof.
  split.
  - apply (proj1 (index_error_iff_short_axes battery_3s
                    (tick_at 1001 [0; 0; 0; 0]%Q [] 0)
                    (NewCode.init 1000) UIjoy.init)).
    exists [0; 0; 0; 0]%Q, []. split; [reflexivity | simpl; lia].
  - apply (proj2 (index_error_iff_short_axes battery_3s
                    (tick_at 1001 [0; 0]%Q [] 0)
                    (NewCode.init 1000) UIjoy.init)).
    reflexivity.
Defined.

(** ** newcode.py: the order of the telemetry queries *)

Section TelemetryOrder.

Import NewCode.

Ltac queries_solve :=
  match goal with
  | H : queries_since _ _ |- queries_since _ _ =>
      unfold queries_since in *; newcode_fields;
      rewrite ?queries_in_app; simpl queries_in; rewrite ?app_nil_r; exact H
  end.

Lemma slow_step_queries (sent : list string) (b : Battery) (i : TickInput) :
  keeps (queries_since sent) (fun _ => True) (slow_step b i).
Proof.
  intros s H. split; [| intros; exact I].
  unfold slow_step, emit.
  cbv beta iota zeta delta [bind gets modify ret raise fst snd].
  destruct (Qle_bool SLOW_MSGS_LOOP_TIME (now_slow i - last_slow_msg_time s));
    [| exact H].
  assert (Hq : forall l,
            queries_in l = [] ->
            forall s',
              slow_msgs s' = S (slow_msgs s) ->
              trace s' = ((trace s ++ [send_RAW_msg (next_slow_msg (slow_msgs s))])
                          ++ l)%list ->
              queries_since sent s').
  { intros l Hl s' Hn Ht. unfold queries_since in *.
    rewrite Hn, Ht, !queries_in_app, Hl, app_nil_r, H, seq_S, map_app.
    rewrite <- app_assoc. reflexivity. }
  destruct (msg_accepted i) as [[|] |].
  - destruct (msg_received i).
    + destruct (String.eqb _ "MSP_ANALOG").
      * apply (Hq [show_voltage_msg
                     (voltage_msg (min_voltage b) (warn_voltage b)
                        (max_voltage b) (voltage i))]); reflexivity.
      * apply (Hq []); [reflexivity | reflexivity |].
        newcode_fields. rewrite app_nil_r. reflexivity.
    + apply (Hq []); [reflexivity | reflexivity |].
      newcode_fields. rewrite app_nil_r. reflexivity.
  - destruct (String.eqb _ "MSP_ANALOG").
    + apply (Hq [show_voltage_msg
                   (voltage_msg (min_voltage b) (warn_voltage b)
                      (max_voltage b) (voltage i))]); reflexivity.
    + apply (Hq []); [reflexivity | reflexivity |].
      newcode_fields. rewrite app_nil_r. reflexivity.
  - apply (Hq []); [reflexivity | reflexivity |].
    newcode_fields. rewrite app_nil_r. reflexivity.
Qed.

Lemma loop_body_queries (sent : list string) (b : Battery) (i : TickInput) :
  keeps (queries_since sent) (fun _ => True) (loop_body b i).
Proof.
  unfold loop_body, channels_stage, rates_stage, channel_map, scale_yaw,
    throttle_stage, button_dispatch, fast_send, read_altitude, board_call,
    emit, assign_CMDS.
  destruct (update i) as [[axis button] |]; keeps_walk; try exact I;
    first [ apply slow_step_queries | queries_solve ].
Qed.

(** The setup loop logs one query for each item of its list, in order, and
    touches nothing else. *)
Lemma send_all_run (msgs : list string) (s : State) :
  send_all msgs s
  = (set_trace (trace s ++ map send_RAW_msg msgs) s, Ok tt).
Proof.
  revert s. induction msgs as [| msg rest IH]; intro s.
  - simpl. rewrite app_nil_r. destruct s; reflexivity.
  - simpl send_all. unfold emit.
    cbv beta iota zeta delta [bind gets modify ret raise fst snd].
    rewrite IH. unfold set_trace. newcode_fields.
    rewrite <- app_assoc. reflexivity.
Qed.

Lemma queries_in_sent (msgs : list string) :
  queries_in (map send_RAW_msg msgs) = msgs.
Proof.
  induction msgs as [| msg rest IH]; simpl; [reflexivity |].
  f_equal. exact IH.
Qed.

Lemma sent_queries (sent : list string) (t : Q) :
  queries_since sent
    (set_trace (trace (main_entry t) ++ map send_RAW_msg sent) (main_entry t)).
Proof.
  unfold queries_since. newcode_fields.
  rewrite queries_in_app, queries_in_sent.
  change (slow_msgs (main_entry t)) with 0%nat.
  simpl. rewrite app_nil_r. reflexivity.
Qed.

Lemma with_body_queries (st : Startup) (inputs : list TickInput) :
  queries_of_run (command_list (INAV st)) (fst (with_body st inputs)).
Proof.
  unfold with_body. destruct (negb (board_ok st)).
  { exists []. split; [exists (command_list (INAV st)); reflexivity |].
    split; [reflexivity |]. cbn. intro H. inversion H. }
  unfold setup. destruct (setup_raises st) as [[n e] |].
  - cbv beta iota zeta delta [bind ret raise].
    rewrite send_all_run. cbn [fst].
    exists (firstn n (command_list (INAV st))).
    split; [exists (skipn n (command_list (INAV st)));
            symmetry; apply firstn_skipn |].
    split; [apply sent_queries |].
    newcode_fields. cbn. intro H. inversion H.
  - rewrite send_all_run.
    exists (command_list (INAV st)).
    split; [exists []; symmetry; apply app_nil_r |].
    split; [| intros _; reflexivity].
    apply (keeps_while (queries_since (command_list (INAV st))) (fun _ => True)).
    + intro i. apply loop_body_queries.
    + apply sent_queries.
Qed.

Lemma with_exit_queries (cmds : list string) (s : State) :
  queries_of_run cmds s -> queries_of_run cmds (with_exit s).
Proof.
  intros (sent & Hp & Hq & Hf). exists sent.
  split; [exact Hp |]. split; [unfold with_exit; queries_solve | exact Hf].
Qed.

Lemma finally_queries (cmds : list string) (st : Startup) :
  keeps (queries_of_run cmds) (fun _ => True) (finally st).
Proof.
  unfold finally, emit. keeps_walk; try exact I;
    match goal with
    | H : queries_of_run _ _ |- _ =>
        destruct H as (sent & Hp & Hq & Hf); exists sent;
        split; [exact Hp |]; split; [queries_solve | exact Hf]
    end.
Qed.

(** X16.  In any run of newcode.py the queries sent are the setup queries
    (the 13 items of [command_list], 15 on INAV, or the first of them if
    the setup raised on the way) followed by the telemetry queries, which
    go out in the fixed cycle MSP_ANALOG, MSP_STATUS_EX, MSP_MOTOR, MSP_RC:
    the telemetry query number [k] (counted from 0, after the setup ones)
    is item [k mod 4] of the list, whatever the timing of the iterations
    and whatever the board answers; as many telemetry queries have been
    sent as items drawn from the cycle, and none before the setup list is
    complete. *)
Theorem telemetry_queries_cycle (st : Startup) (inputs : list TickInput)
  (k : nat) (m : string) :
  exists sent : list string,
    (exists rest, command_list (INAV st) = (sent ++ rest)%list) /\
    queries_in (trace (fst (joy_controller st inputs)))
    = (sent ++ map next_slow_msg
                 (seq 0 (slow_msgs (fst (joy_controller st inputs)))))%list /\
    ((0 < slow_msgs (fst (joy_controller st inputs)))%nat ->
     sent = command_list (INAV st)) /\
    (nth_error (queries_in (trace (fst (joy_controller st inputs))))
       (List.length sent + k) = Some m ->
     m = nth (k mod 4) slow_msgs_list "").
Proof.
  assert (Hrun : queries_of_run (command_list (INAV st))
                   (fst (joy_controller st inputs))).
  { apply joy_controller_exit_keeps.
    - exists []. split; [exists (command_list (INAV st)); reflexivity |].
      split; [reflexivity |]. cbn. intro H. inversion H.
    - apply with_body_queries.
    - apply with_exit_queries.
    - apply finally_queries. }
  destruct Hrun as (sent & Hp & Hq & Hf). exists sent.
  split; [exact Hp |]. split; [exact Hq |]. split; [exact Hf |].
  unfold queries_since in Hq. rewrite Hq.
  intro Hk. rewrite nth_error_app2 in Hk by lia.
  replace (List.length sent + k - List.length sent)%nat with k in Hk by lia.
  rewrite nth_error_map in Hk.
  destruct (nth_error (seq 0 (slow_msgs (fst (joy_controller st inputs)))) k)
    as [j |] eqn:Ej; [| discriminate Hk].
  assert (Hlt : (k < List.length
                      (seq 0 (slow_msgs (fst (joy_controller st inputs)))))%nat).
  { apply nth_error_Some. rewrite Ej. discriminate. }
  rewrite length_seq in Hlt.
  rewrite (nth_error_nth' _ 0%nat) in Ej by (rewrite length_seq; exact Hlt).
  rewrite seq_nth in Ej by exact Hlt.
  inversion Ej. subst j. simpl in Hk. inversion Hk. reflexivity.
Qed.

End TelemetryOrder.

Lemma telemetry_queries_cycle_witness :
  "MSP_STATUS_EX" = nth (1 mod 4) NewCode.slow_msgs_list "".
Proof.
  destruct (telemetry_queries_cycle startup_ok
              [tick_at 1001 sticks_centred [] 0;
               tick_at 1002 sticks_centred [] 0;
               tick_at 1003 sticks_centred [] 0] 1 "MSP_STATUS_EX")
    as (sent & _ & _ & Hfull & H).
  apply H. rewrite Hfull by (vm_compute; lia). reflexivity.
Defined.

Example queries_of_a_run :
  queries_in
    (NewCode.trace
       (fst (NewCode.joy_controller startup_ok
               [tick_at 1001 sticks_centred [] 0;
                tick_at 1002 sticks_centred [] 0])))
  = (NewCode.command_list false ++ ["MSP_ANALOG"; "MSP_STATUS_EX"])%list.
Proof. reflexivity. Qed.

(** ** newcode.py: what an iteration sends, and in which order *)

Section IterationLog.

Import NewCode.

Ltac quiet_solve :=
  match goal with
  | H : quiet_since _ _ _ _ _ |- quiet_since _ _ _ _ _ =>
      destruct H as ((?l & ?Htr & ?Hq) & ?H1 & ?H2 & ?H3);
      unfold quiet_since; newcode_fields;
      split; [| split; [| split]; assumption];
      first
        [ eexists; split; [eassumption | assumption]
        | eexists; split;
          [ match goal with Htr' : trace _ = _ |- _ => rewrite Htr' end;
            rewrite <- app_assoc; reflexivity
          | apply Forall_app; split; [assumption | repeat constructor] ] ]
  end.

Lemma channels_stage_quiet (i : TickInput) (snap : Snapshot)
  (tr0 : list Event) (t1 t2 : Q) (n : nat) :
  keeps (quiet_since tr0 t1 t2 n) (fun _ => True) (channels_stage i snap).
Proof.
  unfold channels_stage, channel_map, scale_yaw, throttle_stage,
    read_altitude, emit, assign_CMDS.
  destruct snap as [axis button]. keeps_walk; try exact I; quiet_solve.
Qed.

Lemma button_dispatch_quiet (i : TickInput) (button : list bool)
  (tr0 : list Event) (t1 t2 : Q) (n : nat) :
  keeps (quiet_since tr0 t1 t2 n) (fun _ => True) (button_dispatch i button).
Proof.
  unfold button_dispatch, board_call, read_altitude, emit, assign_CMDS.
  keeps_walk; try exact I; quiet_solve.
Qed.

(** The fast-rate exchange, run: nothing when the period has not elapsed,
    else the timer is set and the current [CMDS] go out. *)
Lemma fast_send_log (i : TickInput) (s : State) :
  let s' := fst (fast_send i s) in
  CMDS s' = CMDS s /\
  last_slow_msg_time s' = last_slow_msg_time s /\
  slow_msgs s' = slow_msgs s /\
  ((Qle_bool CTRL_LOOP_TIME (now_fast i - last_loop_time s) = false /\
    trace s' = trace s /\ last_loop_time s' = last_loop_time s) \/
   (Qle_bool CTRL_LOOP_TIME (now_fast i - last_loop_time s) = true /\
    trace s' = (trace s ++ [send_RAW_RC (CMDS_ORDER (CMDS s))])%list /\
    last_loop_time s' = now_fast_set i)).
Proof.
  unfold fast_send, emit.
  cbv beta iota zeta delta [bind gets modify ret raise fst snd].
  destruct (Qle_bool CTRL_LOOP_TIME (now_fast i - last_loop_time s)).
  - destruct (rc_accepted i) as [[|] |]; [destruct (rc_received i) | |];
      newcode_fields; repeat split; right; repeat split.
  - repeat split. left. repeat split.
Qed.

(** The slow-rate exchange, run: nothing when the period has not elapsed,
    else the timer is set, the cursor moves on and the query goes out,
    followed by the battery message when the exchange went through and the
    query was MSP_ANALOG. *)
Lemma slow_step_log (b : Battery) (i : TickInput) (s : State) :
  let s' := fst (slow_step b i s) in
  CMDS s' = CMDS s /\
  last_loop_time s' = last_loop_time s /\
  ((Qle_bool SLOW_MSGS_LOOP_TIME (now_slow i - last_slow_msg_time s) = false /\
    trace s' = trace s /\ last_slow_msg_time s' = last_slow_msg_time s) \/
   (Qle_bool SLOW_MSGS_LOOP_TIME (now_slow i - last_slow_msg_time s) = true /\
    last_slow_msg_time s' = now_slow_set i /\
    exists tel,
      trace s'
      = (trace s ++ send_RAW_msg (next_slow_msg (slow_msgs s)) :: tel)%list /\
      (tel = [] \/
       tel = [show_voltage_msg
                (voltage_msg (min_voltage b) (warn_voltage b) (max_voltage b)
                   (voltage i))]))).
Proof.
  unfold slow_step, emit.
  cbv beta iota zeta delta [bind gets modify ret raise fst snd].
  destruct (Qle_bool SLOW_MSGS_LOOP_TIME (now_slow i - last_slow_msg_time s)).
  - assert (Hshow : forall (tr : list Event) (e v : Event),
              ((tr ++ [e]) ++ [v] = tr ++ [e; v])%list).
    { intros. rewrite <- app_assoc. reflexivity. }
    destruct (msg_accepted i) as [[|] |]; [destruct (msg_received i) | |];
      try destruct (String.eqb _ "MSP_ANALOG");
      newcode_fields; repeat split; right; repeat split;
      first [ eexists; split; [apply Hshow | right; reflexivity]
            | exists []; split; [reflexivity | left; reflexivity] ].
  - repeat split. left. repeat split.
Qed.

(** The dispatch writes the auxiliary channels only. *)
Lemma button_dispatch_flight (i : TickInput) (button : list bool)
  (v : Z * Z * Z * Z) :
  preserves (fun s => flight (CMDS s) = v) (button_dispatch i button).
Proof.
  unfold button_dispatch, board_call, read_altitude, emit, assign_CMDS.
  preserves_walk; newcode_fields; assumption.
Qed.

Lemma dispatch_continue_no_reboot (i : TickInput) (button : list bool)
  (s : State) :
  snd (button_dispatch i button s) = Ok Continue ->
  Py.pressed button 9 = false.
Proof.
  unfold button_dispatch, board_call, emit.
  destruct (Py.pressed button 9); [| reflexivity].
  cbv beta iota zeta delta [bind gets modify ret raise fst snd].
  destruct (reboot_ok i); discriminate.
Qed.

(** What one iteration adds to the log: quiet calls, then at most one
    frame, then at most one telemetry exchange. *)
Lemma loop_body_log (b : Battery) (i : TickInput) (s : State) :
  let s' := fst (loop_body b i s) in
  exists pre fr tel,
    trace s' = (trace s ++ pre ++ fr ++ tel)%list /\
    Forall (fun e => quiet e = true) pre /\
    ((fr = [] /\ last_loop_time s' = last_loop_time s) \/
     (fr = [send_RAW_RC (CMDS_ORDER (CMDS s'))] /\
      Qle_bool CTRL_LOOP_TIME (now_fast i - last_loop_time s) = true /\
      last_loop_time s' = now_fast_set i)) /\
    ((tel = [] /\ last_slow_msg_time s' = last_slow_msg_time s) \/
     (Qle_bool SLOW_MSGS_LOOP_TIME (now_slow i - last_slow_msg_time s) = true /\
      last_slow_msg_time s' = now_slow_set i /\
      exists rest,
        tel = send_RAW_msg (next_slow_msg (slow_msgs s)) :: rest /\
        (rest = [] \/ exists msg, rest = [show_voltage_msg msg]))) /\
    (fr <> [] \/ tel <> [] ->
     exists axis button,
       update i = Some (axis, button) /\ Py.pressed button 9 = false /\
       snd (channels_stage i (axis, button) s) = Ok tt /\
       flight (CMDS s')
       = flight (CMDS (fst (channels_stage i (axis, button) s)))).
Proof.
  cbv zeta. unfold loop_body.
  destruct (update i) as [[axis button] |].
  2:{ exists [], [], [].
      split; [rewrite app_nil_r; reflexivity |]. split; [constructor |].
      split; [left; split; reflexivity |].
      split; [left; split; reflexivity |].
      intros [H | H]; exfalso; apply H; reflexivity. }
  cbn [snd].
  assert (Hstart : quiet_since (trace s) (last_loop_time s)
                     (last_slow_msg_time s) (slow_msgs s) s).
  { split; [| repeat split].
    exists []. split; [symmetry; apply app_nil_r | constructor]. }
  destruct (channels_stage_quiet i (axis, button) (trace s) (last_loop_time s)
              (last_slow_msg_time s) (slow_msgs s) s Hstart) as [K1 _].
  assert (Hquiet : forall s0,
            quiet_since (trace s) (last_loop_time s) (last_slow_msg_time s)
              (slow_msgs s) s0 ->
            exists pre fr tel,
              trace s0 = (trace s ++ pre ++ fr ++ tel)%list /\
              Forall (fun e => quiet e = true) pre /\
              ((fr = [] /\ last_loop_time s0 = last_loop_time s) \/
               (fr = [send_RAW_RC (CMDS_ORDER (CMDS s0))] /\
                Qle_bool CTRL_LOOP_TIME (now_fast i - last_loop_time s) = true /\
                last_loop_time s0 = now_fast_set i)) /\
              ((tel = [] /\ last_slow_msg_time s0 = last_slow_msg_time s) \/
               (Qle_bool SLOW_MSGS_LOOP_TIME
                  (now_slow i - last_slow_msg_time s) = true /\
                last_slow_msg_time s0 = now_slow_set i /\
                exists rest,
                  tel = send_RAW_msg (next_slow_msg (slow_msgs s)) :: rest /\
                  (rest = [] \/ exists msg, rest = [show_voltage_msg msg]))) /\
              (fr <> [] \/ tel <> [] ->
               exists axis0 button0,
                 Some (axis, button) = Some (axis0, button0) /\
                 Py.pressed button0 9 = false /\
                 snd (channels_stage i (axis0, button0) s) = Ok tt /\
                 flight (CMDS s0)
                 = flight (CMDS (fst (channels_stage i (axis0, button0) s))))).
  { intros s0 ((l & Htr & Hq) & H1 & H2 & H3).
    exists l, [], []. rewrite !app_nil_r.
    split; [exact Htr |]. split; [exact Hq |].
    split; [left; split; [reflexivity | exact H1] |].
    split; [left; split; [reflexivity | exact H2] |].
    intros [H | H]; exfalso; apply H; reflexivity. }
  rewrite bind_fst.
  destruct (snd (channels_stage i (axis, button) s)) as [[] |] eqn:Ec;
    [| apply Hquiet, K1].
  set (s1 := fst (channels_stage i (axis, button) s)) in *.
  destruct (button_dispatch_quiet i button (trace s) (last_loop_time s)
              (last_slow_msg_time s) (slow_msgs s) s1 K1) as [K2 _].
  rewrite bind_fst.
  destruct (snd (button_dispatch i button s1)) as [[|] |] eqn:Ed;
    try (apply Hquiet, K2).
  apply dispatch_continue_no_reboot in Ed.
  set (s2 := fst (button_dispatch i button s1)) in *.
  assert (Hrates : fst ((rates_stage b i ;; ret Continue) s2)
                   = fst (rates_stage b i s2)).
  { rewrite bind_fst. destruct (snd (rates_stage b i s2)); reflexivity. }
  rewrite Hrates. clear Hrates.
  destruct K2 as ((l & Htr & Hq) & H1 & H2 & H3).
  unfold rates_stage. rewrite bind_fst.
  pose proof (fast_send_log i s2) as (F1 & F2 & F3 & F4). cbv zeta in *.
  set (s3 := fst (fast_send i s2)) in *.
  assert (Hfr : exists fr,
            trace s3 = (trace s ++ l ++ fr)%list /\
            ((fr = [] /\ last_loop_time s3 = last_loop_time s) \/
             (fr = [send_RAW_RC (CMDS_ORDER (CMDS s3))] /\
              Qle_bool CTRL_LOOP_TIME (now_fast i - last_loop_time s) = true /\
              last_loop_time s3 = now_fast_set i))).
  { destruct F4 as [(G1 & G2 & G3) | (G1 & G2 & G3)].
    - exists []. rewrite app_nil_r, G2. split; [exact Htr |].
      left. split; [reflexivity |]. rewrite G3. exact H1.
    - exists [send_RAW_RC (CMDS_ORDER (CMDS s3))].
      split; [rewrite G2, Htr, F1, <- app_assoc; reflexivity |].
      right. split; [reflexivity |]. split; [rewrite <- H1; exact G1 | exact G3]. }
  destruct Hfr as (fr & Hfr1 & Hfr2).
  assert (Hwho : forall s0, CMDS s0 = CMDS s2 ->
            exists axis0 button0,
              Some (axis, button) = Some (axis0, button0) /\
              Py.pressed button0 9 = false /\
              snd (channels_stage i (axis0, button0) s) = Ok tt /\
              flight (CMDS s0)
              = flight (CMDS (fst (channels_stage i (axis0, button0) s)))).
  { intros s0 E0. exists axis, button. split; [reflexivity |].
    split; [exact Ed |]. split; [exact Ec |]. rewrite E0.
    apply (button_dispatch_flight i button (flight (CMDS s1)) s1 eq_refl). }
  destruct (snd (fast_send i s2)).
  2:{ exists l, fr, []. rewrite app_nil_r.
      split; [exact Hfr1 |]. split; [exact Hq |]. split; [exact Hfr2 |].
      split; [left; split; [reflexivity | rewrite F2; exact H2] |].
      intros _. apply Hwho. exact F1. }
  pose proof (slow_step_log b i s3) as (S1 & S2 & S4). cbv zeta in *.
  set (s4 := fst (slow_step b i s3)) in *.
  assert (Hfr4 : (fr = [] /\ last_loop_time s4 = last_loop_time s) \/
                 (fr = [send_RAW_RC (CMDS_ORDER (CMDS s4))] /\
                  Qle_bool CTRL_LOOP_TIME (now_fast i - last_loop_time s) = true /\
                  last_loop_time s4 = now_fast_set i)).
  { rewrite S1, S2. exact Hfr2. }
  destruct S4 as [(G1 & G2 & G3) | (G1 & G2 & tel & G3 & G4)].
  - exists l, fr, []. rewrite app_nil_r, G2.
    split; [exact Hfr1 |]. split; [exact Hq |]. split; [exact Hfr4 |].
    split; [left; split; [reflexivity | rewrite G3, F2; exact H2] |].
    intros _. apply Hwho. rewrite S1. exact F1.
  - exists l, fr, (send_RAW_msg (next_slow_msg (slow_msgs s)) :: tel).
    split.
    { rewrite G3, Hfr1, F3, H3, <- !app_assoc. reflexivity. }
    split; [exact Hq |]. split; [exact Hfr4 |].
    split; [| intros _; apply Hwho; rewrite S1; exact F1].
    right. split; [rewrite <- H2, <- F2; exact G1 |]. split; [exact G2 |].
    exists tel. split; [reflexivity |].
    destruct G4 as [-> | ->]; [left; reflexivity | right; eexists; reflexivity].
Qed.

End IterationLog.

Section IterationSends.

Import NewCode.

Lemma quiet_no_frames (l : list Event) :
  Forall (fun e => quiet e = true) l -> frames_in l = [] /\ queries_in l = [].
Proof.
  induction 1 as [| e l He _ [IH1 IH2]]; [split; reflexivity |].
  destruct e; simpl in *; try discriminate He; split; assumption.
Qed.

Lemma added_by_split (b : Battery) (i : TickInput) (s : State)
  (l : list Event) :
  trace (fst (loop_body b i s)) = (trace s ++ l)%list -> added_by b i s = l.
Proof. intro H. unfold added_by. rewrite H. apply skipn_length_app. Qed.

(** X17.  What one iteration of newcode.py puts on the link, in order:
    first calls that are neither frame nor telemetry (altitude reads, the
    reboot request, the pin), then at most one channel frame, then at most
    one telemetry query, with its battery message if any.  An iteration on
    which [update()] raises logs nothing at all, and one with the reboot
    button held sends neither frame nor query, whatever else is held. *)
Theorem iteration_sends_in_order (b : Battery) (i : TickInput) (s : State) :
  (exists pre fr tel,
     added_by b i s = (pre ++ fr ++ tel)%list /\
     Forall (fun e => quiet e = true) pre /\
     (fr = [] \/ exists f, fr = [send_RAW_RC f]) /\
     (tel = [] \/
      exists m, tel = [send_RAW_msg m] \/
                exists msg, tel = [send_RAW_msg m; show_voltage_msg msg])) /\
  (List.length (frames_in (added_by b i s)) <= 1)%nat /\
  (List.length (queries_in (added_by b i s)) <= 1)%nat /\
  (update i = None -> added_by b i s = []) /\
  (forall axis button,
     update i = Some (axis, button) -> Py.pressed button 9 = true ->
     frames_in (added_by b i s) = [] /\ queries_in (added_by b i s) = []).
Proof.
  destruct (loop_body_log b i s) as (pre & fr & tel & Htr & Hq & Hfr & Htel & Hwho).
  pose proof (added_by_split b i s _ Htr) as Hadd.
  destruct (quiet_no_frames pre Hq) as [Qf Qq].
  assert (Hfr' : fr = [] \/ exists f, fr = [send_RAW_RC f]).
  { destruct Hfr as [[-> _] | [-> _]]; [left | right; eexists]; reflexivity. }
  assert (Htel' : tel = [] \/
                  exists m, tel = [send_RAW_msg m] \/
                            exists msg, tel = [send_RAW_msg m; show_voltage_msg msg]).
  { destruct Htel as [[-> _] | (_ & _ & rest & -> & [-> | [msg ->]])].
    - left. reflexivity.
    - right. eexists. left. reflexivity.
    - right. eexists. right. eexists. reflexivity. }
  split; [exists pre, fr, tel; repeat split; assumption |].
  rewrite Hadd, !frames_in_app, !queries_in_app, Qf, Qq.
  split; [| split; [| split]].
  - destruct Hfr' as [-> | [f ->]];
      destruct Htel' as [-> | [m [-> | [msg ->]]]]; simpl; lia.
  - destruct Hfr' as [-> | [f ->]];
      destruct Htel' as [-> | [m [-> | [msg ->]]]]; simpl; lia.
  - intro Hu. rewrite <- Hadd. unfold added_by, loop_body. rewrite Hu.
    cbn. rewrite <- (app_nil_r (trace s)) at 2. apply skipn_length_app.
  - intros axis button Hu B9.
    assert (Hnone : fr = [] /\ tel = []).
    { destruct fr as [| e fr]; [destruct tel as [| e tel] |]; [split; reflexivity | |];
        exfalso;
        (destruct Hwho as (ax & bt & E & B & _);
           [ first [left; discriminate | right; discriminate] |]);
        rewrite Hu in E; inversion E; subst; congruence. }
    destruct Hnone as [-> ->]. split; reflexivity.
Qed.

End IterationSends.

Lemma iteration_sends_in_order_witness :
  added_by battery_3s (tick_lost 1001) (NewCode.init 1000) = [] /\
  frames_in (added_by battery_3s
               (tick_at 1001 sticks_centred (held [0; 9]%nat) 0)
               (NewCode.init 1000)) = [].
Proof.
  destruct (iteration_sends_in_order battery_3s (tick_lost 1001)
              (NewCode.init 1000)) as (_ & _ & _ & H & _).
  destruct (iteration_sends_in_order battery_3s
              (tick_at 1001 sticks_centred (held [0; 9]%nat) 0)
              (NewCode.init 1000)) as (_ & _ & _ & _ & H9).
  split.
  - apply H. reflexivity.
  - apply (H9 sticks_centred (held [0; 9]%nat)); reflexivity.
Defined.

Section RateLimits.

Import NewCode.

(** An iteration that sends a frame found the fast period elapsed and
    leaves the fast timer at its second clock reading; otherwise it leaves
    the timer alone.  The same for a query and the slow timer. *)
Lemma loop_body_timers (b : Battery) (i : TickInput) (s : State) :
  let s' := fst (loop_body b i s) in
  ((frames_in (added_by b i s) = [] /\ last_loop_time s' = last_loop_time s) \/
   (frames_in (added_by b i s) <> [] /\
    Qle_bool CTRL_LOOP_TIME (now_fast i - last_loop_time s) = true /\
    last_loop_time s' = now_fast_set i)) /\
  ((queries_in (added_by b i s) = [] /\
    last_slow_msg_time s' = last_slow_msg_time s) \/
   (queries_in (added_by b i s) <> [] /\
    Qle_bool SLOW_MSGS_LOOP_TIME (now_slow i - last_slow_msg_time s) = true /\
    last_slow_msg_time s' = now_slow_set i)).
Proof.
  cbv zeta.
  destruct (loop_body_log b i s) as (pre & fr & tel & Htr & Hq & Hfr & Htel & _).
  rewrite (added_by_split b i s _ Htr), !frames_in_app, !queries_in_app.
  destruct (quiet_no_frames pre Hq) as [-> ->].
  assert (Hft : frames_in tel = []).
  { destruct Htel as [[-> _] | (_ & _ & rest & -> & [-> | [msg ->]])];
      reflexivity. }
  assert (Hqf : queries_in fr = []).
  { destruct Hfr as [[-> _] | [-> _]]; reflexivity. }
  rewrite Hft, Hqf. split.
  - destruct Hfr as [[-> H] | (-> & H1 & H2)].
    + left. split; [reflexivity | exact H].
    + right. split; [discriminate | split; assumption].
  - destruct Htel as [[-> H] | (H1 & H2 & rest & -> & _)].
    + left. split; [reflexivity | exact H].
    + right. split; [discriminate | split; assumption].
Qed.

Lemma loop_body_fast_timer_bound (b : Battery) (i : TickInput) (t : Q) :
  (t <= now_fast_set i)%Q ->
  preserves (fun s => (t <= last_loop_time s)%Q) (loop_body b i).
Proof.
  intros Ht s H.
  destruct (loop_body_timers b i s) as [[[_ E] | (_ & _ & E)] _];
    cbv zeta in E; rewrite E; assumption.
Qed.

Lemma loop_body_slow_timer_bound (b : Battery) (i : TickInput) (t : Q) :
  (t <= now_slow_set i)%Q ->
  preserves (fun s => (t <= last_slow_msg_time s)%Q) (loop_body b i).
Proof.
  intros Ht s H.
  destruct (loop_body_timers b i s) as [_ [[_ E] | (_ & _ & E)]];
    cbv zeta in E; rewrite E; assumption.
Qed.

(** X18.  The two rates are floors, not targets.  In one run, if
    iterations [i] and a later [j] both send a channel frame, then the
    clock read at the fast check of [j] is at least 10 ms after the one
    stored by [i]; and if both send a telemetry query, the clock read at
    the slow check of [j] is at least 200 ms after the one stored by [i]
    (the clock not running backwards in between). *)
Theorem sends_are_spaced (b : Battery) (i j : TickInput)
  (mid : list TickInput) (s s2 : State) :
  while_true (loop_body b) (i :: mid) s = (s2, Running) ->
  ((forall m, In m mid -> (now_fast_set i <= now_fast_set m)%Q) ->
   frames_in (added_by b i s) <> [] -> frames_in (added_by b j s2) <> [] ->
   (CTRL_LOOP_TIME <= now_fast j - now_fast_set i)%Q) /\
  ((forall m, In m mid -> (now_slow_set i <= now_slow_set m)%Q) ->
   queries_in (added_by b i s) <> [] -> queries_in (added_by b j s2) <> [] ->
   (SLOW_MSGS_LOOP_TIME <= now_slow j - now_slow_set i)%Q).
Proof.
  intro Hrun. apply while_true_running_cons in Hrun. destruct Hrun as [_ Hmid].
  assert (Hs2 : s2 = fst (while_true (loop_body b) mid (fst (loop_body b i s))))
    by (rewrite Hmid; reflexivity).
  split.
  - intros Hclock Hi Hj.
    destruct (loop_body_timers b i s) as [[[E _] | (_ & _ & Hlast)] _];
      [contradiction |]. cbv zeta in Hlast.
    assert (Hinv : (now_fast_set i <= last_loop_time s2)%Q).
    { rewrite Hs2.
      apply (preserves_while (fun s => (now_fast_set i <= last_loop_time s)%Q)).
      - intros m Hm. apply loop_body_fast_timer_bound. apply Hclock, Hm.
      - rewrite Hlast. apply Qle_refl. }
    destruct (loop_body_timers b j s2) as [[[E _] | (_ & D & _)] _];
      [contradiction |].
    apply Qle_bool_iff in D. lra.
  - intros Hclock Hi Hj.
    destruct (loop_body_timers b i s) as [_ [[E _] | (_ & _ & Hlast)]];
      [contradiction |]. cbv zeta in Hlast.
    assert (Hinv : (now_slow_set i <= last_slow_msg_time s2)%Q).
    { rewrite Hs2.
      apply (preserves_while
               (fun s => (now_slow_set i <= last_slow_msg_time s)%Q)).
      - intros m Hm. apply loop_body_slow_timer_bound. apply Hclock, Hm.
      - rewrite Hlast. apply Qle_refl. }
    destruct (loop_body_timers b j s2) as [_ [[E _] | (_ & D & _)]];
      [contradiction |].
    apply Qle_bool_iff in D. lra.
Qed.

End RateLimits.

Lemma sends_are_spaced_witness :
  (NewCode.CTRL_LOOP_TIME
   <= now_fast (tick_at 1003 sticks_centred [] 0)
      - now_fast_set (tick_at 1001 sticks_centred [] 0))%Q.
Proof.
  destruct (sends_are_spaced battery_3s
              (tick_at 1001 sticks_centred [] 0)
              (tick_at 1003 sticks_centred [] 0)
              [tick_at 1002 sticks_centred [] 0]
              (NewCode.init 1000)
              (fst (while_true (NewCode.loop_body battery_3s)
                      [tick_at 1001 sticks_centred [] 0;
                       tick_at 1002 sticks_centred [] 0]
                      (NewCode.init 1000)))) as [H _].
  - vm_compute. reflexivity.
  - apply H.
    + intros m [Hm | []]. subst m. unfold Qle. simpl. lia.
    + vm_compute. discriminate.
    + vm_compute. discriminate.
Defined.

Section FrameContents.

Import NewCode.

(** The channels stage, when it returns, has written the four flight
    channels from this iteration's axes and trim. *)
Lemma channels_stage_flight (i : TickInput) (axis : list Q)
  (button : list bool) (s : State) :
  snd (channels_stage i (axis, button) s) = Ok tt ->
  exists a1 a3 a4,
    nth_error axis 1 = Some a1 /\ nth_error axis 3 = Some a3 /\
    nth_error axis 4 = Some a4 /\
    let c := CMDS (fst (channels_stage i (axis, button) s)) in
    roll c = scale_axis a3 /\ pitch c = scale_axis (- a4) /\
    yaw c = 1500 + next_yaw_trim button (yaw_trim s) /\
    (alt_hold s = false -> throttle c = scale_throttle (- a1)) /\
    (alt_hold s = true -> 900 <= throttle c <= 1600).
Proof.
  unfold channels_stage. rewrite bind_fst, bind_snd, newcode_channel_map_run.
  destruct (nth_error axis 1) as [a1 |]; [| discriminate].
  destruct (nth_error axis 3) as [a3 |]; [| discriminate].
  destruct (nth_error axis 4) as [a4 |]; [| discriminate].
  cbn [fst snd]. intro Hok. exists a1, a3, a4.
  split; [reflexivity |]. split; [reflexivity |]. split; [reflexivity |].
  revert Hok. unfold throttle_stage, read_altitude, emit, assign_CMDS.
  cbv beta iota zeta delta [bind gets modify ret raise fst snd].
  newcode_fields.
  destruct (alt_hold s) eqn:Hh; cbv beta iota zeta delta [negb].
  - destruct (altitude_hold i) as [a |]; [| discriminate].
    newcode_fields.
    destruct (ei s) as [x |]; [| discriminate].
    intros _. newcode_fields.
    split; [reflexivity |]. split; [reflexivity |]. split; [reflexivity |].
    split; [intro Hc; discriminate Hc | intros _; lia].
  - intros _. newcode_fields.
    split; [reflexivity |]. split; [reflexivity |]. split; [reflexivity |].
    split; [intros _; reflexivity | intro Hc; discriminate Hc].
Qed.

(** X19.  A frame sent by an iteration of newcode.py carries that
    iteration's sticks: roll is [scale_axis(axis[3])], pitch is
    [scale_axis(-axis[4])], yaw is 1500 plus the trim just updated from the
    buttons, and throttle is [scale_throttle(-axis[1])] when hold was off on
    entry and a value in [[900, 1600]] when it was on. *)
Theorem frame_carries_current_sticks (b : Battery) (i : TickInput)
  (s : State) (f : list Z) :
  In f (frames_in (added_by b i s)) ->
  exists axis button a1 a3 a4 thr a5 a6,
    update i = Some (axis, button) /\
    nth_error axis 1 = Some a1 /\ nth_error axis 3 = Some a3 /\
    nth_error axis 4 = Some a4 /\
    f = [scale_axis a3; scale_axis (- a4); thr;
         1500 + next_yaw_trim button (yaw_trim s); a5; a6] /\
    (alt_hold s = false -> thr = scale_throttle (- a1)) /\
    (alt_hold s = true -> 900 <= thr <= 1600).
Proof.
  intro Hin.
  destruct (loop_body_log b i s) as (pre & fr & tel & Htr & Hq & Hfr & Htel & Hwho).
  rewrite (added_by_split b i s _ Htr), !frames_in_app in Hin.
  destruct (quiet_no_frames pre Hq) as [Qf _]. rewrite Qf in Hin.
  assert (Hft : frames_in tel = []).
  { destruct Htel as [[-> _] | (_ & _ & rest & -> & [-> | [msg ->]])];
      reflexivity. }
  rewrite Hft, app_nil_r in Hin. cbn [app] in Hin.
  destruct Hfr as [[-> _] | (Efr & _ & _)]; [destruct Hin |].
  destruct Hwho as (axis & button & Hu & _ & Hok & Hfl).
  { left. rewrite Efr. discriminate. }
  rewrite Efr in Hin. simpl in Hin. destruct Hin as [<- | []].
  destruct (channels_stage_flight i axis button s Hok)
    as (a1 & a3 & a4 & E1 & E3 & E4 & Hr & Hp & Hy & Ht0 & Ht1).
  cbv zeta in *. unfold flight in Hfl. inversion Hfl as [[Fr Fp Ft Fy]].
  exists axis, button, a1, a3, a4,
    (throttle (CMDS (fst (loop_body b i s)))),
    (aux1 (CMDS (fst (loop_body b i s)))),
    (aux2 (CMDS (fst (loop_body b i s)))).
  split; [exact Hu |]. split; [exact E1 |]. split; [exact E3 |].
  split; [exact E4 |].
  split; [unfold CMDS_ORDER; rewrite Fr, Fp, Fy, Hr, Hp, Hy; reflexivity |].
  rewrite Ft. split; assumption.
Qed.

End FrameContents.

Lemma frame_carries_current_sticks_witness :
  exists axis button a1 a3 a4 thr a5 a6,
    update (tick_at 1001 [0; 1 # 2; 0; -1 # 4; 1; 0]%Q (held [5%nat]) 0)
    = Some (axis, button) /\
    nth_error axis 1 = Some a1 /\ nth_error axis 3 = Some a3 /\
    nth_error axis 4 = Some a4 /\
    [1450; 1300; 1275; 1510; 1000; 1000]
    = [scale_axis a3; scale_axis (- a4); thr;
       1500 + next_yaw_trim button (NewCode.yaw_trim (NewCode.init 1000));
       a5; a6] /\
    (NewCode.alt_hold (NewCode.init 1000) = false ->
     thr = NewCode.scale_throttle (- a1)) /\
    (NewCode.alt_hold (NewCode.init 1000) = true -> 900 <= thr <= 1600).
Proof.
  apply (frame_carries_current_sticks battery_3s
           (tick_at 1001 [0; 1 # 2; 0; -1 # 4; 1; 0]%Q (held [5%nat]) 0)
           (NewCode.init 1000)).
  vm_compute. left. reflexivity.
Defined.

(** ** UIjoy.py: one frame per completed iteration *)

Section UIjoyFrames.

Import UIjoy.

Lemma uijoy_channel_map_trace (snap : Snapshot) (tr : list Event) :
  preserves (fun s => trace s = tr) (channel_map snap).
Proof.
  unfold channel_map, assign_CMDS. destruct snap as [axis button].
  preserves_walk; uijoy_fields; assumption.
Qed.

Lemma uijoy_dispatch_log (i : TickInput) (button : list bool) (s : State) :
  (snd (button_dispatch i button s) = Ok Continue /\
   trace (fst (button_dispatch i button s)) = trace s) \/
  (snd (button_dispatch i button s) <> Ok Continue /\
   trace (fst (button_dispatch i button s)) = (trace s ++ [reboot])%list).
Proof.
  unfold button_dispatch, emit, assign_CMDS.
  destruct (Py.pressed button 0); [left; split; reflexivity |].
  destruct (Py.pressed button 1); [left; split; reflexivity |].
  destruct (Py.pressed button 3); [left; split; reflexivity |].
  destruct (Py.pressed button 2); [left; split; reflexivity |].
  destruct (Py.pressed button 9); [| left; split; reflexivity].
  right. cbv beta iota zeta delta [bind gets modify ret raise fst snd].
  destruct (reboot_ok i); split; try discriminate; reflexivity.
Qed.

Lemma uijoy_send_RC_log (i : TickInput) (s : State) :
  trace (fst (send_RC i s)) = (trace s ++ [send_RAW_RC (CMDS_ORDER (CMDS s))])%list /\
  CMDS (fst (send_RC i s)) = CMDS s.
Proof.
  unfold send_RC, emit.
  cbv beta iota zeta delta [bind gets modify ret raise fst snd].
  destruct (rc_accepted i) as [[|] |]; [destruct (rc_received i) | |];
    split; reflexivity.
Qed.

(** X20.  UIjoy.py has no rate gate: every iteration that runs to its end
    sends exactly one frame, the [CMDS] it leaves; an iteration on which
    [update()] raises logs nothing; and one that ends the loop logs the
    reboot request and no frame. *)
Theorem uijoy_frame_per_iteration (i : TickInput) (u : State) :
  (update i = None -> uijoy_added_by i u = []) /\
  (update i <> None -> snd (loop_body i u) = Ok Continue ->
   uijoy_added_by i u = [send_RAW_RC (CMDS_ORDER (CMDS (fst (loop_body i u))))]) /\
  (snd (loop_body i u) = Ok Break -> uijoy_added_by i u = [reboot]).
Proof.
  unfold uijoy_added_by, loop_body.
  destruct (update i) as [[axis button] |].
  2:{ split; [| split].
      - intros _. cbn. rewrite <- (app_nil_r (trace u)) at 2.
        apply skipn_length_app.
      - intro H. exfalso. apply H. reflexivity.
      - cbn. discriminate. }
  cbn [snd]. split; [discriminate |].
  pose proof (uijoy_channel_map_trace (axis, button) (trace u) u eq_refl) as T1.
  cbn beta in T1.
  rewrite bind_fst, bind_snd.
  destruct (snd (channel_map (axis, button) u)) as [[] |];
    [| split; [intros _ H | intro H]; discriminate H].
  set (s1 := fst (channel_map (axis, button) u)) in *.
  rewrite bind_fst, bind_snd.
  destruct (uijoy_dispatch_log i button s1) as [[D1 D2] | [D1 D2]].
  - rewrite D1. rewrite bind_fst, bind_snd.
    set (s2 := fst (button_dispatch i button s1)) in *.
    destruct (uijoy_send_RC_log i s2) as [R1 R2].
    destruct (snd (send_RC i s2)) as [[] |].
    + cbn [fst snd ret]. split; [| discriminate].
      intros _ _. rewrite R1, R2, D2, T1. apply skipn_length_app.
    + split; [intros _ H | intro H]; discriminate H.
  - destruct (snd (button_dispatch i button s1)) as [[|] |].
    + exfalso. apply D1. reflexivity.
    + cbn [fst snd ret]. split; [intros _ H; discriminate H |].
      intros _. rewrite D2, T1. apply skipn_length_app.
    + split; [intros _ H | intro H]; discriminate H.
Qed.

End UIjoyFrames.

Lemma uijoy_frame_per_iteration_witness :
  uijoy_added_by (tick_lost 1001) UIjoy.init = [] /\
  uijoy_added_by (tick_at 1001 sticks_centred (held [9%nat]) 0) UIjoy.init
  = [reboot].
Proof.
  split.
  - apply (uijoy_frame_per_iteration (tick_lost 1001) UIjoy.init). reflexivity.
  - apply (uijoy_frame_per_iteration
             (tick_at 1001 sticks_centred (held [9%nat]) 0) UIjoy.init).
    reflexivity.
Defined.

(** ** [run_curses] around [joy_controller] *)

Section RunCurses.

Import Curses.

Ltac curses_eval :=
  cbv beta iota zeta delta
    [run_curses try_finally curses_try curses_finally call log
     external_function bind modify gets ret raise set_result set_screen
     set_term entry result screen term fst snd app is_1].

(** Follows the run through every curses call that can raise. *)
Ltac curses_cases fails :=
  repeat (curses_eval;
          match goal with
          | |- context [fails ?t] => destruct (fails t) eqn:?
          end);
  curses_eval.

(** The [finally] clause runs however the [try] body ends. *)
Lemma run_curses_reaches_finally (fails : Terminal -> bool) (body : returned) :
  In nocbreak (term (fst (run_curses fails body entry))).
Proof.
  destruct body as [[z |] | x]; curses_cases fails;
    try (destruct (z =? 1)); simpl; tauto.
Qed.

(** The error line is printed only after the terminal has been given back,
    and never when [initscr] raised. *)
Lemma run_curses_prints_last (fails : Terminal -> bool) (body : returned) :
  In print_error (term (fst (run_curses fails body entry))) ->
  In endwin (term (fst (run_curses fails body entry))) /\
  fails initscr = false.
Proof.
  destruct body as [[z |] | x]; curses_cases fails;
    try (destruct (z =? 1)); simpl;
    intuition (try discriminate; try congruence).
Qed.

(** When [initscr] raises, [screen] is never bound: the [finally] clause
    stops at [screen.keypad(0)] (or already at [nocbreak]), so that
    [endwin] is not called, nothing is printed, and the error that leaves
    is the one of the clause. *)
Lemma run_curses_without_terminal (fails : Terminal -> bool) (body : returned) :
  fails initscr = true ->
  ~ In endwin (term (fst (run_curses fails body entry))) /\
  ~ In print_error (term (fst (run_curses fails body entry))) /\
  snd (run_curses fails body entry)
  = Raise (if fails nocbreak then CursesError else UnboundLocalError).
Proof.
  intro H. curses_eval. rewrite H. curses_eval.
  destruct (fails nocbreak); curses_eval;
    (split; [| split]; [simpl; intuition discriminate
                       | simpl; intuition discriminate | reflexivity]).
Qed.

(** With no curses call raising, the whole run. *)
Lemma run_curses_sound (fails : Terminal -> bool) (body : returned) :
  (forall t, fails t = false) ->
  term (fst (run_curses fails body entry))
  = ([initscr; noecho; cbreak; timeout_0; keypad true; addstr_help;
      nocbreak; keypad false; echo; endwin]
     ++ match body with
        | Returns v => if is_1 v then [print_error] else []
        | Raises _ => [print_error]
        end)%list /\
  snd (run_curses fails body entry)
  = match body with
    | Returns _ => Ok tt
    | Raises x => Raise x
    end.
Proof.
  intro H. curses_eval. rewrite !H.
  destruct body as [[z |] | x]; curses_eval; rewrite ?H; curses_eval;
    try (destruct (z =? 1)); split; reflexivity.
Qed.

(** X21.  [run_curses] as a [try]/[finally] around the control function.
    The [finally] clause always runs.  With no curses call raising, the
    terminal is set up, the control function runs, the terminal is given
    back ([nocbreak], [keypad(0)], [echo], [endwin], in that order) and the
    error line is printed exactly when [result] is still 1: the function
    returned 1 or raised (the assignment to [result] was not reached); so
    for [joy_controller] it is printed on every exit but the one by [break]
    after the reboot request, and exactly the exception that left
    [joy_controller] is let through.  The error line comes only after
    [endwin].  When [initscr] itself raises, the clause fails on the
    unbound [screen]: [endwin] is not called, nothing is printed, and the
    error of the clause replaces the one of [initscr]. *)
Theorem run_curses_reports (fails : Terminal -> bool) (body : returned)
  (e : loop_exit) :
  let out := run_curses fails body entry in
  In nocbreak (term (fst out)) /\
  (In print_error (term (fst out)) ->
   In endwin (term (fst out)) /\ fails initscr = false) /\
  (fails initscr = true ->
   ~ In endwin (term (fst out)) /\ ~ In print_error (term (fst out)) /\
   snd out = Raise (if fails nocbreak then CursesError else UnboundLocalError)) /\
  ((forall t, fails t = false) ->
   term (fst out)
   = ([initscr; noecho; cbreak; timeout_0; keypad true; addstr_help;
       nocbreak; keypad false; echo; endwin]
      ++ match body with
         | Returns v => if is_1 v then [print_error] else []
         | Raises _ => [print_error]
         end)%list /\
   snd out = match body with
             | Returns _ => Ok tt
             | Raises x => Raise x
             end /\
   (as_returned e = Some body ->
    (In print_error (term (fst out)) <-> e <> Left_by_break) /\
    (forall x, snd out = Raise x <-> e = Left_by_raise x))).
Proof.
  cbv zeta.
  split; [apply run_curses_reaches_finally |].
  split; [apply run_curses_prints_last |].
  split; [apply run_curses_without_terminal |].
  intro H. destruct (run_curses_sound fails body H) as [Ht Hs].
  split; [exact Ht |]. split; [exact Hs |].
  intro He. rewrite Ht, Hs.
  destruct e as [| | | x]; simpl in He; inversion He; subst body; simpl.
  - split; [split; [discriminate | tauto] |].
    intro x. split; discriminate.
  - split.
    + split; [| intro K; exfalso; apply K; reflexivity].
      intros [K | [K | [K | [K | [K | [K | [K | [K | [K | [K | []]]]]]]]]]];
        discriminate K.
    + intro x. split; discriminate.
  - split; [split; [discriminate | tauto] |].
    intro y. split; intro K; inversion K; reflexivity.
Qed.

End RunCurses.

Lemma run_curses_reports_witness :
  In Curses.print_error
    (Curses.term
       (fst (Curses.run_curses Curses.terminal_sound
               (Curses.Raises IndexError) Curses.entry))) /\
  ~ In Curses.endwin
      (Curses.term
         (fst (Curses.run_curses Curses.no_terminal
                 (Curses.Raises IndexError) Curses.entry))).
Proof.
  split.
  - destruct (run_curses_reports Curses.terminal_sound
                (Curses.Raises IndexError) (Left_by_raise IndexError))
      as (_ & _ & _ & H).
    destruct H as (_ & _ & H); [reflexivity |].
    destruct (H eq_refl) as [Hp _]. apply Hp. discriminate.
  - destruct (run_curses_reports Curses.no_terminal
                (Curses.Raises IndexError) (Left_by_raise IndexError))
      as (_ & _ & H & _).
    destruct H as [H _]; [reflexivity | exact H].
Defined.

(** A joystick with too few axes ends the run with [IndexError], and
    [run_curses] then prints the line about the serial port. *)
Example short_joystick_is_reported_as_serial_error :
  let e := snd (NewCode.joy_controller startup_ok
                  [tick_at 1001 [0; 0]%Q [] 0]) in
  e = Left_by_raise IndexError /\
  as_returned e = Some (Curses.Raises IndexError) /\
  In Curses.print_error
    (Curses.term
       (fst (Curses.run_curses Curses.terminal_sound
               (Curses.Raises IndexError) Curses.entry))).
Proof. repeat split; vm_compute; tauto. Qed.

(** With no terminal to open, what leaves [run_curses] is the
    [UnboundLocalError] of its [finally] clause. *)
Example no_terminal_is_reported_as_unbound_local :
  Curses.run_curses Curses.no_terminal (Curses.Returns None) Curses.entry
  = (Curses.mkLocals (Some 1) false [Curses.initscr; Curses.nocbreak],
     Raise UnboundLocalError).
Proof. reflexivity. Qed.

(** ** Altitude hold switched off *)

Section HoldOff.

Import NewCode.

Lemma dispatch_hold_off (i : TickInput) (button : list bool) (s : State)
  (c : control) :
  alt_hold s = false ->
  snd (button_dispatch i button s) = Ok c ->
  alt_hold (fst (button_dispatch i button s)) = false ->
  hold_state (fst (button_dispatch i button s)) = hold_state s.
Proof.
  intro Hoff. unfold button_dispatch, board_call, read_altitude, emit,
    assign_CMDS.
  destruct (Py.pressed button 9).
  { cbv beta iota zeta delta [bind gets modify ret raise fst snd].
    destruct (reboot_ok i); reflexivity. }
  destruct (Py.pressed button 0); [reflexivity |].
  destruct (Py.pressed button 1); [reflexivity |].
  destruct (Py.pressed button 3); [reflexivity |].
  destruct (Py.pressed button 2); [reflexivity |].
  destruct (Py.pressed button 7); [| reflexivity].
  cbv beta iota zeta delta [bind gets modify ret raise fst snd].
  destruct (Py.ltb DEBOUNCE_TIME (now_toggle i - last_alt_toggle_time s));
    [| reflexivity].
  destruct (altitude_toggle i) as [a |]; [| discriminate].
  intros _. newcode_fields. rewrite Hoff. discriminate.
Qed.

(** X22.  While hold is off the controller is inert: an iteration that
    returns and leaves hold off has not touched the setpoint, the filtered
    altitude, the integral or the time of the last toggle. *)
Theorem hold_off_is_inert (b : Battery) (i : TickInput) (s : State)
  (c : control) :
  alt_hold s = false ->
  snd (loop_body b i s) = Ok c ->
  alt_hold (fst (loop_body b i s)) = false ->
  hold_state (fst (loop_body b i s)) = hold_state s.
Proof.
  intro Hoff. unfold loop_body.
  destruct (update i) as [snap |]; [| reflexivity].
  destruct (channels_stage_keeps_hold_off i snap (hold_state s) s
              (conj Hoff eq_refl)) as [K1 K2].
  rewrite bind_fst, bind_snd.
  destruct (snd (channels_stage i snap s)) as [[] |]; [| discriminate].
  set (s1 := fst (channels_stage i snap s)) in *.
  rewrite bind_fst, bind_snd.
  pose proof (dispatch_hold_off i (snd snap) s1) as D.
  destruct (snd (button_dispatch i (snd snap) s1)) as [[|] |];
    [| | discriminate].
  - set (s2 := fst (button_dispatch i (snd snap) s1)) in *.
    pose proof (rates_stage_keeps_hold b i (hold_state s2) s2 eq_refl) as K.
    cbn beta in K. rewrite bind_fst, bind_snd.
    destruct (snd (rates_stage b i s2)); [| discriminate].
    cbn [fst snd ret]. intros _ Hoff'. rewrite K.
    rewrite <- K2. apply (D Continue K1 eq_refl).
    assert (E : alt_hold (fst (rates_stage b i s2)) = alt_hold s2)
      by (unfold hold_state in K; inversion K; reflexivity).
    rewrite <- E. exact Hoff'.
  - cbn [fst snd ret]. intros _ Hoff'. rewrite <- K2.
    apply (D Break K1 eq_refl Hoff').
Qed.

End HoldOff.

Lemma hold_off_is_inert_witness :
  hold_state (fst (NewCode.loop_body battery_3s
                     (tick_at 1001 sticks_centred (held [0%nat]) 0)
                     (NewCode.init 1000)))
  = hold_state (NewCode.init 1000).
Proof.
  apply (hold_off_is_inert battery_3s
           (tick_at 1001 sticks_centred (held [0%nat]) 0)
           (NewCode.init 1000) Continue); reflexivity.
Defined.

(** ** The rolling window of cycle times *)

Lemma record_cycles_length (xs w : list Q) :
  List.length (fold_left record_cycle xs w) = List.length w.
Proof.
  revert w. induction xs as [| x xs IH]; intro w; simpl; [reflexivity |].
  rewrite IH. unfold record_cycle. destruct w as [| a w]; simpl.
  - reflexivity.
  - rewrite length_app. simpl. lia.
Qed.

(** X23.  The window of cycle times always holds exactly ten values: after
    any number of recorded iterations its length is 10, so the average
    never divides by zero; it is the last ten entries of ten zeros followed
    by the recorded times, so after ten or more recordings it holds the
    last ten times, oldest first. *)
Theorem average_cycle_window (times : list Q) :
  let w := fold_left record_cycle times average_cycle_init in
  List.length w = 10%nat /\
  avg_hz w <> None /\
  w = skipn (List.length times) (average_cycle_init ++ times)%list /\
  ((10 <= List.length times)%nat ->
   w = skipn (List.length times - 10) times).
Proof.
  cbv zeta.
  assert (Hlen : List.length (fold_left record_cycle times average_cycle_init)
                 = 10%nat).
  { rewrite record_cycles_length. reflexivity. }
  split; [exact Hlen |]. split.
  { destruct (fold_left record_cycle times average_cycle_init);
      [discriminate Hlen | discriminate]. }
  assert (Hall : forall xs w,
            fold_left record_cycle xs w
            = skipn (List.length xs) (w ++ xs)%list).
  { induction xs as [| x xs IH]; intro w.
    - simpl. symmetry. apply app_nil_r.
    - cbn [fold_left List.length]. rewrite IH. unfold record_cycle.
      destruct w as [| a w].
      + reflexivity.
      + cbn [app tl skipn]. rewrite <- app_assoc. reflexivity. }
  split; [apply Hall |].
  intro H10. rewrite Hall, skipn_app.
  change (List.length average_cycle_init) with 10%nat.
  rewrite skipn_all2 by (change (List.length average_cycle_init) with 10%nat; lia).
  reflexivity.
Qed.

Lemma average_cycle_window_witness :
  fold_left record_cycle (map inject_Z [1; 2; 3; 4; 5; 6; 7; 8; 9; 10; 11; 12])
    average_cycle_init
  = skipn (12 - 10) (map inject_Z [1; 2; 3; 4; 5; 6; 7; 8; 9; 10; 11; 12]).
Proof.
  destruct (average_cycle_window
              (map inject_Z [1; 2; 3; 4; 5; 6; 7; 8; 9; 10; 11; 12]))
    as (_ & _ & _ & H).
  apply H. simpl. lia.
Defined.
